(** * Transcript core of the chat view (ui/src/ui/views/chat.ts and
      ui/src/ui/chat/message-normalizer.ts)

    A shallow embedding of the item builder, the key generator, the content
    extractors, the tool card builder and the grouping fold, followed by the
    properties of the specification that were checked against them.

    Conventions of the embedding.
    - A JavaScript string is a sequence of UTF-16 code units; here it is a
      [string], one [ascii] per code unit, so the code units range over
      0..255.
    - A JavaScript number is a [Number.t]: an integral value, given by a
      [Z] (lengths, indices, the readings of the clock and the time stamps
      made of them), [NaN], an infinity, or a value with a fractional part.
    - [Date.now()] reads a clock that is threaded through the functions that
      call it; a [TypeError] or a failing [JSON.stringify] is the [Throw]
      result. *)

From Stdlib Require Import ZArith List String Ascii Bool Lia.
From Stdlib Require Import Numbers.DecimalString.
Import ListNotations.

Local Open Scope list_scope.
Local Open Scope string_scope.
Local Open Scope Z_scope.

Set Implicit Arguments.
Set Warnings "-register-all".

(* ================================================================== *)
(** ** Strings of the host language *)

Module JsString.

Definition charCode (c : ascii) : Z := Z.of_N (N_of_ascii c).

Definition ofCode (n : Z) : ascii := ascii_of_N (Z.to_N n).

(** [length] of a string, as a number. *)
Definition len (s : string) : Z := Z.of_nat (String.length s).

(** White space and line terminators of ECMAScript below code unit 256:
    TAB, LF, VT, FF, CR, SP and NBSP. *)
Definition isWhiteSpace (c : ascii) : bool :=
  let n := charCode c in
  ((9 <=? n) && (n <=? 13)) || (n =? 32) || (n =? 160).

Fixpoint trimStart (s : string) : string :=
  match s with
  | EmptyString => EmptyString
  | String c r => if isWhiteSpace c then trimStart r else s
  end.

Fixpoint trimEnd (s : string) : string :=
  match s with
  | EmptyString => EmptyString
  | String c r =>
      match trimEnd r with
      | EmptyString =>
          if isWhiteSpace c then EmptyString else String c EmptyString
      | t => String c t
      end
  end.

Definition trim (s : string) : string := trimEnd (trimStart s).

(** [toLowerCase] on one code unit: A-Z and the Latin-1 capitals
    (U+00C0..U+00DE without the multiplication sign U+00D7). *)
Definition lowerChar (c : ascii) : ascii :=
  let n := charCode c in
  if ((65 <=? n) && (n <=? 90))
     || ((192 <=? n) && (n <=? 222) && negb (n =? 215))
  then ofCode (n + 32) else c.

Fixpoint toLowerCase (s : string) : string :=
  match s with
  | EmptyString => EmptyString
  | String c r => String (lowerChar c) (toLowerCase r)
  end.

(** [parts.join(sep)] *)
Fixpoint join (sep : string) (parts : list string) : string :=
  match parts with
  | [] => ""
  | [p] => p
  | p :: rest => p ++ sep ++ join sep rest
  end.

Definition startsWith (s p : string) : bool := String.prefix p s.

(** The one-character string of a line feed. *)
Definition nl : string := String (ascii_of_N 10) "".

Definition isEmpty (s : string) : bool :=
  match s with EmptyString => true | _ => false end.

(** The decimal numeral of an integer. *)
Definition decimal (n : Z) : string := NilZero.string_of_int (Z.to_int n).

(** Whether the integer [v] converts to the Number [n], where [n] is an
    integral Number at least 2^53: [v] lies between the midpoints to the
    neighbours of [n], which are a power of two away (half that power
    below a power of two), the midpoints included when the significand
    of [n] is even.  The quantities are doubled to stay integral. *)
Definition roundsTo (n v : Z) : bool :=
  let e := Z.log2 n - 52 in
  let m := n / 2 ^ e in
  let up := 2 ^ e in
  let down := if m =? 2 ^ 52 then 2 ^ (e - 1) else 2 ^ e in
  let d := 2 * v - 2 * n in
  if Z.even m then (- down <=? d) && (d <=? up)
  else (- down <? d) && (d <? up).

(** Number::toString, the choice of the digits: the integer of the
    fewest significant digits [k] that converts to [n], the closest to
    [n] when there are two, the one of even last digit when they are
    equally close. *)
Fixpoint shortestFrom (fuel : nat) (k digits n : Z) : Z :=
  match fuel with
  | O => n
  | S fuel' =>
      let p := 10 ^ (digits - k) in
      let low := n / p * p in
      let high := low + p in
      match roundsTo n low, roundsTo n high with
      | true, true =>
          if n - low <? high - n then low
          else if high - n <? n - low then high
          else if Z.even (n / p) then low else high
      | true, false => low
      | false, true => high
      | false, false => shortestFrom fuel' (k + 1) digits n
      end
  end.

Definition shortest (n : Z) : Z :=
  let digits := Z.of_nat (String.length (decimal n)) in
  shortestFrom (Z.to_nat digits) 1 digits n.

Fixpoint dropZeros (s : string) : string :=
  match s with
  | EmptyString => EmptyString
  | String c r =>
      match dropZeros r with
      | EmptyString =>
          if Ascii.eqb c "0" then EmptyString else String c EmptyString
      | t => String c t
      end
  end.

(** The exponent form of Number::toString: [d.ddde+n]. *)
Definition exponential (v : Z) : string :=
  let numeral := decimal v in
  let exponent := decimal (Z.of_nat (String.length numeral) - 1) in
  match dropZeros numeral with
  | String d EmptyString => String d ("e+" ++ exponent)
  | String d rest => String d ("." ++ rest ++ "e+" ++ exponent)
  | EmptyString => numeral
  end.

(** The integral Number that the numeral of [n] denotes, for [n] from
    2^53 on: [n] rounded to 53 significant bits, a tie to the even
    significand. *)
Definition nearest (n : Z) : Z :=
  let e := Z.log2 n - 52 in
  if e <=? 0 then n else
  let q := n / 2 ^ e in
  let r := n mod 2 ^ e in
  let half := 2 ^ (e - 1) in
  (if (r <? half) || ((r =? half) && Z.even q) then q else q + 1) * 2 ^ e.

(** Whether the numeral of [n] denotes a finite Number. *)
Definition finite (n : Z) : bool := nearest (Z.abs n) <? 2 ^ 1024.

Definition ofNatural (n : Z) : string :=
  if n <? 2 ^ 53 then decimal n
  else let d := nearest n in
       if 2 ^ 1024 <=? d then "Infinity"
       else let v := shortest d in
            if v <? 10 ^ 21 then decimal v else exponential v.

(** [String(n)] for the Number [n] that an integer denotes: its decimal
    numeral below 2^53; from there on the fewest digits that denote [n],
    filled with zeros below 10^21 and in exponent form from 10^21 on. *)
Definition ofNumber (n : Z) : string :=
  if n <? 0 then "-" ++ ofNatural (- n) else ofNatural n.

Definition digit36 (d : Z) : ascii :=
  if d <? 10 then ofCode (48 + d) else ofCode (87 + d).

Fixpoint digits36 (fuel : nat) (n : Z) (acc : string) : string :=
  match fuel with
  | O => acc
  | S f =>
      let acc' := String (digit36 (n mod 36)) acc in
      if n / 36 =? 0 then acc' else digits36 f (n / 36) acc'
  end.

(** [n.toString(36)] for an unsigned 32-bit [n]: at most seven digits,
    since 36^7 exceeds 2^32. *)
Definition toString36 (n : Z) : string := digits36 7 n "".

End JsString.

(* ================================================================== *)
(** ** Numbers *)

Module Number.

(** The values of type Number.  [Int z] is the Number that the numeral
    of [z] denotes: [z] itself up to 2^53 and wherever [z] is a Number,
    the Number nearest to [z] elsewhere, an infinity from 2^1024 - 2^970
    on.  The two zeros are one value here, since they print alike and are
    both falsy.  [Fraction text] is a finite value with a fractional part,
    given by the text that [String] prints for it, which is all that
    these functions do with such a value besides testing that it is a
    number and that it is truthy. *)
Inductive t : Type :=
| Int (z : Z)
| NaN
| Infinity (negative : bool)
| Fraction (text : string).

(** [Boolean(n)]: zero and [NaN] are falsy. *)
Definition truthy (n : t) : bool :=
  match n with
  | Int z => negb (z =? 0)
  | NaN => false
  | Infinity _ | Fraction _ => true
  end.

(** [String(n)] *)
Definition toString (n : t) : string :=
  match n with
  | Int z => JsString.ofNumber z
  | NaN => "NaN"
  | Infinity false => "Infinity"
  | Infinity true => "-Infinity"
  | Fraction text => text
  end.

(** [JSON.stringify(n)]: a number that is not finite is written [null]. *)
Definition toJson (n : t) : string :=
  match n with
  | NaN | Infinity _ => "null"
  | Int z => if JsString.finite z then toString n else "null"
  | Fraction _ => toString n
  end.

End Number.

Coercion Number.Int : Z >-> Number.t.

(* ================================================================== *)
(** ** Results of fallible code *)

(** A computation either returns or throws; the only exceptions of this
    code are the [TypeError] of a property read on [null] or [undefined],
    the [TypeError] of [String] on an object that cannot be converted,
    and the failure of [JSON.stringify] / the [SyntaxError] of
    [JSON.parse]. *)
Inductive Res (A : Type) : Type :=
| Ok (a : A)
| Throw.

Arguments Ok {A} a.
Arguments Throw {A}.

Definition rbind {A B : Type} (r : Res A) (f : A -> Res B) : Res B :=
  match r with
  | Ok a => f a
  | Throw => Throw
  end.

Definition rmap {A B : Type} (f : A -> B) (r : Res A) : Res B :=
  rbind r (fun a => Ok (f a)).

Declare Scope res_scope.
Delimit Scope res_scope with res.
Notation "'let?' x ':=' r 'in' k" := (rbind r (fun x => k))
  (at level 10, x name, r at level 100, k at level 200) : res_scope.
Local Open Scope res_scope.

(** [xs.map(f)] where [f] may throw: the first exception ends the map. *)
Fixpoint rmapM {A B : Type} (f : A -> Res B) (xs : list A) : Res (list B) :=
  match xs with
  | [] => Ok []
  | x :: rest =>
      let? y := f x in
      let? ys := rmapM f rest in
      Ok (y :: ys)
  end.

(* ================================================================== *)
(** ** Values of type [unknown] *)

(** The values a raw message is made of.  [JBigInt] is the leaf that
    [JSON.stringify] refuses to serialize (an object graph is a tree here,
    so a cyclic message, the other unserializable kind, has no counterpart).
    The field list of [JObj] is in property enumeration order. *)
Inductive JsValue : Type :=
| JUndefined
| JNull
| JBool (b : bool)
| JNum (n : Number.t)
| JBigInt (n : Z)
| JStr (s : string)
| JArr (items : list JsValue)
| JObj (fields : list (string * JsValue)).

Module Js.

Fixpoint lookup (k : string) (fields : list (string * JsValue)) : JsValue :=
  match fields with
  | [] => JUndefined
  | (k', v) :: rest => if String.eqb k k' then v else lookup k rest
  end.

Definition nullish (v : JsValue) : bool :=
  match v with
  | JUndefined | JNull => true
  | _ => false
  end.

(** [v.k] for a key that no prototype defines: the own property of an
    object, [undefined] on any other value that has properties, and a
    [TypeError] on [null] and [undefined]. *)
Definition prop (v : JsValue) (k : string) : JsValue :=
  match v with
  | JObj fields => lookup k fields
  | _ => JUndefined
  end.

Definition get (v : JsValue) (k : string) : Res JsValue :=
  if nullish v then Throw else Ok (prop v k).

(** [typeof v === "string" ? v : d] *)
Definition stringOr (v : JsValue) (d : string) : string :=
  match v with
  | JStr s => s
  | _ => d
  end.

(** [typeof v === "string" ? v : null] *)
Definition asString (v : JsValue) : option string :=
  match v with
  | JStr s => Some s
  | _ => None
  end.

(** [typeof v === "number" ? v : null] *)
Definition asNumber (v : JsValue) : option Number.t :=
  match v with
  | JNum n => Some n
  | _ => None
  end.

Definition isString (v : JsValue) : bool :=
  match v with JStr _ => true | _ => false end.

(** [Boolean(v)] *)
Definition truthy (v : JsValue) : bool :=
  match v with
  | JUndefined | JNull => false
  | JBool b => b
  | JNum n => Number.truthy n
  | JBigInt n => negb (n =? 0)
  | JStr s => negb (JsString.isEmpty s)
  | JArr _ | JObj _ => true
  end.

(** [a || b] *)
Definition or (a b : JsValue) : JsValue := if truthy a then a else b.

(** [a ?? b] *)
Definition coalesce (a b : JsValue) : JsValue := if nullish a then b else a.

(** Whether an object has an own property [k], whatever its value. *)
Definition hasOwn (k : string) (fields : list (string * JsValue)) : bool :=
  existsb (fun kv => String.eqb k (fst kv)) fields.

(** [String(v)].  An array prints its elements separated by commas, with
    [null] and [undefined] elements printed as nothing.  An object prints
    as [[object Object]] through the [toString] it inherits; an own
    property [toString] hides that method, and its value, which is data
    and so not callable, leaves the conversion with the inherited
    [valueOf], which returns the object itself: a [TypeError]. *)
Fixpoint toString (v : JsValue) : Res string :=
  match v with
  | JUndefined => Ok "undefined"
  | JNull => Ok "null"
  | JBool true => Ok "true"
  | JBool false => Ok "false"
  | JNum n => Ok (Number.toString n)
  | JBigInt n => Ok (JsString.decimal n)
  | JStr s => Ok s
  | JArr items =>
      rmap (JsString.join ",")
           (rmapM (fun x => if nullish x then Ok "" else toString x) items)
  | JObj fields =>
      if hasOwn "toString" fields then Throw else Ok "[object Object]"
  end.

End Js.

(* ================================================================== *)
(** ** [JSON.stringify] *)

Module Json.

Definition hexDigit (d : Z) : ascii :=
  if d <? 10 then JsString.ofCode (48 + d) else JsString.ofCode (87 + d).

(** One code unit inside a quoted JSON string. *)
Definition escapeChar (c : ascii) : string :=
  let n := JsString.charCode c in
  if n =? 34 then "\" ++ String c ""
  else if n =? 92 then "\\"
  else if n =? 8 then "\b"
  else if n =? 9 then "\t"
  else if n =? 10 then "\n"
  else if n =? 12 then "\f"
  else if n =? 13 then "\r"
  else if n <? 32 then
    "\u00" ++ String (hexDigit (n / 16)) (String (hexDigit (n mod 16)) "")
  else String c "".

Fixpoint escape (s : string) : string :=
  match s with
  | EmptyString => ""
  | String c r => escapeChar c ++ escape r
  end.

Definition quote (s : string) : string :=
  String (JsString.ofCode 34) (escape s ++ String (JsString.ofCode 34) "").

Definition newline : string := JsString.nl.

(** The brackets around the serialized members of an object or array. *)
Definition wrap (gap stepback indent opn cls : string)
           (members : list string) : string :=
  match members with
  | [] => opn ++ cls
  | _ =>
      if JsString.isEmpty gap
      then opn ++ JsString.join "," members ++ cls
      else opn ++ newline ++ indent
               ++ JsString.join ("," ++ newline ++ indent) members
               ++ newline ++ stepback ++ cls
  end.

(** SerializeJSONProperty: [None] is [undefined] (the value is left out),
    [Throw] the [TypeError] raised for a value that cannot be
    serialized. *)
Fixpoint serialize (gap indent : string) (v : JsValue)
  : Res (option string) :=
  match v with
  | JUndefined => Ok None
  | JNull => Ok (Some "null")
  | JBool true => Ok (Some "true")
  | JBool false => Ok (Some "false")
  | JNum n => Ok (Some (Number.toJson n))
  | JBigInt _ => Throw
  | JStr s => Ok (Some (quote s))
  | JArr items =>
      let inner := indent ++ gap in
      let? members :=
        (fix elems (l : list JsValue) : Res (list string) :=
           match l with
           | [] => Ok []
           | x :: rest =>
               let? sx := serialize gap inner x in
               let? more := elems rest in
               Ok (match sx with Some t => t | None => "null" end :: more)
           end) items in
      Ok (Some (wrap gap indent inner "[" "]" members))
  | JObj fields =>
      let inner := indent ++ gap in
      let? members :=
        (fix props (l : list (string * JsValue)) : Res (list string) :=
           match l with
           | [] => Ok []
           | (k, x) :: rest =>
               let? sx := serialize gap inner x in
               let? more := props rest in
               Ok (match sx with
                   | Some t =>
                       (quote k ++ ":"
                          ++ (if JsString.isEmpty gap then "" else " ")
                          ++ t) :: more
                   | None => more
                   end)
           end) fields in
      Ok (Some (wrap gap indent inner "{" "}" members))
  end.

(** [JSON.stringify(value)] *)
Definition stringify (v : JsValue) : Res (option string) :=
  serialize "" "" v.

(** [JSON.stringify(value, null, 2)] *)
Definition stringifyPretty (v : JsValue) : Res (option string) :=
  serialize "  " "" v.

End Json.

(* ================================================================== *)
(** ** The legacy reasoning tags *)

(** The matcher of the regular expression of [extractThinking],
    [/<\s*think(?:ing)?\s*>([\s\S]*?)<\s*\/\s*think(?:ing)?\s*>/gi],
    written out as the backtracking search the expression denotes. *)
Module ThinkingTag.

(** [\s]: the white space set of [trim]. *)
Fixpoint skipSpaces (s : string) : string :=
  match s with
  | String c r => if JsString.isWhiteSpace c then skipSpaces r else s
  | EmptyString => EmptyString
  end.

(** A literal character; under the [i] flag a lower-case ASCII letter
    also matches its capital. *)
Definition sameChar (ignoreCase : bool) (l c : ascii) : bool :=
  Ascii.eqb l c
  || (ignoreCase && (JsString.charCode c + 32 =? JsString.charCode l)).

Fixpoint literal (ignoreCase : bool) (lit s : string) : option string :=
  match lit with
  | EmptyString => Some s
  | String l lit' =>
      match s with
      | String c r =>
          if sameChar ignoreCase l c then literal ignoreCase lit' r else None
      | EmptyString => None
      end
  end.

Definition andThen {A B : Type} (o : option A) (f : A -> option B)
  : option B :=
  match o with
  | Some a => f a
  | None => None
  end.

(** [<\s*think(?:ing)?\s*>], or with [closing] [<\s*\/\s*think(?:ing)?\s*>],
    at the start of [s]; the result is what follows the tag.  The
    optional [ing] is tried first, and given up when the rest of the tag
    does not follow it. *)
Definition tag (closing : bool) (s : string) : option string :=
  andThen (literal false "<" s) (fun s1 =>
  andThen (if closing
           then andThen (literal false "/" (skipSpaces s1))
                        (fun s2 => Some (skipSpaces s2))
           else Some (skipSpaces s1)) (fun s3 =>
  andThen (literal true "think" s3) (fun s4 =>
  match andThen (literal true "ing" s4)
                (fun s5 => literal false ">" (skipSpaces s5)) with
  | Some rest => Some rest
  | None => literal false ">" (skipSpaces s4)
  end))).

(** [([\s\S]*?)] followed by the closing tag: the shortest text up to a
    closing tag, and what follows that tag. *)
Fixpoint body (s : string) : option (string * string) :=
  match s with
  | EmptyString => None
  | String c r =>
      match tag true s with
      | Some rest => Some ("", rest)
      | None =>
          match body r with
          | Some (inner, rest) => Some (String c inner, rest)
          | None => None
          end
      end
  end.

(** One match anchored at the start of [s]: capture group 1 and the
    length of the match. *)
Definition execAt (s : string) : option (string * nat) :=
  andThen (tag false s) (fun s1 =>
  andThen (body s1) (fun '(inner, rest) =>
  Some (inner, (String.length s - String.length rest)%nat))).

(** [matchAll]: the captures of the successive matches, each search
    resuming where the previous match ended ([skip] code units ahead). *)
Fixpoint matchAllFrom (s : string) (skip : nat) : list string :=
  match s with
  | EmptyString => []
  | String c r =>
      match skip with
      | S k => matchAllFrom r k
      | O =>
          match execAt s with
          | Some (inner, n) => inner :: matchAllFrom r (Nat.pred n)
          | None => matchAllFrom r 0
          end
      end
  end.

Definition matchAll (s : string) : list string := matchAllFrom s 0.

(** [s.replace(re, "")] with the same expression. *)
Fixpoint removeAllFrom (s : string) (skip : nat) : string :=
  match s with
  | EmptyString => ""
  | String c r =>
      match skip with
      | S k => removeAllFrom r k
      | O =>
          match execAt s with
          | Some (_, n) => removeAllFrom r (Nat.pred n)
          | None => String c (removeAllFrom r 0)
          end
      end
  end.

End ThinkingTag.

(** Modelled from the spec: [stripThinkingTags] is imported from
    [../format], which is not among the sources; the specification describes
    it as the removal of the [<think>...</think>] and
    [<thinking>...</thinking>] spans, case-insensitive and non-greedy, with
    the expression of [extractThinking].  The functions below take the
    function as a parameter; this one instantiates it in the examples. *)
Definition stripLegacyThinking (value : string) : string :=
  ThinkingTag.removeAllFrom value 0.

(* ================================================================== *)
(** ** The clock *)

(** The readings [Date.now()] will return, the next one first. *)
Definition Clock : Type := nat -> Z.

(** A computation that may read the clock and may throw. *)
Definition M (A : Type) : Type := Clock -> Res (A * Clock).

Definition ret {A : Type} (a : A) : M A := fun clock => Ok (a, clock).

Definition bind {A B : Type} (m : M A) (f : A -> M B) : M B :=
  fun clock =>
    match m clock with
    | Ok (a, clock') => f a clock'
    | Throw => Throw
    end.

Definition liftR {A : Type} (r : Res A) : M A :=
  fun clock =>
    match r with
    | Ok a => Ok (a, clock)
    | Throw => Throw
    end.

(** [Date.now()] *)
Definition Date_now : M Z :=
  fun clock => Ok (clock 0%nat, fun n => clock (S n)).

(** The value a computation returns, the clock left aside. *)
Definition value {A : Type} (r : Res (A * Clock)) : Res A :=
  rmap fst r.

Notation "'let!' x ':=' m 'in' k" := (bind m (fun x => k))
  (at level 10, x name, m at level 100, k at level 200) : res_scope.

(* ================================================================== *)
(** ** message-normalizer.ts *)

Module ContentItem.
(** [MessageContentItem]; the casts of the source do not check the
    fields, so each holds whatever the raw part carried. *)
Record t : Type := make
  { type : JsValue; text : JsValue; name : JsValue; args : JsValue }.
End ContentItem.

Module Normalized.
(** [NormalizedMessage] *)
Record t : Type := make
  { role : string;
    content : list ContentItem.t;
    timestamp : Number.t;
    id : option string }.
End Normalized.

Definition normalizeContentItem (item : JsValue) : Res ContentItem.t :=
  let? type := Js.get item "type" in
  let? text := Js.get item "text" in
  let? name := Js.get item "name" in
  let? args := Js.get item "args" in
  let? arguments := Js.get item "arguments" in
  Ok (ContentItem.make (Js.or type (JStr "text")) text name
                       (Js.or args arguments)).

(** [role] of [normalizeMessage]: the literal role, overridden by the
    presence of a tool call identifier. *)
Definition normalizedRole (r toolCallId tool_call_id : JsValue) : string :=
  if Js.isString toolCallId || Js.isString tool_call_id
  then "toolResult" else Js.stringOr r "unknown".

(** [content] of [normalizeMessage], [c] being [m.content]. *)
Definition normalizedContent (message c : JsValue)
  : Res (list ContentItem.t) :=
  match c with
  | JStr s =>
      Ok [ContentItem.make (JStr "text") (JStr s) JUndefined JUndefined]
  | JArr items => rmapM normalizeContentItem items
  | _ =>
      let? t := Js.get message "text" in
      match t with
      | JStr s =>
          Ok [ContentItem.make (JStr "text") (JStr s) JUndefined JUndefined]
      | _ => Ok []
      end
  end.

(** [typeof ts === "number" ? ts : Date.now()] *)
Definition numberOrNow (ts : JsValue) : M Number.t :=
  match ts with
  | JNum n => ret n
  | _ => let! now := Date_now in ret (Number.Int now)
  end.

Definition normalizeMessage (message : JsValue) : M Normalized.t :=
  let! r := liftR (Js.get message "role") in
  let! toolCallId := liftR (Js.get message "toolCallId") in
  let! tool_call_id := liftR (Js.get message "tool_call_id") in
  let role := normalizedRole r toolCallId tool_call_id in
  let! c := liftR (Js.get message "content") in
  let! content := liftR (normalizedContent message c) in
  let! ts := liftR (Js.get message "timestamp") in
  let! timestamp := numberOrNow ts in
  let! i := liftR (Js.get message "id") in
  ret (Normalized.make role content timestamp (Js.asString i)).

Definition normalizeRoleForGrouping (role : string) : string :=
  let lower := JsString.toLowerCase role in
  if String.eqb lower "toolresult"
     || String.eqb lower "tool_result"
     || String.eqb lower "tool"
     || String.eqb lower "function"
  then "assistant" else role.

Definition isToolResultMessage (message : JsValue) : Res bool :=
  let? r := Js.get message "role" in
  let role := JsString.toLowerCase (Js.stringOr r "") in
  Ok (String.eqb role "toolresult" || String.eqb role "tool_result").

(* ================================================================== *)
(** ** views/chat.ts: the data *)

(** [ChatItem], tagged by [kind]. *)
Inductive ChatItem : Type :=
| MessageItem (key : string) (message : JsValue)
| StreamItem (key : string) (text : string) (startedAt : Z)
| ReadingIndicator (key : string).

Module Group.
(** [MessageGroup]; an element of [messages] is [{ message, key }]. *)
Record t : Type := make
  { key : string;
    role : string;
    messages : list (JsValue * string);
    timestamp : Number.t;
    isStreaming : bool }.
End Group.

(** An element of [Array<ChatItem | MessageGroup>]. *)
Inductive Entry : Type :=
| Item (item : ChatItem)
| Grouped (group : Group.t).

(** [ToolCard], tagged by [kind]: ["call"] or ["result"]. *)
Inductive ToolCard : Type :=
| CallCard (name : JsValue) (args : JsValue)
| ResultCard (name : string) (text : option string).

Module Props.
(** The fields of [ChatProps] that [buildChatItems] reads. *)
Record t : Type := make
  { sessionKey : string;
    messages : list JsValue;
    toolMessages : list JsValue;
    stream : option string;
    streamStartedAt : option Z;
    useNewChatLayout : bool }.
End Props.

Definition CHAT_HISTORY_RENDER_LIMIT : Z := 200.

Definition itemKey (item : ChatItem) : string :=
  match item with
  | MessageItem key _ | StreamItem key _ _ | ReadingIndicator key => key
  end.

Definition entryKey (entry : Entry) : string :=
  match entry with
  | Item item => itemKey item
  | Grouped group => Group.key group
  end.

(* ================================================================== *)
(** ** views/chat.ts: grouping *)

Definition pushGroup (result : list Entry) (currentGroup : option Group.t)
  : list Entry :=
  match currentGroup with
  | Some group => (result ++ [Grouped group])%list
  | None => result
  end.

(** What the loop of [groupMessages] does with a message item once its
    role and time stamp are known: append to the open group, or close it
    and open a new one. *)
Definition addMessage (result : list Entry) (currentGroup : option Group.t)
           (key : string) (message : JsValue) (role : string)
           (timestamp : Number.t)
  : list Entry * option Group.t :=
  match currentGroup with
  | Some group =>
      if String.eqb (Group.role group) role
      then
        (result,
         Some (Group.make (Group.key group) (Group.role group)
                 (Group.messages group ++ [(message, key)])%list
                 (Group.timestamp group) (Group.isStreaming group)))
      else
        ((result ++ [Grouped group])%list,
         Some (Group.make ("group:" ++ role ++ ":" ++ key) role
                 [(message, key)] timestamp false))
  | None =>
      (result,
       Some (Group.make ("group:" ++ role ++ ":" ++ key) role
               [(message, key)] timestamp false))
  end.

(** The [for] loop of [groupMessages], with its two variables [result]
    and [currentGroup]. *)
Fixpoint groupLoop (items : list ChatItem) (result : list Entry)
         (currentGroup : option Group.t) : M (list Entry) :=
  match items with
  | [] => ret (pushGroup result currentGroup)
  | MessageItem key message :: rest =>
      let! normalized := normalizeMessage message in
      let role := normalizeRoleForGrouping (Normalized.role normalized) in
      let! timestamp :=
        if Number.truthy (Normalized.timestamp normalized)
        then ret (Normalized.timestamp normalized)
        else let! now := Date_now in ret (Number.Int now) in
      let next := addMessage result currentGroup key message role timestamp in
      groupLoop rest (fst next) (snd next)
  | item :: rest =>
      groupLoop rest (pushGroup result currentGroup ++ [Item item])%list None
  end.

Definition groupMessages (items : list ChatItem) : M (list Entry) :=
  groupLoop items [] None.

(* ================================================================== *)
(** ** views/chat.ts: extraction, keys and the item builder *)

(** The 32-bit integer operations of [fnv1a]. *)
Definition toInt32 (z : Z) : Z := (z + 2 ^ 31) mod 2 ^ 32 - 2 ^ 31.

(** [z >>> 0] *)
Definition toUint32 (z : Z) : Z := z mod 2 ^ 32.

(** [a ^ b] *)
Definition xor32 (a b : Z) : Z := Z.lxor (toInt32 a) (toInt32 b).

(** [Math.imul(a, b)] *)
Definition imul (a b : Z) : Z := toInt32 (toInt32 a * toInt32 b).

Fixpoint fnv1aLoop (input : string) (hash : Z) : Z :=
  match input with
  | EmptyString => hash
  | String c rest =>
      fnv1aLoop rest (imul (xor32 hash (JsString.charCode c)) 0x01000193)
  end.

Definition fnv1a (input : string) : string :=
  JsString.toString36 (toUint32 (fnv1aLoop input 0x811c9dc5)).

Definition safeJson (v : JsValue) : option string :=
  match Json.stringify v with
  | Ok (Some s) => Some s
  | _ => None
  end.

(** The [text] of a part that [extractText] and [extractRawText] keep:
    [item.type === "text" && typeof item.text === "string"]. *)
Definition textOfPart (p : JsValue) : Res (option string) :=
  let? type := Js.get p "type" in
  let? text := Js.get p "text" in
  Ok (match type, text with
      | JStr ty, JStr s => if String.eqb ty "text" then Some s else None
      | _, _ => None
      end).

(** [xs.map(f).filter(v => typeof v === "string")] *)
Definition keepStrings (xs : list (option string)) : list string :=
  flat_map (fun o => match o with Some s => [s] | None => [] end) xs.

Definition textParts (content : JsValue) : Res (list string) :=
  match content with
  | JArr items => rmap keepStrings (rmapM textOfPart items)
  | _ => Ok []
  end.

Definition extractRawText (message : JsValue) : Res (option string) :=
  let? content := Js.get message "content" in
  match content with
  | JStr s => Ok (Some s)
  | _ =>
      let? parts := textParts content in
      match parts with
      | _ :: _ => Ok (Some (JsString.join JsString.nl parts))
      | [] =>
          let? text := Js.get message "text" in
          Ok (Js.asString text)
      end
  end.

(** The cleaned text of a structured reasoning part:
    [item.type === "thinking" && typeof item.thinking === "string"],
    trimmed, and dropped when nothing is left. *)
Definition thinkingOfPart (p : JsValue) : Res (option string) :=
  let? type := Js.get p "type" in
  let? thinking := Js.get p "thinking" in
  Ok (match type, thinking with
      | JStr ty, JStr s =>
          if String.eqb ty "thinking"
          then let cleaned := JsString.trim s in
               if JsString.isEmpty cleaned then None else Some cleaned
          else None
      | _, _ => None
      end).

Definition thinkingParts (content : JsValue) : Res (list string) :=
  match content with
  | JArr items => rmap keepStrings (rmapM thinkingOfPart items)
  | _ => Ok []
  end.

(** The back-compat branch of [extractThinking]: the trimmed, non-empty
    captures of the tag pairs of [rawText]. *)
Definition legacyThinking (rawText : option string) : option string :=
  match rawText with
  | None => None
  | Some raw =>
      if JsString.isEmpty raw then None else
      let extracted :=
        filter (fun s => negb (JsString.isEmpty s))
               (map JsString.trim (ThinkingTag.matchAll raw)) in
      match extracted with
      | [] => None
      | _ => Some (JsString.join JsString.nl extracted)
      end
  end.

Definition extractThinking (message : JsValue) : Res (option string) :=
  let? content := Js.get message "content" in
  let? parts := thinkingParts content in
  match parts with
  | _ :: _ => Ok (Some (JsString.join JsString.nl parts))
  | [] =>
      let? rawText := extractRawText message in
      Ok (legacyThinking rawText)
  end.

Definition normalizeContent (content : JsValue) : list JsValue :=
  match content with
  | JArr items => filter Js.truthy items
  | _ => []
  end.

Definition extractToolText (item : JsValue) : Res (option string) :=
  let? text := Js.get item "text" in
  let? content := Js.get item "content" in
  Ok (match text with
      | JStr s => Some s
      | _ => Js.asString content
      end).

(** [String(type ?? "").toLowerCase()] *)
Definition kindOf (type : JsValue) : Res string :=
  rmap JsString.toLowerCase (Js.toString (Js.coalesce type (JStr ""))).

Definition partKind (item : JsValue) : Res string :=
  let? type := Js.get item "type" in
  kindOf type.

Definition isResultKind (kind : string) : bool :=
  String.eqb kind "toolresult" || String.eqb kind "tool_result".

Definition isCallKind (kind : string) : bool :=
  existsb (String.eqb kind) ["toolcall"; "tool_call"; "tooluse"; "tool_use"].

Definition isResultCard (card : ToolCard) : bool :=
  match card with
  | ResultCard _ _ => true
  | CallCard _ _ => false
  end.

(** [display] of [renderMessage]: [{ kind: "text", value }] or
    [{ kind: "json", value }]. *)
Inductive Display : Type :=
| DisplayText (value : string)
| DisplayJson (value : string).

Section ChatView.

(** [stripThinkingTags] of [../format]. *)
Variable stripThinkingTags : string -> string.

(** [JSON.parse], [Throw] being its [SyntaxError]. *)
Variable JSON_parse : string -> Res JsValue.

(** [role === "assistant" ? stripThinkingTags(s) : s] *)
Definition stripFor (role s : string) : string :=
  if String.eqb role "assistant" then stripThinkingTags s else s.

Definition extractText (message : JsValue) : Res (option string) :=
  let? r := Js.get message "role" in
  let role := Js.stringOr r "" in
  let? content := Js.get message "content" in
  match content with
  | JStr s => Ok (Some (stripFor role s))
  | _ =>
      let? parts := textParts content in
      match parts with
      | _ :: _ => Ok (Some (stripFor role (JsString.join JsString.nl parts)))
      | [] =>
          let? text := Js.get message "text" in
          match text with
          | JStr s => Ok (Some (stripFor role s))
          | _ => Ok None
          end
      end
  end.

Definition coerceArgs (value : JsValue) : JsValue :=
  match value with
  | JStr s =>
      let trimmed := JsString.trim s in
      if JsString.isEmpty trimmed then value
      else if negb (JsString.startsWith trimmed "{")
              && negb (JsString.startsWith trimmed "[") then value
      else match JSON_parse trimmed with
           | Ok parsed => parsed
           | Throw => value
           end
  | _ => value
  end.

(** The first loop of [extractToolCards]: the card of a call-like part. *)
Definition callCardOf (item : JsValue) : Res (list ToolCard) :=
  let? kind := partKind item in
  let? name := Js.get item "name" in
  let? arguments := Js.get item "arguments" in
  let? args := Js.get item "args" in
  let isToolCall :=
    isCallKind kind || (Js.isString name && negb (Js.nullish arguments)) in
  Ok (if isToolCall
      then [CallCard (Js.coalesce name (JStr "tool"))
                     (coerceArgs (Js.coalesce arguments args))]
      else []).

(** The second loop: the card of a result part. *)
Definition resultCardOf (item : JsValue) : Res (list ToolCard) :=
  let? kind := partKind item in
  if isResultKind kind then
    let? text := extractToolText item in
    let? name := Js.get item "name" in
    Ok [ResultCard (Js.stringOr name "tool") text]
  else Ok [].

(** [(typeof a === "string" && a) || (typeof b === "string" && b) || "tool"] *)
Definition toolNameOf (toolName tool_name : JsValue) : string :=
  match toolName with
  | JStr (String c r) => String c r
  | _ =>
      match tool_name with
      | JStr (String c r) => String c r
      | _ => "tool"
      end
  end.

Definition extractToolCards (message : JsValue) : Res (list ToolCard) :=
  let? c := Js.get message "content" in
  let content := normalizeContent c in
  let? calls := rmap (@List.concat _) (rmapM callCardOf content) in
  let? results := rmap (@List.concat _) (rmapM resultCardOf content) in
  let cards := (calls ++ results)%list in
  let? isResult := isToolResultMessage message in
  if isResult && negb (existsb isResultCard cards) then
    let? toolName := Js.get message "toolName" in
    let? tool_name := Js.get message "tool_name" in
    let? text := extractText message in
    Ok (cards ++ [ResultCard (toolNameOf toolName tool_name) text])%list
  else Ok cards.

Definition messageKey (message : JsValue) (index : Z) : Res string :=
  let? tc := Js.get message "toolCallId" in
  let toolCallId := Js.stringOr tc "" in
  if negb (JsString.isEmpty toolCallId) then Ok ("tool:" ++ toolCallId) else
  let? i := Js.get message "id" in
  let id := Js.stringOr i "" in
  if negb (JsString.isEmpty id) then Ok ("msg:" ++ id) else
  let? mi := Js.get message "messageId" in
  let messageId := Js.stringOr mi "" in
  if negb (JsString.isEmpty messageId) then Ok ("msg:" ++ messageId) else
  let? ts := Js.get message "timestamp" in
  let timestamp := Js.asNumber ts in
  let? r := Js.get message "role" in
  let role := Js.stringOr r "unknown" in
  let? text := extractText message in
  let? content := Js.get message "content" in
  let fingerprint :=
    match text with
    | Some t => Some t
    | None => Js.asString content
    end in
  let seed :=
    match fingerprint with
    | Some f => f
    | None =>
        match safeJson message with
        | Some json => json
        | None => JsString.ofNumber index
        end
    end in
  let hash := fnv1a seed in
  Ok (match timestamp with
      | Some t =>
          if Number.truthy t
          then "msg:" ++ role ++ ":" ++ Number.toString t ++ ":" ++ hash
          else "msg:" ++ role ++ ":" ++ hash
      | None => "msg:" ++ role ++ ":" ++ hash
      end).

(** The two loops of [buildChatItems] that wrap the messages
    [msgs[0..]] with the keys of the indices [index], [index + 1], ... *)
Fixpoint messageItems (msgs : list JsValue) (index : Z)
  : Res (list ChatItem) :=
  match msgs with
  | [] => Ok []
  | message :: rest =>
      let? key := messageKey message index in
      let? more := messageItems rest (index + 1) in
      Ok (MessageItem key message :: more)
  end.

Definition noticeMessage (hidden now : Z) : JsValue :=
  JObj [("role", JStr "system");
        ("content",
          JStr ("Showing last " ++ JsString.ofNumber CHAT_HISTORY_RENDER_LIMIT
                  ++ " messages (" ++ JsString.ofNumber hidden
                  ++ " hidden)."));
        ("timestamp", JNum now)].

Definition streamKey (sessionKey : string) (streamStartedAt : option Z)
  : string :=
  "stream:" ++ sessionKey ++ ":"
    ++ match streamStartedAt with
       | Some t => JsString.ofNumber t
       | None => "live"
       end.

(** [items] of [buildChatItems], as it stands before the last two
    lines of the function. *)
Definition chatItems (props : Props.t) : M (list ChatItem) :=
  let history := Props.messages props in
  let tools := Props.toolMessages props in
  let historyStart :=
    Z.max 0 (Z.of_nat (List.length history) - CHAT_HISTORY_RENDER_LIMIT) in
  let! notice :=
    if 0 <? historyStart
    then let! now := Date_now in
         ret [MessageItem "chat:history:notice"
                          (noticeMessage historyStart now)]
    else ret [] in
  let! shown :=
    liftR (messageItems (skipn (Z.to_nat historyStart) history)
                        historyStart) in
  let! toolItems :=
    liftR (messageItems tools (Z.of_nat (List.length history))) in
  let! live :=
    match Props.stream props with
    | Some text =>
        let key := streamKey (Props.sessionKey props)
                             (Props.streamStartedAt props) in
        if 0 <? JsString.len (JsString.trim text)
        then
          let! startedAt :=
            match Props.streamStartedAt props with
            | Some t => ret t
            | None => Date_now
            end in
          ret [StreamItem key text startedAt]
        else ret [ReadingIndicator key]
    | None => ret []
    end in
  ret (notice ++ shown ++ toolItems ++ live)%list.

Definition buildChatItems (props : Props.t) : M (list Entry) :=
  let! items := chatItems props in
  if Props.useNewChatLayout props
  then groupMessages items
  else ret (map Item items).

Definition nonBlank (s : option string) : bool :=
  match s with
  | Some t => negb (JsString.isEmpty (JsString.trim t))
  | None => false
  end.

(** [renderMessage] up to the value of [display], which the template of
    the legacy layout then paints. *)
Definition renderMessageDisplay (message : JsValue) (showReasoning : bool)
  : Res (option Display) :=
  let? r := Js.get message "role" in
  let role := Js.stringOr r "unknown" in
  let? toolCards := extractToolCards message in
  let hasToolCards := 0 <? Z.of_nat (List.length toolCards) in
  let? isResult := isToolResultMessage message in
  let? toolCallId := Js.get message "toolCallId" in
  let? tool_call_id := Js.get message "tool_call_id" in
  let isToolResult :=
    isResult || Js.isString toolCallId || Js.isString tool_call_id in
  let? extractedText := extractText message in
  let? extractedThinking :=
    if showReasoning && String.eqb role "assistant"
    then extractThinking message else Ok None in
  let? c := Js.get message "content" in
  let contentText := Js.asString c in
  let? fallback :=
    if hasToolCards then Ok None else Json.stringifyPretty message in
  Ok (if negb isToolResult && nonBlank extractedText
      then option_map DisplayText extractedText
      else if negb isToolResult && nonBlank contentText
      then option_map DisplayText contentText
      else match fallback with
           | Some json =>
               if negb isToolResult && negb (JsString.isEmpty json)
               then Some (DisplayJson json) else None
           | None => None
           end).

End ChatView.

(* ================================================================== *)
(** ** What the properties speak of *)

(** A message that the casts of the source ([as Record<string, unknown>])
    hold for: neither [null] nor [undefined], and with parts that are
    neither when its content is an array.  Every property read on such a
    message returns. *)
Definition readable (message : JsValue) : bool :=
  negb (Js.nullish message)
  && match Js.prop message "content" with
     | JArr items => forallb (fun p => negb (Js.nullish p)) items
     | _ => true
     end.

(** A field that holds a non-empty string. *)
Definition nonEmptyString (v : JsValue) : option string :=
  match v with
  | JStr (String c r) => Some (String c r)
  | _ => None
  end.

(** FNV-1a on unsigned 32-bit numbers, one round per code unit. *)
Fixpoint fnv1a32From (input : string) (hash : Z) : Z :=
  match input with
  | EmptyString => hash
  | String c rest =>
      fnv1a32From rest
        ((Z.lxor hash (JsString.charCode c) * 16777619) mod 2 ^ 32)
  end.

Definition fnv1a32 (input : string) : Z := fnv1a32From input 2166136261.

(** The fingerprint the hash is taken of: the extracted text, else the
    string content, else the JSON serialization of the record, else the
    positional index. *)
Definition fingerprintSeed (text : option string) (message : JsValue)
           (index : Z) : string :=
  match text with
  | Some t => t
  | None =>
      match Js.prop message "content" with
      | JStr c => c
      | _ =>
          match Json.stringify message with
          | Ok (Some json) => json
          | _ => JsString.ofNumber index
          end
      end
  end.

(** The key of a message as the specification words the precedence: a
    string [toolCallId] or [tool_call_id], then a string [id], then a
    string [messageId], then the fingerprint key, with the time stamp
    whenever it is a number. *)
Definition statedKey (strip : string -> string) (message : JsValue)
           (index : Z) : string :=
  let field k := Js.asString (Js.prop message k) in
  match field "toolCallId", field "tool_call_id" with
  | Some t, _ | None, Some t => "tool:" ++ t
  | None, None =>
      match field "id", field "messageId" with
      | Some i, _ | None, Some i => "msg:" ++ i
      | None, None =>
          let role := Js.stringOr (Js.prop message "role") "unknown" in
          let text :=
            match extractText strip message with
            | Ok t => t
            | Throw => None
            end in
          let hash :=
            JsString.toString36
              (fnv1a32 (fingerprintSeed text message index)) in
          match Js.prop message "timestamp" with
          | JNum t =>
              "msg:" ++ role ++ ":" ++ Number.toString t ++ ":" ++ hash
          | _ => "msg:" ++ role ++ ":" ++ hash
          end
      end
  end.

(** The number a base-36 numeral denotes. *)
Definition digitValue36 (c : ascii) : Z :=
  let n := JsString.charCode c in
  if n <? 58 then n - 48 else n - 87.

Fixpoint value36From (numeral : string) (acc : Z) : Z :=
  match numeral with
  | EmptyString => acc
  | String c rest => value36From rest (acc * 36 + digitValue36 c)
  end.

Definition value36 (numeral : string) : Z := value36From numeral 0.

(** The items of a sequence, the members of a group taken one by one. *)
Definition entryItems (entry : Entry) : list ChatItem :=
  match entry with
  | Item item => [item]
  | Grouped group =>
      map (fun mk => MessageItem (snd mk) (fst mk)) (Group.messages group)
  end.

Definition flatten (entries : list Entry) : list ChatItem :=
  flat_map entryItems entries.

Definition isMessageItem (item : ChatItem) : bool :=
  match item with
  | MessageItem _ _ => true
  | _ => false
  end.

Definition isLiveItem (item : ChatItem) : bool := negb (isMessageItem item).

Definition itemMessages (items : list ChatItem) : list JsValue :=
  flat_map (fun item => match item with
                        | MessageItem _ message => [message]
                        | _ => []
                        end) items.

(** The role a message is grouped under. *)
Definition groupingRole (message : JsValue) : string :=
  normalizeRoleForGrouping
    (normalizedRole (Js.prop message "role") (Js.prop message "toolCallId")
                    (Js.prop message "tool_call_id")).

(** The time stamp the loop of [groupMessages] computes for a message, and
    the clock it leaves: the numeric time stamp of the message when it is
    truthy, else a reading of the clock (a second reading when the message
    has no numeric time stamp and the first reading is zero). *)
Definition stampOf (message : JsValue) (clock : Clock)
  : Number.t * Clock :=
  match Js.prop message "timestamp" with
  | JNum t =>
      if Number.truthy t then (t, clock)
      else (Number.Int (clock 0%nat), fun n => clock (S n))
  | _ =>
      if clock 0%nat =? 0
      then (Number.Int (clock 1%nat), fun n => clock (S (S n)))
      else (Number.Int (clock 0%nat), fun n => clock (S n))
  end.

(** A group is a run: it has a first message, which names it, its
    messages are all grouped under its role, and it is not streaming. *)
Definition isRun (group : Group.t) : Prop :=
  (exists message key rest,
      Group.messages group = (message, key) :: rest
      /\ Group.key group = "group:" ++ Group.role group ++ ":" ++ key)
  /\ Forall (fun mk => groupingRole (fst mk) = Group.role group)
            (Group.messages group)
  /\ Group.isStreaming group = false.

(** An entry of a grouped sequence: a run, or an item that is not a
    message. *)
Definition isRunEntry (entry : Entry) : Prop :=
  match entry with
  | Item item => isMessageItem item = false
  | Grouped group => isRun group
  end.

(** No two neighbours are groups of the same role: the runs are maximal. *)
Fixpoint separated (entries : list Entry) : Prop :=
  match entries with
  | [] => True
  | Grouped g1 :: rest =>
      match rest with
      | Grouped g2 :: _ => Group.role g1 <> Group.role g2
      | _ => True
      end /\ separated rest
  | Item _ :: rest => separated rest
  end.

Definition entryRole (entry : Entry) : option string :=
  match entry with
  | Grouped group => Some (Group.role group)
  | Item _ => None
  end.

(** The role of the group a sequence ends with, if it ends with one. *)
Fixpoint lastRole (entries : list Entry) : option string :=
  match entries with
  | [] => None
  | entry :: rest =>
      match rest with
      | [] => entryRole entry
      | _ => lastRole rest
      end
  end.

(** What the loop of [groupMessages] maintains: the entries emitted so far,
    with the open group, are runs and are separated, and after an item that
    is not a message no group is left to merge with. *)
Definition loopInvariant (result : list Entry)
           (currentGroup : option Group.t) : Prop :=
  Forall isRunEntry (pushGroup result currentGroup)
  /\ separated (pushGroup result currentGroup)
  /\ (currentGroup = None -> lastRole result = None).

(** The key of a message that can be read. *)
Definition keyOf (strip : string -> string) (message : JsValue) (index : Z)
  : string :=
  match messageKey strip message index with
  | Ok key => key
  | Throw => ""
  end.

(** The message items of the messages [msgs], keyed from [index] on. *)
Fixpoint keyedFrom (strip : string -> string) (msgs : list JsValue)
         (index : Z) : list ChatItem :=
  match msgs with
  | [] => []
  | message :: rest =>
      MessageItem (keyOf strip message index) message
        :: keyedFrom strip rest (index + 1)
  end.

(** The number of history entries that are not shown. *)
Definition hiddenCount (history : list JsValue) : Z :=
  Z.max 0 (Z.of_nat (List.length history) - CHAT_HISTORY_RENDER_LIMIT).

(** The notice of a truncated history. *)
Definition noticeItems (hidden now : Z) : list ChatItem :=
  if 0 <? hidden
  then [MessageItem "chat:history:notice" (noticeMessage hidden now)]
  else [].

(** The trailing live item, [now] being the reading of the clock that a
    stream without a start time is stamped with. *)
Definition liveItems (props : Props.t) (now : Z) : list ChatItem :=
  match Props.stream props with
  | Some text =>
      let key :=
        streamKey (Props.sessionKey props) (Props.streamStartedAt props) in
      if 0 <? JsString.len (JsString.trim text)
      then [StreamItem key text
                       match Props.streamStartedAt props with
                       | Some t => t
                       | None => now
                       end]
      else [ReadingIndicator key]
  | None => []
  end.

(** The keys that [messageKey] makes. *)
Definition isMessageKey (key : string) : Prop :=
  exists s, key = "tool:" ++ s \/ key = "msg:" ++ s.

(** The key strings of an entry: its own key and the keys of its items. *)
Definition entryKeys (entry : Entry) : string * list string :=
  (entryKey entry, map itemKey (entryItems entry)).

(** Two items that fill the same slot of two builds: the same kind and
    key, and for messages the same grouping role (and both readable or
    neither). *)
Definition sameSlot (a b : ChatItem) : Prop :=
  match a, b with
  | MessageItem k1 m1, MessageItem k2 m2 =>
      k1 = k2 /\ readable m1 = readable m2
      /\ groupingRole m1 = groupingRole m2
  | StreamItem k1 _ _, StreamItem k2 _ _ => k1 = k2
  | ReadingIndicator k1, ReadingIndicator k2 => k1 = k2
  | _, _ => False
  end.

Definition sameOpen (c1 c2 : option Group.t) : Prop :=
  match c1, c2 with
  | Some g1, Some g2 =>
      Group.key g1 = Group.key g2 /\ Group.role g1 = Group.role g2
      /\ map snd (Group.messages g1) = map snd (Group.messages g2)
  | None, None => True
  | _, _ => False
  end.

(** A message with a time stamp that [groupMessages] takes as it is: a
    number that is truthy, so neither zero nor [NaN]. *)
Definition stamped (message : JsValue) : bool :=
  match Js.prop message "timestamp" with
  | JNum t => Number.truthy t
  | _ => false
  end.

(** The builds that never read the clock: no notice (at most 200 history
    entries), no stream item without a start time, and no group whose
    time stamp is missing. *)
Definition clockFree (props : Props.t) : bool :=
  (Z.of_nat (List.length (Props.messages props))
     <=? CHAT_HISTORY_RENDER_LIMIT)
  && match Props.stream props, Props.streamStartedAt props with
     | Some text, None => JsString.isEmpty (JsString.trim text)
     | _, _ => true
     end
  && (negb (Props.useNewChatLayout props)
      || forallb stamped (Props.messages props ++ Props.toolMessages props)).

(** Two items that two builds of the same inputs put in the same place.
    They are equal, but for the two stamps that a build takes from the
    clock: the time stamp of the truncation notice, and the start time of
    a stream that was given none. *)
Definition sameItem (props : Props.t) (a b : ChatItem) : Prop :=
  match a, b with
  | MessageItem k1 m1, MessageItem k2 m2 =>
      k1 = k2
      /\ (m1 = m2
          \/ exists hidden now1 now2,
               k1 = "chat:history:notice"
               /\ m1 = noticeMessage hidden now1
               /\ m2 = noticeMessage hidden now2)
  | StreamItem k1 text1 started1, StreamItem k2 text2 started2 =>
      k1 = k2 /\ text1 = text2
      /\ (started1 = started2 \/ Props.streamStartedAt props = None)
  | ReadingIndicator k1, ReadingIndicator k2 => k1 = k2
  | _, _ => False
  end.

Definition memberItem (member : JsValue * string) : ChatItem :=
  MessageItem (snd member) (fst member).

(** Two groups in the same place of two builds: the same key, role and
    flag, members that agree one by one, and the same time stamp unless
    the group is stamped by the clock, which is when its first message is
    the notice or has no time stamp that [groupMessages] takes as it
    is. *)
Definition sameGroup (props : Props.t) (g1 g2 : Group.t) : Prop :=
  Group.key g1 = Group.key g2
  /\ Group.role g1 = Group.role g2
  /\ Group.isStreaming g1 = Group.isStreaming g2
  /\ Forall2 (fun a b => sameItem props (memberItem a) (memberItem b))
             (Group.messages g1) (Group.messages g2)
  /\ (Group.timestamp g1 = Group.timestamp g2
      \/ exists message key rest,
           Group.messages g1 = (message, key) :: rest
           /\ (stamped message = false \/ key = "chat:history:notice")).

Definition sameEntry (props : Props.t) (a b : Entry) : Prop :=
  match a, b with
  | Item x, Item y => sameItem props x y
  | Grouped g1, Grouped g2 => sameGroup props g1 g2
  | _, _ => False
  end.

Definition sameCurrent (props : Props.t) (c1 c2 : option Group.t) : Prop :=
  match c1, c2 with
  | Some g1, Some g2 => sameGroup props g1 g2
  | None, None => True
  | _, _ => False
  end.

(** What two builds return, as far as they must agree: both throw, or
    both return sequences whose entries agree one by one. *)
Definition sameBuild (props : Props.t) (r1 r2 : Res (list Entry)) : Prop :=
  match r1, r2 with
  | Ok out1, Ok out2 => Forall2 (sameEntry props) out1 out2
  | Throw, Throw => True
  | _, _ => False
  end.




(** The name of a synthesized result card: [toolName], else [tool_name],
    each when a non-empty string, else ["tool"]. *)
Definition resultName (message : JsValue) : string :=
  match nonEmptyString (Js.prop message "toolName") with
  | Some name => name
  | None =>
      match nonEmptyString (Js.prop message "tool_name") with
      | Some name => name
      | None => "tool"
      end
  end.

(** A value that [String] converts: it holds no object with an own
    property [toString], nor an array with such an element that is not
    [null] or [undefined]. *)
Fixpoint printable (v : JsValue) : bool :=
  match v with
  | JObj fields => negb (Js.hasOwn "toString" fields)
  | JArr items => forallb (fun x => Js.nullish x || printable x) items
  | _ => true
  end.

(** The content parts of a message, none when the content is no array. *)
Definition contentParts (message : JsValue) : list JsValue :=
  match Js.prop message "content" with
  | JArr items => items
  | _ => []
  end.

(** A message whose parts have kinds: [String] converts the [type] of
    each part that the tool card builder looks at, the truthy ones. *)
Definition printableKinds (message : JsValue) : bool :=
  forallb (fun part => negb (Js.truthy part)
                       || printable (Js.prop part "type"))
          (contentParts message).

(** A part that the second loop of [extractToolCards] makes a result card
    of. *)
Definition hasResultKind (part : JsValue) : bool :=
  match kindOf (Js.prop part "type") with
  | Ok kind => isResultKind kind
  | Throw => false
  end.

Definition isResultPart (part : JsValue) : bool :=
  Js.truthy part && hasResultKind part.

(** The text of a structured reasoning part: the [thinking] of a part of
    type "thinking" that holds a string, blank or not. *)
Definition thinkingOf (part : JsValue) : option string :=
  match Js.prop part "type", Js.prop part "thinking" with
  | JStr ty, JStr s => if String.eqb ty "thinking" then Some s else None
  | _, _ => None
  end.

Definition structuredThinking (message : JsValue) : list string :=
  keepStrings (map thinkingOf (contentParts message)).

(** The structured reasoning texts, trimmed, the empty ones dropped. *)
Definition cleanedThinking (message : JsValue) : list string :=
  filter (fun s => negb (JsString.isEmpty s))
         (map JsString.trim (structuredThinking message)).

(** [parts.length > 0 ? parts.join("\n") : null] *)
Definition joined (parts : list string) : option string :=
  match parts with
  | [] => None
  | _ => Some (JsString.join JsString.nl parts)
  end.

(** A part of type "text". *)
Definition textTyped (part : JsValue) : bool :=
  match Js.prop part "type" with
  | JStr ty => String.eqb ty "text"
  | _ => false
  end.

(** The text of a part of type "text" that holds a string. *)
Definition textOf (part : JsValue) : option string :=
  match Js.prop part "type", Js.prop part "text" with
  | JStr ty, JStr s => if String.eqb ty "text" then Some s else None
  | _, _ => None
  end.

(** ** Sample inputs *)

Module Sample.

(** A clock that advances by one millisecond at every reading. *)
Definition clock : Clock := fun n => 1700000000000 + Z.of_nat n.

(** A [JSON.parse] for the samples, which hold no argument string to
    parse: it rejects its input. *)
Definition parse (text : string) : Res JsValue := Throw.

(** [{ role: "user", content: "hi", timestamp: 5 }] *)
Definition hi : JsValue :=
  JObj [("role", JStr "user"); ("content", JStr "hi");
        ("timestamp", JNum 5)].

Definition withId (id role text : string) : JsValue :=
  JObj [("id", JStr id); ("role", JStr role); ("content", JStr text);
        ("timestamp", JNum 1700000000000)].

(** A live stream without a start time, and nothing else. *)
Definition streaming : Props.t :=
  Props.make "main" [] [] (Some "hello") None false.

(** The same message twice in the history. *)
Definition twins : Props.t :=
  Props.make "main" [hi; hi] [] None None false.


(** Three messages with identifiers of their own, grouped. *)
Definition identified : Props.t :=
  Props.make "main"
             [withId "m-1" "user" "question";
              withId "m-2" "assistant" "answer"]
             [withId "m-3" "tool" "output"]
             (Some "   ") (Some 1700000000500) true.

(** A history of 250 messages, each with an identifier of its own. *)
Definition longHistory : Props.t :=
  Props.make "main"
             (map (fun i => withId ("m-" ++ JsString.ofNumber (Z.of_nat i))
                                   "user" "text")
                  (seq 0 250))
             [] None None false.

(** Roles user, assistant, assistant, user. *)
Definition fourItems : list ChatItem :=
  [MessageItem "msg:m-1" (withId "m-1" "user" "a");
   MessageItem "msg:m-2" (withId "m-2" "assistant" "b");
   MessageItem "msg:m-3" (withId "m-3" "assistant" "c");
   MessageItem "msg:m-4" (withId "m-4" "user" "d")].

(** [{ role: "tool", tool_call_id: "call_1", content: "done" }] *)
Definition toolReply : JsValue :=
  JObj [("role", JStr "tool"); ("tool_call_id", JStr "call_1");
        ("content", JStr "done")].

(** [{ role: "user", payload: 1n }]: [JSON.stringify] throws on it. *)
Definition unserializable : JsValue :=
  JObj [("role", JStr "user"); ("payload", JBigInt 1)].

(** A blank structured reasoning part next to legacy tags in the text. *)
Definition blankThinking : JsValue :=
  JObj [("role", JStr "assistant");
        ("content",
          JArr [JObj [("type", JStr "thinking"); ("thinking", JStr "  ")];
                JObj [("type", JStr "text");
                      ("text", JStr "<think>Y</think>")]])].

(** [{ role: "user", content: [{ type: "text" }] }]: a part of type
    "text" that carries no text, and no other text. *)
Definition textless : JsValue :=
  JObj [("role", JStr "user");
        ("content", JArr [JObj [("type", JStr "text")]])].

(** [{ role: "assistant", content: [], text: "fallback" }] *)
Definition emptyContent : JsValue :=
  JObj [("role", JStr "assistant"); ("content", JArr []);
        ("text", JStr "fallback")].


(** Structured reasoning next to legacy tags. *)
Definition bothThinking : JsValue :=
  JObj [("role", JStr "assistant");
        ("content",
          JArr [JObj [("type", JStr "thinking"); ("thinking", JStr "X")];
                JObj [("type", JStr "text");
                      ("text", JStr "<think>Y</think>")]])].

End Sample.

(* ================================================================== *)
(** ** views/chat.ts: what is rendered *)

(** [text.split(/\r?\n/)]: a line feed ends a line, and so does a carriage
    return that a line feed follows. *)
Fixpoint splitLines (text : string) : list string :=
  match text with
  | EmptyString => [""]
  | String c rest =>
      if JsString.charCode c =? 10 then "" :: splitLines rest
      else if (JsString.charCode c =? 13)
              && JsString.startsWith rest JsString.nl
      then splitLines rest
      else match splitLines rest with
           | line :: lines => String c line :: lines
           | [] => [String c ""]
           end
  end.

Definition formatReasoningMarkdown (text : string) : string :=
  let trimmed := JsString.trim text in
  if JsString.isEmpty trimmed then "" else
  let lines :=
    map (fun line => "_" ++ line ++ "_")
        (filter (fun line => negb (JsString.isEmpty line))
                (map JsString.trim (splitLines trimmed))) in
  match lines with
  | [] => ""
  | _ => JsString.join JsString.nl ("_Reasoning:_" :: lines)
  end.

(** [[reasoning, markdownBase].filter(Boolean).join("\n\n")] *)
Definition joinBlocks (reasoning : string) (markdownBase : option string)
  : string :=
  JsString.join (JsString.nl ++ JsString.nl)
    (filter (fun s => negb (JsString.isEmpty s))
            (reasoning :: match markdownBase with
                          | Some base => [base]
                          | None => []
                          end)).

(** [Boolean(s)] for [s : string | null]. *)
Definition truthyText (s : option string) : bool :=
  match s with
  | Some t => negb (JsString.isEmpty t)
  | None => false
  end.

(** What [renderGroupedMessage] returns: [nothing], the tool cards alone,
    or a bubble with its classes, its text if any, and the tool cards. *)
Inductive GroupedRender : Type :=
| RenderNothing
| RenderCards (cards : list ToolCard)
| RenderBubble (classes : string) (markdown : option string)
               (cards : list ToolCard).

(** The message that [renderChat] makes of a stream item for
    [renderMessage], in the legacy layout. *)
Definition streamMessage (text : string) (startedAt : Z) : JsValue :=
  JObj [("role", JStr "assistant");
        ("content", JArr [JObj [("type", JStr "text"); ("text", JStr text)]]);
        ("timestamp", JNum startedAt)].

Section Rendering.

Variable stripThinkingTags : string -> string.
Variable JSON_parse : string -> Res JsValue.

Definition renderGroupedMessage (message : JsValue)
           (isStreaming showReasoning : bool) : Res GroupedRender :=
  let? r := Js.get message "role" in
  let role := Js.stringOr r "unknown" in
  let? isResult := isToolResultMessage message in
  let? toolCallId := Js.get message "toolCallId" in
  let? tool_call_id := Js.get message "tool_call_id" in
  let isToolResult :=
    isResult
    || String.eqb (JsString.toLowerCase role) "toolresult"
    || String.eqb (JsString.toLowerCase role) "tool_result"
    || Js.isString toolCallId || Js.isString tool_call_id in
  let? toolCards := extractToolCards stripThinkingTags JSON_parse message in
  let hasToolCards := 0 <? Z.of_nat (List.length toolCards) in
  let? extractedText := extractText stripThinkingTags message in
  let? extractedThinking :=
    if showReasoning && String.eqb role "assistant"
    then extractThinking message else Ok None in
  let markdownBase := if nonBlank extractedText then extractedText else None in
  let markdown :=
    if truthyText extractedThinking
    then option_map
           (fun thinking =>
              joinBlocks (formatReasoningMarkdown thinking) markdownBase)
           extractedThinking
    else markdownBase in
  let bubbleClasses :=
    JsString.join " "
      (filter (fun s => negb (JsString.isEmpty s))
              ["chat-bubble"; if isStreaming then "streaming" else "";
               "fade-in"]) in
  if negb (truthyText markdown) && hasToolCards && isToolResult
  then Ok (RenderCards toolCards)
  else if negb (truthyText markdown) && negb hasToolCards
  then Ok RenderNothing
  else Ok (RenderBubble bubbleClasses
                        (if truthyText markdown then markdown else None)
                        toolCards).

End Rendering.

(* ================================================================== *)
(** ** What the further properties speak of *)

(** A string with a character that is not white space. *)
Fixpoint hasInk (s : string) : bool :=
  match s with
  | EmptyString => false
  | String c rest => negb (JsString.isWhiteSpace c) || hasInk rest
  end.

(** The header of a reasoning block and the opening of its first line. *)
Definition reasoningHeader : string := "_Reasoning:_" ++ JsString.nl ++ "_".

(** A reasoning block: the header line and, in italics, one or more
    lines that are trimmed and not blank. *)
Definition italic (line : string) : string := "_" ++ line ++ "_".

Definition isReasoningBlock (block : string) (lines : list string) : Prop :=
  lines <> []
  /\ Forall (fun line => hasInk line = true /\ JsString.trim line = line)
            lines
  /\ block = JsString.join JsString.nl ("_Reasoning:_" :: map italic lines).

(** The lines a reasoning text shows: those of the trimmed text, each
    trimmed, without the empty ones. *)
Definition reasoningLines (text : string) : list string :=
  filter (fun line => negb (JsString.isEmpty line))
         (map JsString.trim (splitLines (JsString.trim text))).

(** A string without the character [<]. *)
Fixpoint noAngle (s : string) : bool :=
  match s with
  | EmptyString => true
  | String c rest =>
      negb (JsString.charCode c =? 60) && noAngle rest
  end.

(** A group that carries the time stamp of its first message, when that
    message has a numeric one that is truthy, so neither zero nor [NaN]. *)
Definition firstStamped (group : Group.t) : Prop :=
  exists message key rest,
    Group.messages group = (message, key) :: rest
    /\ forall t, Js.prop message "timestamp" = JNum t ->
                 Number.truthy t = true ->
                 Group.timestamp group = t.

Definition firstStampedEntry (entry : Entry) : Prop :=
  match entry with
  | Grouped group => firstStamped group
  | Item _ => True
  end.

(** The history part of a build: the loop of [buildChatItems] over
    [history[historyStart..]]. *)
Definition shownItems (strip : string -> string) (history : list JsValue)
  : Res (list ChatItem) :=
  messageItems strip
    (skipn (Z.to_nat (hiddenCount history)) history) (hiddenCount history).

Module Cases.

(** A tool result with an explicit result part. *)
Definition explicitResult : JsValue :=
  JObj [("role", JStr "tool_result");
        ("content",
          JArr [JObj [("type", JStr "toolresult"); ("name", JStr "read");
                      ("text", JStr "contents")]])].

(** A message with a tool call identifier and a literal user role. *)
Definition userWithCallId : JsValue :=
  JObj [("role", JStr "user"); ("toolCallId", JStr "call_7");
        ("content", JStr "result")].

(** A truncated history that opens with a system message, grouped. *)
Definition systemFirst : Props.t :=
  Props.make "main"
             (map (fun i =>
                     Sample.withId ("m-" ++ JsString.ofNumber (Z.of_nat i))
                                   "system" "text")
                  (seq 0 201))
             [] None None true.

End Cases.

(* ================================================================== *)
(** * Properties *)

(** ** Reads that return *)

Lemma get_ok (v : JsValue) (k : string) :
  Js.nullish v = false -> Js.get v k = Ok (Js.prop v k).
Proof.
  intros H. unfold Js.get. now rewrite H.
Qed.

Lemma readable_not_nullish (m : JsValue) :
  readable m = true -> Js.nullish m = false.
Proof.
  unfold readable. intros H.
  apply andb_true_iff in H. destruct H as [H _].
  now apply negb_true_iff in H.
Qed.

Lemma rmapM_ok {A B : Type} (f : A -> Res B) (xs : list A) :
  (forall x, In x xs -> exists y, f x = Ok y) ->
  exists ys, rmapM f xs = Ok ys /\ List.length ys = List.length xs.
Proof.
  induction xs as [|x xs IH]; intros H; simpl.
  - now exists [].
  - destruct (H x (or_introl eq_refl)) as [y Hy].
    destruct IH as [ys [Hys Hlen]].
    { intros z Hz. apply H. now right. }
    exists (y :: ys). rewrite Hy, Hys. simpl. now rewrite Hlen.
Qed.

Lemma parts_readable (m : JsValue) (items : list JsValue) :
  readable m = true -> Js.prop m "content" = JArr items ->
  forall p, In p items -> Js.nullish p = false.
Proof.
  unfold readable. intros H Hc p Hp.
  apply andb_true_iff in H. destruct H as [_ H].
  rewrite Hc in H. rewrite forallb_forall in H.
  apply negb_true_iff. now apply H.
Qed.

Lemma textParts_ok (m : JsValue) :
  readable m = true ->
  exists parts, textParts (Js.prop m "content") = Ok parts.
Proof.
  intros H. destruct (Js.prop m "content") eqn:Hc; simpl; eauto.
  destruct (rmapM_ok textOfPart items) as [ys [Hys _]].
  - intros p Hp. unfold textOfPart.
    rewrite !get_ok by (eapply parts_readable; eauto). simpl. eauto.
  - rewrite Hys. simpl. eauto.
Qed.

Lemma thinkingParts_ok (m : JsValue) :
  readable m = true ->
  exists parts, thinkingParts (Js.prop m "content") = Ok parts.
Proof.
  intros H. destruct (Js.prop m "content") eqn:Hc; simpl; eauto.
  destruct (rmapM_ok thinkingOfPart items) as [ys [Hys _]].
  - intros p Hp. unfold thinkingOfPart.
    rewrite !get_ok by (eapply parts_readable; eauto). simpl. eauto.
  - rewrite Hys. simpl. eauto.
Qed.

Section Extraction.

Variable strip : string -> string.

Lemma extractText_ok (m : JsValue) :
  readable m = true -> exists text, extractText strip m = Ok text.
Proof.
  intros H. pose proof (readable_not_nullish _ H) as Hn.
  destruct (textParts_ok _ H) as [parts Hparts].
  unfold extractText. rewrite !get_ok by assumption. simpl.
  destruct (Js.prop m "content") eqn:Hc;
    try (rewrite Hparts; simpl; destruct parts;
         [destruct (Js.prop m "text")|]; eauto; fail).
  eauto.
Qed.

(** The readable messages are exactly those whose text can be
    extracted. *)
Lemma extractText_throws (m : JsValue) :
  readable m = false -> extractText strip m = Throw.
Proof.
  unfold readable, extractText, Js.get. intros H.
  destruct (Js.nullish m); [reflexivity|]. cbn [negb andb rbind] in *.
  destruct (Js.prop m "content"); try discriminate.
  cbn [textParts]. unfold rmap.
  assert (Hitems : rmapM textOfPart items = Throw).
  { clear -H. induction items as [|p items IH]; [discriminate|].
    cbn [forallb rmapM] in *. unfold textOfPart at 1, Js.get.
    destruct (Js.nullish p); [reflexivity|]. cbn [negb andb rbind] in *.
    now rewrite IH. }
  now rewrite Hitems.
Qed.

Lemma messageKey_ok (m : JsValue) (index : Z) :
  readable m = true -> exists key, messageKey strip m index = Ok key.
Proof.
  intros H. pose proof (readable_not_nullish _ H) as Hn.
  destruct (extractText_ok _ H) as [text Htext].
  unfold messageKey. rewrite !get_ok by assumption. simpl.
  repeat match goal with
         | |- context [if ?b then _ else _] => destruct b; eauto
         end.
  rewrite Htext. simpl. eauto.
Qed.

End Extraction.

(** ** The hash of the fallback key *)

Ltac word_bounds :=
  change (2 ^ 32) with 4294967296 in *;
  change (2 ^ 31) with 2147483648 in *.

Lemma toInt32_mod (z : Z) : toInt32 z mod 2 ^ 32 = z mod 2 ^ 32.
Proof.
  unfold toInt32. rewrite Zminus_mod_idemp_l. f_equal. lia.
Qed.

Lemma toInt32_small (z : Z) : 0 <= z < 2 ^ 31 -> toInt32 z = z.
Proof.
  intros H. unfold toInt32. word_bounds. rewrite Z.mod_small; lia.
Qed.

Lemma lxor_mod_pow2 (a b n : Z) :
  0 <= n -> Z.lxor a b mod 2 ^ n = Z.lxor (a mod 2 ^ n) (b mod 2 ^ n).
Proof.
  intros Hn. apply Z.bits_inj'. intros i Hi.
  rewrite Z.lxor_spec, !Z.testbit_mod_pow2, Z.lxor_spec by assumption.
  destruct (i <? n); reflexivity.
Qed.

Lemma charCode_range (c : ascii) : 0 <= JsString.charCode c < 256.
Proof.
  unfold JsString.charCode.
  pose proof (N_ascii_bounded c) as H. lia.
Qed.

(** One round of the loop of [fnv1a], read on unsigned numbers. *)
Lemma fnv1a_round (hash : Z) (c : ascii) :
  toUint32 (imul (xor32 hash (JsString.charCode c)) 0x01000193)
  = (Z.lxor (toUint32 hash) (JsString.charCode c) * 16777619) mod 2 ^ 32.
Proof.
  pose proof (charCode_range c) as Hc.
  unfold toUint32, imul, xor32.
  rewrite toInt32_mod.
  rewrite (toInt32_small (z := JsString.charCode c)) by (word_bounds; lia).
  rewrite (toInt32_small (z := 0x01000193)) by (word_bounds; lia).
  rewrite <- Zmult_mod_idemp_l.
  rewrite toInt32_mod.
  rewrite lxor_mod_pow2 by lia.
  rewrite toInt32_mod.
  rewrite (Z.mod_small (JsString.charCode c)) by (word_bounds; lia).
  reflexivity.
Qed.

Lemma toUint32_idem (z : Z) : toUint32 (toUint32 z) = toUint32 z.
Proof.
  unfold toUint32. apply Z.mod_mod. word_bounds. lia.
Qed.

Lemma fnv1aLoop_unsigned (input : string) (hash : Z) :
  toUint32 (fnv1aLoop input hash) = fnv1a32From input (toUint32 hash).
Proof.
  revert hash.
  induction input as [|c rest IH]; intros hash;
    cbn [fnv1aLoop fnv1a32From].
  - reflexivity.
  - now rewrite IH, fnv1a_round.
Qed.

(** [fnv1a] is the base-36 numeral of the unsigned 32-bit FNV-1a hash. *)
Lemma fnv1a_unsigned (input : string) :
  fnv1a input = JsString.toString36 (fnv1a32 input).
Proof.
  unfold fnv1a, fnv1a32. now rewrite fnv1aLoop_unsigned.
Qed.

(** The published test vectors of 32-bit FNV-1a. *)
Example fnv1a32_vectors :
  fnv1a32 "" = 0x811c9dc5
  /\ fnv1a32 "a" = 0xe40c292c
  /\ fnv1a32 "foobar" = 0xbf9cf968.
Proof.
  repeat split; reflexivity.
Qed.

Lemma fnv1a32From_range (input : string) (hash : Z) :
  0 <= hash < 2 ^ 32 -> 0 <= fnv1a32From input hash < 2 ^ 32.
Proof.
  revert hash.
  induction input as [|c rest IH]; intros hash H; cbn [fnv1a32From].
  - assumption.
  - apply IH. apply Z.mod_pos_bound. word_bounds. lia.
Qed.

Lemma fnv1a32_range (input : string) : 0 <= fnv1a32 input < 2 ^ 32.
Proof.
  unfold fnv1a32. apply fnv1a32From_range. word_bounds. lia.
Qed.

Lemma digitValue36_digit36 (d : Z) :
  0 <= d < 36 -> digitValue36 (JsString.digit36 d) = d.
Proof.
  intros H.
  assert (Hin : In d (map Z.of_nat (seq 0 36))).
  { apply in_map_iff. exists (Z.to_nat d). split; [lia|].
    apply in_seq. lia. }
  cbn in Hin.
  repeat (destruct Hin as [<- | Hin]; [reflexivity|]).
  contradiction.
Qed.

Lemma digits36_value (fuel : nat) :
  forall n acc,
    0 <= n < 36 ^ Z.of_nat fuel ->
    value36 (JsString.digits36 fuel n acc) = value36From acc n.
Proof.
  unfold value36.
  induction fuel as [|fuel IH]; intros n acc Hn.
  - cbn [JsString.digits36]. change (36 ^ Z.of_nat 0) with 1 in Hn.
    now replace n with 0 by lia.
  - cbn [JsString.digits36].
    assert (Hmod : 0 <= n mod 36 < 36) by (apply Z.mod_pos_bound; lia).
    destruct (n / 36 =? 0) eqn:Hq.
    + apply Z.eqb_eq in Hq. cbn [value36From].
      rewrite digitValue36_digit36 by assumption.
      f_equal. pose proof (Z.div_mod n 36). lia.
    + rewrite IH.
      * cbn [value36From]. rewrite digitValue36_digit36 by assumption.
        f_equal. pose proof (Z.div_mod n 36). lia.
      * rewrite Nat2Z.inj_succ, Z.pow_succ_r in Hn by lia.
        split; [apply Z.div_pos; lia|].
        apply Z.div_lt_upper_bound; lia.
Qed.

(** Seven digits are enough for an unsigned 32-bit number: the numeral of
    [toString36] denotes the number it was made of. *)
Lemma toString36_value (n : Z) :
  0 <= n < 2 ^ 32 -> value36 (JsString.toString36 n) = n.
Proof.
  intros H. unfold JsString.toString36.
  rewrite digits36_value; [reflexivity|].
  change (36 ^ Z.of_nat 7) with 78364164096. word_bounds. lia.
Qed.

(** ** The key of a message *)

Section Keys.

Variable strip : string -> string.

Lemma nonEmptyString_stringOr (v : JsValue) :
  match nonEmptyString v with
  | Some s => Js.stringOr v "" = s /\ JsString.isEmpty s = false
  | None => JsString.isEmpty (Js.stringOr v "") = true
  end.
Proof.
  destruct v; simpl; auto. destruct s; simpl; auto.
Qed.

(** C3, as the code has it.  For a readable message the key is
    ["tool:" + toolCallId] when [toolCallId] is a non-empty string
    ([tool_call_id] is not looked at); else ["msg:" + id] when [id] is a
    non-empty string; else ["msg:" + messageId] when [messageId] is one;
    otherwise ["msg:" + role + ":" + timestamp + ":" + hash], the time
    stamp printed as [String] prints it, when the time stamp is a number
    that is truthy, so neither zero nor [NaN], and
    ["msg:" + role + ":" + hash] when it is zero, [NaN] or no number,
    where [hash] is the base-36 numeral of the
    unsigned 32-bit FNV-1a hash (seed 0x811c9dc5, multiplier 0x01000193,
    one round per code unit) of the extracted text, else the string
    content, else the JSON serialization, else the index; the hash is
    below 2^32 and the numeral denotes it. *)
Theorem messageKey_precedence (message : JsValue) (index : Z) :
  readable message = true ->
  let field k := nonEmptyString (Js.prop message k) in
  let role := Js.stringOr (Js.prop message "role") "unknown" in
  match field "toolCallId", field "id", field "messageId" with
  | Some toolCallId, _, _ =>
      messageKey strip message index = Ok ("tool:" ++ toolCallId)
  | None, Some id, _ =>
      messageKey strip message index = Ok ("msg:" ++ id)
  | None, None, Some messageId =>
      messageKey strip message index = Ok ("msg:" ++ messageId)
  | None, None, None =>
      exists text,
        extractText strip message = Ok text /\
        let seed := fingerprintSeed text message index in
        let hash := JsString.toString36 (fnv1a32 seed) in
        0 <= fnv1a32 seed < 2 ^ 32
        /\ value36 hash = fnv1a32 seed
        /\ match Js.prop message "timestamp" with
           | JNum t =>
               messageKey strip message index
               = Ok (if Number.truthy t
                     then "msg:" ++ role ++ ":" ++ Number.toString t
                            ++ ":" ++ hash
                     else "msg:" ++ role ++ ":" ++ hash)
           | _ =>
               messageKey strip message index
               = Ok ("msg:" ++ role ++ ":" ++ hash)
           end
  end.
Proof.
  intros Hr field role. subst field role. cbv beta.
  pose proof (readable_not_nullish _ Hr) as Hn.
  pose proof (nonEmptyString_stringOr (Js.prop message "toolCallId")) as Ht.
  pose proof (nonEmptyString_stringOr (Js.prop message "id")) as Hi.
  pose proof (nonEmptyString_stringOr (Js.prop message "messageId")) as Hm.
  unfold messageKey. rewrite !get_ok by assumption. cbn [rbind].
  destruct (nonEmptyString (Js.prop message "toolCallId")) as [t|].
  { destruct Ht as [-> ->]. reflexivity. }
  rewrite Ht. cbn [negb].
  destruct (nonEmptyString (Js.prop message "id")) as [i|].
  { destruct Hi as [-> ->]. reflexivity. }
  rewrite Hi. cbn [negb].
  destruct (nonEmptyString (Js.prop message "messageId")) as [mi|].
  { destruct Hm as [-> ->]. reflexivity. }
  rewrite Hm. cbn [negb].
  destruct (extractText_ok strip _ Hr) as [text Htext].
  exists text. split; [assumption|]. cbv zeta.
  split; [apply fnv1a32_range|].
  split; [apply toString36_value, fnv1a32_range|].
  rewrite Htext. cbn [rbind]. rewrite fnv1a_unsigned.
  assert (Hseed :
    match match text with
          | Some t => Some t
          | None => Js.asString (Js.prop message "content")
          end with
    | Some f => f
    | None => match safeJson message with
              | Some json => json
              | None => JsString.ofNumber index
              end
    end = fingerprintSeed text message index).
  { unfold fingerprintSeed, safeJson. destruct text as [t|]; [reflexivity|].
    destruct (Js.prop message "content"); simpl;
      try reflexivity;
      destruct (Json.stringify message) as [[j|]|]; reflexivity. }
  rewrite Hseed.
  destruct (Js.prop message "timestamp") as [| |b|t|t|t|t|t];
    cbn [Js.asNumber]; try reflexivity;
    now destruct (Number.truthy t).
Qed.

End Keys.

(** ** Normalization *)

Lemma normalizeContentItems_cases (items : list JsValue) :
  match rmapM normalizeContentItem items with
  | Ok _ => forallb (fun p => negb (Js.nullish p)) items = true
  | Throw => forallb (fun p => negb (Js.nullish p)) items = false
  end.
Proof.
  induction items as [|p items IH]; simpl; [reflexivity|].
  unfold normalizeContentItem at 1, Js.get.
  destruct (Js.nullish p); simpl; [reflexivity|].
  destruct (rmapM normalizeContentItem items); simpl; assumption.
Qed.

Lemma normalizedContent_cases (m : JsValue) :
  Js.nullish m = false ->
  match normalizedContent m (Js.prop m "content") with
  | Ok _ => readable m = true
  | Throw => readable m = false
  end.
Proof.
  intros Hn. unfold readable, normalizedContent.
  rewrite Hn, get_ok by assumption.
  destruct (Js.prop m "content") as [| |b|n|n|c|items|fields]; simpl;
    try (destruct (Js.prop m "text"); reflexivity); try reflexivity.
  apply normalizeContentItems_cases.
Qed.

Lemma unreadable_nullish (m : JsValue) :
  Js.nullish m = true -> readable m = false.
Proof.
  intros H. unfold readable. now rewrite H.
Qed.

(** What the loop of [groupMessages] learns of a message: nothing when it
    cannot be read, else its grouping role and time stamp. *)
Lemma normalize_then_stamp {A : Type} (m : JsValue)
      (k : string -> Number.t -> M A) (clock : Clock) :
  bind (normalizeMessage m)
       (fun normalized =>
          bind (if Number.truthy (Normalized.timestamp normalized)
                then ret (Normalized.timestamp normalized)
                else bind Date_now (fun now => ret (Number.Int now)))
               (fun timestamp =>
                  k (normalizeRoleForGrouping (Normalized.role normalized))
                    timestamp)) clock
  = if readable m
    then k (groupingRole m) (fst (stampOf m clock)) (snd (stampOf m clock))
    else Throw.
Proof.
  destruct (Js.nullish m) eqn:Hn.
  - rewrite (unreadable_nullish _ Hn).
    unfold normalizeMessage, bind, Js.get. now rewrite Hn.
  - pose proof (normalizedContent_cases _ Hn) as Hc.
    unfold normalizeMessage, bind. rewrite !get_ok by assumption.
    cbn [liftR].
    destruct (normalizedContent m (Js.prop m "content")) as [content|];
      rewrite Hc; [|reflexivity].
    unfold groupingRole, stampOf, numberOrNow.
    destruct (Js.prop m "timestamp") as [| |b|t|t|t|t|t];
      unfold bind, ret, Date_now, liftR;
      cbn [Normalized.timestamp Normalized.role Number.truthy];
      try (destruct (clock 0%nat =? 0); reflexivity).
    destruct (Number.truthy t); reflexivity.
Qed.

(** ** Grouping *)

Lemma groupLoop_message (key : string) (m : JsValue) (rest : list ChatItem)
      (result : list Entry) (cur : option Group.t) (clock : Clock) :
  groupLoop (MessageItem key m :: rest) result cur clock
  = if readable m
    then
      let next :=
        addMessage result cur key m (groupingRole m) (fst (stampOf m clock)) in
      groupLoop rest (fst next) (snd next) (snd (stampOf m clock))
    else Throw.
Proof.
  exact (normalize_then_stamp m
           (fun role timestamp =>
              groupLoop rest
                (fst (addMessage result cur key m role timestamp))
                (snd (addMessage result cur key m role timestamp)))
           clock).
Qed.

Lemma lastRole_snoc (entries : list Entry) (entry : Entry) :
  lastRole (entries ++ [entry]) = entryRole entry.
Proof.
  induction entries as [|e entries IH]; [reflexivity|].
  cbn [app lastRole]. rewrite IH.
  destruct entries; reflexivity.
Qed.

Lemma separated_snoc_item (entries : list Entry) (item : ChatItem) :
  separated entries -> separated (entries ++ [Item item]).
Proof.
  induction entries as [|e entries IH]; intros H; cbn [app separated].
  - exact I.
  - destruct e as [i|g]; cbn [separated] in H.
    + now apply IH.
    + destruct H as [Hhead Htail]. split; [|now apply IH].
      destruct entries as [|[i'|g'] entries']; cbn [app]; auto.
Qed.

Lemma separated_snoc_group (entries : list Entry) (group : Group.t) :
  separated (entries ++ [Grouped group])
  <-> separated entries /\ lastRole entries <> Some (Group.role group).
Proof.
  induction entries as [|e entries IH]; cbn [app separated].
  - cbn [lastRole]. split; [intros _; split; [exact I|discriminate]|tauto].
  - destruct e as [i|g].
    + rewrite IH. cbn [lastRole entryRole].
      destruct entries; [|tauto].
      cbn [lastRole]. tauto.
    + rewrite IH. cbn [lastRole entryRole].
      destruct entries as [|[i'|g'] entries']; cbn [app lastRole separated].
      * split.
        -- intros [? [_ ?]]. repeat split; auto. congruence.
        -- intros [[_ _] ?]. repeat split; auto; try discriminate. congruence.
      * tauto.
      * tauto.
Qed.

Lemma flatten_snoc (entries : list Entry) (entry : Entry) :
  flatten (entries ++ [entry]) = (flatten entries ++ entryItems entry)%list.
Proof.
  unfold flatten. rewrite flat_map_app. cbn [flat_map].
  now rewrite app_nil_r.
Qed.

Lemma addMessage_flatten (result : list Entry) (cur : option Group.t)
      (key : string) (m : JsValue) (role : string) (timestamp : Number.t) :
  let next := addMessage result cur key m role timestamp in
  flatten (pushGroup (fst next) (snd next))
  = (flatten (pushGroup result cur) ++ [MessageItem key m])%list.
Proof.
  unfold addMessage. destruct cur as [g|]; cbn [pushGroup].
  - destruct (String.eqb (Group.role g) role); cbn [fst snd pushGroup].
    + rewrite !flatten_snoc. cbn [entryItems Group.messages].
      rewrite map_app. cbn [map fst snd]. now rewrite app_assoc.
    + now rewrite !flatten_snoc.
  - cbn [fst snd pushGroup]. now rewrite flatten_snoc.
Qed.

Lemma openedGroup_isRun (key : string) (m : JsValue)
      (timestamp : Number.t) :
  isRun (Group.make ("group:" ++ groupingRole m ++ ":" ++ key)
                    (groupingRole m) [(m, key)] timestamp false).
Proof.
  unfold isRun. cbn [Group.messages Group.key Group.role Group.isStreaming].
  repeat split.
  - now exists m, key, [].
  - now constructor.
Qed.

Lemma addMessage_invariant (result : list Entry) (cur : option Group.t)
      (key : string) (m : JsValue) (timestamp : Number.t) :
  loopInvariant result cur ->
  let next := addMessage result cur key m (groupingRole m) timestamp in
  loopInvariant (fst next) (snd next).
Proof.
  unfold loopInvariant, addMessage.
  intros [Hruns [Hsep Hlast]].
  destruct cur as [g|]; cbn [pushGroup] in *.
  - apply Forall_app in Hruns. destruct Hruns as [Hresult Hg].
    apply Forall_inv in Hg. cbn [isRunEntry] in Hg.
    destruct (String.eqb_spec (Group.role g) (groupingRole m)) as [Heq|Hne];
      cbn [fst snd pushGroup].
    + repeat split.
      * apply Forall_app. split; [assumption|].
        constructor; [|constructor]. cbn [isRunEntry].
        destruct Hg as [[m0 [k0 [rest [Hm Hk]]]] [Hroles Hstream]].
        unfold isRun.
        cbn [Group.messages Group.key Group.role Group.isStreaming].
        repeat split; try assumption.
        -- exists m0, k0, (rest ++ [(m, key)])%list. now rewrite Hm.
        -- apply Forall_app. split; [assumption|].
           constructor; [|constructor]. now cbn [fst].
      * apply separated_snoc_group. now apply separated_snoc_group in Hsep.
      * discriminate.
    + repeat split.
      * apply Forall_app. split.
        -- apply Forall_app. split; [assumption|].
           constructor; [exact Hg|constructor].
        -- constructor; [|constructor]. apply openedGroup_isRun.
      * apply separated_snoc_group. split; [assumption|].
        rewrite lastRole_snoc. cbn [entryRole Group.role]. congruence.
      * discriminate.
  - cbn [fst snd pushGroup]. repeat split.
    + apply Forall_app. split; [assumption|].
      constructor; [|constructor]. apply openedGroup_isRun.
    + apply separated_snoc_group. split; [assumption|].
      rewrite Hlast by reflexivity. discriminate.
    + discriminate.
Qed.

Lemma groupLoop_runs (items : list ChatItem) :
  forall (result : list Entry) (cur : option Group.t) (clock : Clock),
    Forall (fun m => readable m = true) (itemMessages items) ->
    loopInvariant result cur ->
    exists out clock',
      groupLoop items result cur clock = Ok (out, clock')
      /\ flatten out = (flatten (pushGroup result cur) ++ items)%list
      /\ Forall isRunEntry out
      /\ separated out.
Proof.
  induction items as [|item items IH]; intros result cur clock Hread Hinv.
  - exists (pushGroup result cur), clock. cbn [groupLoop]. unfold ret.
    rewrite app_nil_r. destruct Hinv as [? [? _]]. auto.
  - assert (Hother :
      isMessageItem item = false ->
      exists out clock',
        groupLoop items (pushGroup result cur ++ [Item item])%list None clock
        = Ok (out, clock')
        /\ flatten out = (flatten (pushGroup result cur) ++ item :: items)%list
        /\ Forall isRunEntry out /\ separated out).
    { intros Hitem.
      destruct (IH (pushGroup result cur ++ [Item item])%list None clock)
        as [out [clock' [Hrun [Hflat [Hruns Hsep]]]]].
      - destruct item; [discriminate| |]; exact Hread.
      - destruct Hinv as [Hr [Hs _]]. unfold loopInvariant. cbn [pushGroup].
        repeat split.
        + apply Forall_app. split; [assumption|].
          constructor; [exact Hitem|constructor].
        + now apply separated_snoc_item.
        + intros _. now rewrite lastRole_snoc.
      - exists out, clock'. repeat split; try assumption.
        rewrite Hflat. cbn [pushGroup]. rewrite flatten_snoc.
        cbn [entryItems]. now rewrite <- app_assoc. }
    destruct item as [key m|key text startedAt|key];
      [|apply Hother; reflexivity|apply Hother; reflexivity].
    clear Hother. cbn [itemMessages flat_map app] in Hread.
    apply Forall_cons_iff in Hread. destruct Hread as [Hm Hrest].
    rewrite groupLoop_message, Hm. cbv zeta.
    destruct (IH _ _ (snd (stampOf m clock)) Hrest
                 (addMessage_invariant key m (fst (stampOf m clock)) Hinv))
      as [out [clock' [Hrun [Hflat [Hruns Hsep]]]]].
    exists out, clock'. repeat split; try assumption.
    rewrite Hflat, addMessage_flatten. now rewrite <- app_assoc.
Qed.

Ltac step_group :=
  rewrite groupLoop_message;
  match goal with
  | H : readable ?m = true |- context [readable ?m] => rewrite H
  end;
  cbv zeta; unfold addMessage; cbn [fst snd Group.role];
  repeat match goal with
         | H : groupingRole ?m = _ |- context [groupingRole ?m] => rewrite H
         end;
  cbn [String.eqb Ascii.eqb Bool.eqb andb fst snd Group.role Group.key
       Group.messages Group.timestamp Group.isStreaming app].

(** Roles user, assistant, assistant, user: three groups of one, two and
    one message. *)
Lemma groupMessages_four_roles (k1 k2 k3 k4 : string) (m1 m2 m3 m4 : JsValue)
      (clock : Clock) :
  readable m1 = true -> readable m2 = true ->
  readable m3 = true -> readable m4 = true ->
  groupingRole m1 = "user" -> groupingRole m2 = "assistant" ->
  groupingRole m3 = "assistant" -> groupingRole m4 = "user" ->
  exists t1 t2 t3 clock',
    groupMessages [MessageItem k1 m1; MessageItem k2 m2;
                   MessageItem k3 m3; MessageItem k4 m4] clock
    = Ok ([Grouped (Group.make ("group:user:" ++ k1) "user"
                               [(m1, k1)] t1 false);
           Grouped (Group.make ("group:assistant:" ++ k2) "assistant"
                               [(m2, k2); (m3, k3)] t2 false);
           Grouped (Group.make ("group:user:" ++ k4) "user"
                               [(m4, k4)] t3 false)], clock').
Proof.
  intros R1 R2 R3 R4 G1 G2 G3 G4. unfold groupMessages.
  do 4 step_group. cbn [groupLoop pushGroup app]. unfold ret.
  eauto 6.
Qed.

(** Two assistant messages, a live item, an assistant message: the live
    item passes through between a group of two and a group of one. *)
Lemma groupMessages_break_on_live (k1 k2 k3 : string) (m1 m2 m3 : JsValue)
      (live : ChatItem) (clock : Clock) :
  isMessageItem live = false ->
  readable m1 = true -> readable m2 = true -> readable m3 = true ->
  groupingRole m1 = "assistant" -> groupingRole m2 = "assistant" ->
  groupingRole m3 = "assistant" ->
  exists t1 t2 clock',
    groupMessages [MessageItem k1 m1; MessageItem k2 m2; live;
                   MessageItem k3 m3] clock
    = Ok ([Grouped (Group.make ("group:assistant:" ++ k1) "assistant"
                               [(m1, k1); (m2, k2)] t1 false);
           Item live;
           Grouped (Group.make ("group:assistant:" ++ k3) "assistant"
                               [(m3, k3)] t2 false)], clock').
Proof.
  intros L R1 R2 R3 G1 G2 G3. unfold groupMessages.
  do 2 step_group.
  assert (Hlive : forall result cur c,
    groupLoop (live :: [MessageItem k3 m3]) result cur c
    = groupLoop [MessageItem k3 m3]
                (pushGroup result cur ++ [Item live])%list None c).
  { intros. destruct live; [discriminate|reflexivity|reflexivity]. }
  rewrite Hlive. cbn [pushGroup app].
  step_group. cbn [groupLoop pushGroup app]. unfold ret.
  eauto 6.
Qed.

(** Over readable messages the grouping returns, and taking the members
    of its groups one by one gives back the items. *)
Lemma groupMessages_flatten (items : list ChatItem) (clock : Clock) :
  Forall (fun m => readable m = true) (itemMessages items) ->
  exists out clock',
    groupMessages items clock = Ok (out, clock') /\ flatten out = items.
Proof.
  intros Hread.
  destruct (@groupLoop_runs items [] None clock Hread)
    as [out [clock' [Hrun [Hflat _]]]].
  - unfold loopInvariant. cbn [pushGroup]. repeat split; auto.
  - exists out, clock'. split; assumption.
Qed.

(** The grouping returns exactly when every message can be read. *)
Lemma groupLoop_returns (items : list ChatItem) :
  forall result cur clock out clock',
    groupLoop items result cur clock = Ok (out, clock') ->
    Forall (fun m => readable m = true) (itemMessages items).
Proof.
  induction items as [|item items IH]; intros result cur clock out clock' H.
  - constructor.
  - destruct item as [key m|key text startedAt|key].
    + rewrite groupLoop_message in H.
      destruct (readable m) eqn:Hm; [|discriminate].
      cbn [itemMessages flat_map app]. constructor; [assumption|].
      eapply IH. exact H.
    + cbn [groupLoop] in H. eapply IH. exact H.
    + cbn [groupLoop] in H. eapply IH. exact H.
Qed.

Lemma groupMessages_returns_iff (items : list ChatItem) (clock : Clock) :
  (exists out clock', groupMessages items clock = Ok (out, clock'))
  <-> Forall (fun m => readable m = true) (itemMessages items).
Proof.
  split.
  - intros [out [clock' H]]. eapply groupLoop_returns. exact H.
  - intros H.
    destruct (@groupMessages_flatten items clock H) as [out [clock' [Hr _]]].
    eauto.
Qed.

(** C6.  For items whose messages can be read, [groupMessages] returns a
    sequence that keeps the order of the items (taking the members of each
    group one by one gives back the input, so an item that is not a message
    stays in place), in which every message sits in a group, every group is
    a run of messages of one canonical role, named after its first message
    and not streaming, and no two neighbouring groups have the same role:
    the groups are the maximal runs, and an item that is not a message ends
    the run before it.  In particular four messages of roles user,
    assistant, assistant, user give three groups of sizes 1, 2, 1 and roles
    user, assistant, user, and two assistant messages, a live item and an
    assistant message give a group of two, the live item, and a group of
    one. *)
Theorem groupMessages_maximal_runs (items : list ChatItem) (clock : Clock) :
  Forall (fun m => readable m = true) (itemMessages items) ->
  exists out clock',
    groupMessages items clock = Ok (out, clock')
    /\ flatten out = items
    /\ Forall isRunEntry out
    /\ separated out
    /\ (forall k1 m1 k2 m2 k3 m3 k4 m4,
          items = [MessageItem k1 m1; MessageItem k2 m2;
                   MessageItem k3 m3; MessageItem k4 m4] ->
          groupingRole m1 = "user" -> groupingRole m2 = "assistant" ->
          groupingRole m3 = "assistant" -> groupingRole m4 = "user" ->
          map entryRole out = [Some "user"; Some "assistant"; Some "user"]
          /\ map entryItems out
             = [[MessageItem k1 m1];
                [MessageItem k2 m2; MessageItem k3 m3];
                [MessageItem k4 m4]])
    /\ (forall k1 m1 k2 m2 live k3 m3,
          items = [MessageItem k1 m1; MessageItem k2 m2; live;
                   MessageItem k3 m3] ->
          isMessageItem live = false ->
          groupingRole m1 = "assistant" -> groupingRole m2 = "assistant" ->
          groupingRole m3 = "assistant" ->
          map entryRole out = [Some "assistant"; None; Some "assistant"]
          /\ map entryItems out
             = [[MessageItem k1 m1; MessageItem k2 m2];
                [live];
                [MessageItem k3 m3]]).
Proof.
  intros Hread.
  destruct (@groupLoop_runs items [] None clock Hread)
    as [out [clock' [Hrun [Hflat [Hruns Hsep]]]]].
  - unfold loopInvariant. cbn [pushGroup]. repeat split; auto.
  - exists out, clock'. fold (groupMessages items) in Hrun.
    split; [assumption|]. split; [assumption|].
    split; [assumption|]. split; [assumption|]. split.
    + intros k1 m1 k2 m2 k3 m3 k4 m4 -> G1 G2 G3 G4.
      cbn [itemMessages flat_map app] in Hread.
      repeat match goal with
             | H : Forall _ (_ :: _) |- _ =>
                 apply Forall_cons_iff in H; destruct H
             end.
      destruct (@groupMessages_four_roles k1 k2 k3 k4 m1 m2 m3 m4 clock)
        as [t1 [t2 [t3 [c' Hex]]]]; try assumption.
      rewrite Hex in Hrun. injection Hrun as <- _. split; reflexivity.
    + intros k1 m1 k2 m2 live k3 m3 -> L G1 G2 G3.
      assert (Hm : Forall (fun m => readable m = true) [m1; m2; m3]).
      { destruct live; [discriminate| |]; exact Hread. }
      clear Hread.
      repeat match goal with
             | H : Forall _ (_ :: _) |- _ =>
                 apply Forall_cons_iff in H; destruct H
             end.
      destruct (@groupMessages_break_on_live k1 k2 k3 m1 m2 m3 live clock)
        as [t1 [t2 [c' Hex]]]; try assumption.
      rewrite Hex in Hrun. injection Hrun as <- _. split; reflexivity.
Qed.

(** ** The item builder *)

Section Builder.

Variable strip : string -> string.

Lemma messageKey_keyOf (m : JsValue) (index : Z) :
  readable m = true -> messageKey strip m index = Ok (keyOf strip m index).
Proof.
  intros H. unfold keyOf.
  destruct (messageKey_ok strip m index H) as [key ->]. reflexivity.
Qed.

Lemma messageItems_readable (msgs : list JsValue) (index : Z) :
  Forall (fun m => readable m = true) msgs ->
  messageItems strip msgs index = Ok (keyedFrom strip msgs index).
Proof.
  intros H. revert index.
  induction H as [|m msgs Hm _ IH]; intros index; cbn [messageItems keyedFrom].
  - reflexivity.
  - now rewrite (messageKey_keyOf _ index Hm), IH.
Qed.

Lemma itemMessages_keyedFrom (msgs : list JsValue) (index : Z) :
  itemMessages (keyedFrom strip msgs index) = msgs.
Proof.
  revert index. induction msgs as [|m msgs IH]; intros index.
  - reflexivity.
  - cbn [keyedFrom itemMessages flat_map app].
    f_equal. apply IH.
Qed.

Lemma length_keyedFrom (msgs : list JsValue) (index : Z) :
  List.length (keyedFrom strip msgs index) = List.length msgs.
Proof.
  revert index. induction msgs as [|m msgs IH]; intros index.
  - reflexivity.
  - cbn [keyedFrom List.length]. now rewrite IH.
Qed.

Lemma itemMessages_app (a b : list ChatItem) :
  itemMessages (a ++ b) = (itemMessages a ++ itemMessages b)%list.
Proof.
  unfold itemMessages. apply flat_map_app.
Qed.

(** [chatItems] spelled out: the notice, the shown history, the tool
    messages and the live item, with the readings of the clock that the
    notice and the live item take. *)
Lemma chatItems_cases (props : Props.t) (clock : Clock) :
  let history := Props.messages props in
  let hidden := hiddenCount history in
  exists clock',
    chatItems strip props clock
    = let? shown :=
        messageItems strip (skipn (Z.to_nat hidden) history) hidden in
      let? tools :=
        messageItems strip (Props.toolMessages props)
                     (Z.of_nat (List.length history)) in
      Ok ((noticeItems hidden (clock 0%nat) ++ shown ++ tools
             ++ liveItems props (clock (if 0 <? hidden then 1%nat else 0%nat)))
            %list,
          clock').
Proof.
  intros history hidden. unfold chatItems, noticeItems, liveItems.
  fold history. fold (hiddenCount history). fold hidden.
  unfold bind, liftR, ret, Date_now.
  destruct (0 <? hidden);
    destruct (messageItems strip (skipn (Z.to_nat hidden) history) hidden)
      as [shown|]; cbn [rbind];
    try (now exists clock);
    destruct (messageItems strip (Props.toolMessages props)
                           (Z.of_nat (List.length history)))
      as [tools|]; cbn [rbind];
    try (now exists clock);
    destruct (Props.stream props) as [text|];
    try (destruct (0 <? JsString.len (JsString.trim text)));
    try (destruct (Props.streamStartedAt props));
    eexists; reflexivity.
Qed.

Lemma Forall_skipn {A : Type} (P : A -> Prop) (n : nat) (l : list A) :
  Forall P l -> Forall P (skipn n l).
Proof.
  intros H. rewrite <- (firstn_skipn n l) in H.
  now apply Forall_app in H.
Qed.

(** A message key starts with ["tool:"] or ["msg:"]. *)
Lemma messageKey_head (m : JsValue) (index : Z) (key : string) :
  messageKey strip m index = Ok key -> isMessageKey key.
Proof.
  unfold messageKey, Js.get, isMessageKey.
  destruct (Js.nullish m); cbn [rbind]; [discriminate|].
  destruct (negb (JsString.isEmpty (Js.stringOr (Js.prop m "toolCallId") ""))).
  { intros [= <-]. eexists. left. reflexivity. }
  destruct (negb (JsString.isEmpty (Js.stringOr (Js.prop m "id") ""))).
  { intros [= <-]. eexists. right. reflexivity. }
  destruct (negb (JsString.isEmpty (Js.stringOr (Js.prop m "messageId") ""))).
  { intros [= <-]. eexists. right. reflexivity. }
  destruct (extractText strip m) as [text|]; cbn [rbind]; [|discriminate].
  destruct (Js.asNumber (Js.prop m "timestamp")) as [t|];
    [destruct (Number.truthy t)|]; intros [= <-]; eexists; right;
    reflexivity.
Qed.

Lemma keyedFrom_keys (msgs : list JsValue) (index : Z) :
  Forall (fun m => readable m = true) msgs ->
  Forall (fun item => isMessageItem item = true
                      /\ isMessageKey (itemKey item))
         (keyedFrom strip msgs index).
Proof.
  intros H. revert index.
  induction H as [|m msgs Hm _ IH]; intros index; cbn [keyedFrom].
  - constructor.
  - constructor; [|apply IH]. split; [reflexivity|].
    cbn [itemKey]. eapply messageKey_head.
    now apply messageKey_keyOf.
Qed.

Lemma noticeMessage_readable (hidden now : Z) :
  readable (noticeMessage hidden now) = true.
Proof. reflexivity. Qed.

Lemma noticeMessage_role (hidden now : Z) :
  groupingRole (noticeMessage hidden now) = "system".
Proof. reflexivity. Qed.

Lemma liveItems_live (props : Props.t) (now : Z) :
  Forall (fun item => isMessageItem item = false) (liveItems props now).
Proof.
  unfold liveItems. destruct (Props.stream props) as [text|]; [|constructor].
  destruct (0 <? JsString.len (JsString.trim text)); now repeat constructor.
Qed.

Lemma itemMessages_live (items : list ChatItem) :
  Forall (fun item => isMessageItem item = false) items ->
  itemMessages items = [].
Proof.
  induction 1 as [|item items Hitem _ IH]; [reflexivity|].
  destruct item; [discriminate| |]; exact IH.
Qed.

Lemma itemMessages_notice (hidden now : Z) :
  Forall (fun m => readable m = true)
         (itemMessages (noticeItems hidden now)).
Proof.
  unfold noticeItems. destruct (0 <? hidden); now repeat constructor.
Qed.

(** The items of a build over readable messages. *)
Lemma chatItems_readable (props : Props.t) (clock : Clock) :
  let history := Props.messages props in
  let hidden := hiddenCount history in
  Forall (fun m => readable m = true) history ->
  Forall (fun m => readable m = true) (Props.toolMessages props) ->
  exists now started clock',
    chatItems strip props clock
    = Ok ((noticeItems hidden now
             ++ keyedFrom strip (skipn (Z.to_nat hidden) history) hidden
             ++ keyedFrom strip (Props.toolMessages props)
                          (Z.of_nat (List.length history))
             ++ liveItems props started)%list, clock')
    /\ Forall (fun m => readable m = true)
              (itemMessages
                 (noticeItems hidden now
                    ++ keyedFrom strip (skipn (Z.to_nat hidden) history)
                                 hidden
                    ++ keyedFrom strip (Props.toolMessages props)
                                 (Z.of_nat (List.length history))
                    ++ liveItems props started)%list).
Proof.
  intros history hidden Hh Ht.
  destruct (chatItems_cases props clock) as [clock' Hc].
  fold history in Hc. fold hidden in Hc.
  rewrite !messageItems_readable in Hc
    by (try apply Forall_skipn; assumption).
  cbn [rbind] in Hc.
  exists (clock 0%nat), (clock (if 0 <? hidden then 1%nat else 0%nat)), clock'.
  split; [exact Hc|].
  rewrite !itemMessages_app, !itemMessages_keyedFrom.
  rewrite (itemMessages_live (liveItems_live props _)), app_nil_r.
  apply Forall_app. split; [apply itemMessages_notice|].
  apply Forall_app. split; [now apply Forall_skipn|assumption].
Qed.

Lemma groupLoop_snoc_live (items : list ChatItem) (live : ChatItem) :
  isMessageItem live = false ->
  forall result cur clock,
    groupLoop (items ++ [live]) result cur clock
    = match groupLoop items result cur clock with
      | Ok (out, clock') => Ok ((out ++ [Item live])%list, clock')
      | Throw => Throw
      end.
Proof.
  intros Hlive. induction items as [|item items IH]; intros result cur clock.
  - destruct live; [discriminate|reflexivity|reflexivity].
  - destruct item as [key m|key text startedAt|key]; cbn [app].
    + rewrite !groupLoop_message. destruct (readable m); [|reflexivity].
      cbv zeta. apply IH.
    + cbn [groupLoop]. apply IH.
    + cbn [groupLoop]. apply IH.
Qed.

Lemma flatten_map_Item (items : list ChatItem) :
  flatten (map Item items) = items.
Proof.
  induction items as [|item items IH]; [reflexivity|].
  cbn [map flatten flat_map entryItems app]. f_equal. exact IH.
Qed.

(** A build over readable messages returns; its items are the notice,
    the shown history, the tool messages and the live item, as they are
    in the flat layout and grouped in the other. *)
Lemma build_readable (props : Props.t) (clock : Clock) :
  let history := Props.messages props in
  let hidden := hiddenCount history in
  Forall (fun m => readable m = true) history ->
  Forall (fun m => readable m = true) (Props.toolMessages props) ->
  exists out clock' now started,
    let items :=
      (noticeItems hidden now
         ++ keyedFrom strip (skipn (Z.to_nat hidden) history) hidden
         ++ keyedFrom strip (Props.toolMessages props)
                      (Z.of_nat (List.length history))
         ++ liveItems props started)%list in
    buildChatItems strip props clock = Ok (out, clock')
    /\ flatten out = items
    /\ Forall (fun m => readable m = true) (itemMessages items)
    /\ (Props.useNewChatLayout props = false -> out = map Item items)
    /\ (Props.useNewChatLayout props = true ->
        exists clock1, groupMessages items clock1 = Ok (out, clock')).
Proof.
  intros history hidden Hh Ht.
  destruct (chatItems_readable props clock Hh Ht)
    as [now [started [clock1 [Hitems Hread]]]].
  fold history in Hitems, Hread. fold hidden in Hitems, Hread.
  unfold buildChatItems, bind. rewrite Hitems.
  destruct (Props.useNewChatLayout props).
  - destruct (@groupMessages_flatten _ clock1 Hread)
      as [out [clock' [Hrun Hflat]]].
    exists out, clock', now, started. cbv zeta.
    repeat split; try assumption; [discriminate|].
    intros _. now exists clock1.
  - exists (map Item
              (noticeItems hidden now
                 ++ keyedFrom strip (skipn (Z.to_nat hidden) history) hidden
                 ++ keyedFrom strip (Props.toolMessages props)
                              (Z.of_nat (List.length history))
                 ++ liveItems props started)%list),
      clock1, now, started. cbv zeta.
    repeat split; try assumption; try discriminate.
    apply flatten_map_Item.
Qed.

Lemma isMessageKey_not_notice (key : string) :
  isMessageKey key -> key <> "chat:history:notice".
Proof.
  intros [s [-> | ->]]; discriminate.
Qed.

Lemma hiddenCount_cases (history : list JsValue) :
  let n := Z.of_nat (List.length history) in
  (CHAT_HISTORY_RENDER_LIMIT < n
   /\ hiddenCount history = n - CHAT_HISTORY_RENDER_LIMIT
   /\ (0 <? hiddenCount history) = true
   /\ Z.to_nat (hiddenCount history) = (List.length history - 200)%nat)
  \/ (n <= CHAT_HISTORY_RENDER_LIMIT
      /\ hiddenCount history = 0
      /\ (0 <? hiddenCount history) = false).
Proof.
  unfold hiddenCount, CHAT_HISTORY_RENDER_LIMIT. cbv zeta.
  destruct (Z.lt_ge_cases 200 (Z.of_nat (List.length history))) as [H|H].
  - left. rewrite Z.max_r by lia. repeat split; lia.
  - right. rewrite Z.max_l by lia. repeat split; lia.
Qed.

(** C5.  Over readable messages the build returns and, the members of
    groups taken one by one, its items are: when the history is longer
    than 200, one notice first, keyed [chat:history:notice], of role
    system, whose text gives the number of hidden entries, then the last
    200 history entries in order, then the tool and live items; else the
    whole history, then the tool and live items.  No other item has the
    key of the notice.  For 250 entries the text of the notice is
    "Showing last 200 messages (50 hidden)." and 201 items precede the
    tool and live items. *)
Theorem history_window (props : Props.t) (clock : Clock) :
  let history := Props.messages props in
  let n := Z.of_nat (List.length history) in
  Forall (fun m => readable m = true) history ->
  Forall (fun m => readable m = true) (Props.toolMessages props) ->
  exists out clock' shown rest,
    buildChatItems strip props clock = Ok (out, clock')
    /\ (Props.useNewChatLayout props = false -> out = map Item (flatten out))
    /\ Forall (fun item => isMessageItem item = true) shown
    /\ Forall (fun item => itemKey item <> "chat:history:notice")
              (shown ++ rest)
    /\ itemMessages rest = Props.toolMessages props
    /\ (CHAT_HISTORY_RENDER_LIMIT < n ->
        exists now,
          flatten out
          = (MessageItem "chat:history:notice"
               (JObj [("role", JStr "system");
                      ("content",
                        JStr ("Showing last 200 messages ("
                                ++ JsString.ofNumber (n - 200)
                                ++ " hidden)."));
                      ("timestamp", JNum now)])
               :: shown ++ rest)%list
          /\ itemMessages shown
             = skipn (List.length history - 200) history
          /\ List.length shown = 200%nat
          /\ (n = 250 ->
              JsString.ofNumber (n - 200) = "50"
              /\ List.length (flatten out)
                 = (201 + List.length rest)%nat))
    /\ (n <= CHAT_HISTORY_RENDER_LIMIT ->
        flatten out = (shown ++ rest)%list
        /\ itemMessages shown = history).
Proof.
  intros history n Hh Ht.
  destruct (build_readable props clock Hh Ht)
    as [out [clock' [now [started [Hrun [Hflat [_ [Hmode _]]]]]]]].
  fold history in Hflat, Hmode.
  set (hidden := hiddenCount history) in *.
  set (shown := keyedFrom strip (skipn (Z.to_nat hidden) history) hidden) in *.
  set (tools := keyedFrom strip (Props.toolMessages props)
                          (Z.of_nat (List.length history))) in *.
  exists out, clock', shown, (tools ++ liveItems props started)%list.
  assert (Hshown : Forall (fun item => isMessageItem item = true
                                       /\ isMessageKey (itemKey item)) shown).
  { apply keyedFrom_keys. now apply Forall_skipn. }
  assert (Htools : Forall (fun item => isMessageItem item = true
                                       /\ isMessageKey (itemKey item)) tools).
  { now apply keyedFrom_keys. }
  split; [assumption|].
  split; [intros Hflatmode; rewrite Hflat; now apply Hmode|].
  split; [eapply Forall_impl; [|exact Hshown]; now intros item [? _]|].
  split.
  { apply Forall_app. split; [|apply Forall_app; split].
    - eapply Forall_impl; [|exact Hshown].
      intros item [_ Hk]. now apply isMessageKey_not_notice.
    - eapply Forall_impl; [|exact Htools].
      intros item [_ Hk]. now apply isMessageKey_not_notice.
    - unfold liveItems, streamKey.
      destruct (Props.stream props) as [text|]; [|constructor].
      destruct (0 <? JsString.len (JsString.trim text));
        repeat constructor; cbn [itemKey]; discriminate. }
  split.
  { rewrite itemMessages_app. unfold tools.
    rewrite itemMessages_keyedFrom.
    rewrite (itemMessages_live (liveItems_live props _)).
    apply app_nil_r. }
  destruct (hiddenCount_cases history) as [[Hlong [Hhid [Hpos Hnat]]]
                                          |[Hshort [Hhid Hpos]]];
    fold hidden in Hhid, Hpos; fold n in Hlong || fold n in Hshort;
    unfold CHAT_HISTORY_RENDER_LIMIT in *.
  - split; [|intros; lia]. intros _.
    fold hidden in Hnat.
    exists now. unfold noticeItems in Hflat. rewrite Hpos in Hflat.
    assert (Hlen : List.length shown = 200%nat).
    { unfold shown. rewrite length_keyedFrom, length_skipn, Hnat.
      unfold n in Hlong. lia. }
    split; [|split; [|split]].
    + rewrite Hflat. unfold noticeMessage, CHAT_HISTORY_RENDER_LIMIT.
      now rewrite Hhid.
    + unfold shown. now rewrite itemMessages_keyedFrom, Hnat.
    + exact Hlen.
    + intros H250. split; [now rewrite H250|].
      rewrite Hflat. cbn [app List.length].
      rewrite length_app, Hlen. reflexivity.
  - split; [intros; lia|]. intros _.
    unfold noticeItems in Hflat. rewrite Hpos in Hflat.
    split; [exact Hflat|].
    unfold shown. rewrite itemMessages_keyedFrom, Hhid. reflexivity.
Qed.

Lemma positive_length (s : string) :
  (0 <? JsString.len s) = negb (JsString.isEmpty s).
Proof.
  destruct s; [reflexivity|].
  unfold JsString.len. cbn [String.length JsString.isEmpty negb].
  apply Z.ltb_lt. lia.
Qed.

Lemma keyedFrom_messages (msgs : list JsValue) (index : Z) :
  Forall (fun item => isMessageItem item = true)
         (keyedFrom strip msgs index).
Proof.
  revert index. induction msgs as [|m msgs IH]; intros index;
    cbn [keyedFrom]; constructor; auto.
Qed.

Lemma noticeItems_messages (hidden now : Z) :
  Forall (fun item => isMessageItem item = true) (noticeItems hidden now).
Proof.
  unfold noticeItems. destruct (0 <? hidden); now repeat constructor.
Qed.

(** C7.  Over readable messages the build returns.  With live text
    present its last entry is the one live item of the sequence, keyed
    ["stream:" + sessionKey + ":" + start] (["live"] for an absent start
    time): a stream item with the text as given when the trimmed text is
    not empty, a reading indicator with that key otherwise; what precedes
    it holds messages only.  With the live text absent the sequence holds
    messages only.  In particular "hello" gives a stream item of text
    "hello", and the empty text and three spaces give a reading
    indicator. *)
Theorem live_item (props : Props.t) (clock : Clock) :
  Forall (fun m => readable m = true) (Props.messages props) ->
  Forall (fun m => readable m = true) (Props.toolMessages props) ->
  exists out clock',
    buildChatItems strip props clock = Ok (out, clock')
    /\ match Props.stream props with
       | None => Forall (fun item => isMessageItem item = true) (flatten out)
       | Some text =>
           let key :=
             "stream:" ++ Props.sessionKey props ++ ":"
               ++ match Props.streamStartedAt props with
                  | Some t => JsString.ofNumber t
                  | None => "live"
                  end in
           exists before live,
             out = (before ++ [Item live])%list
             /\ Forall (fun item => isMessageItem item = true)
                       (flatten before)
             /\ (JsString.isEmpty (JsString.trim text) = false ->
                 exists startedAt,
                   live = StreamItem key text startedAt
                   /\ forall t, Props.streamStartedAt props = Some t ->
                                startedAt = t)
             /\ (JsString.isEmpty (JsString.trim text) = true ->
                 live = ReadingIndicator key)
             /\ (text = "hello" ->
                 exists startedAt, live = StreamItem key "hello" startedAt)
             /\ (text = "" \/ text = "   " -> live = ReadingIndicator key)
       end.
Proof.
  intros Hh Ht.
  destruct (build_readable props clock Hh Ht)
    as [out [clock' [now [started [Hrun [Hflat [Hread [Hflatmode Hgroup]]]]]]]].
  exists out, clock'. split; [assumption|].
  set (hidden := hiddenCount (Props.messages props)) in *.
  set (msgs := (noticeItems hidden now
                  ++ keyedFrom strip
                       (skipn (Z.to_nat hidden) (Props.messages props)) hidden
                  ++ keyedFrom strip (Props.toolMessages props)
                       (Z.of_nat (List.length (Props.messages props))))%list).
  assert (Hmsgs : Forall (fun item => isMessageItem item = true) msgs).
  { unfold msgs. apply Forall_app. split; [apply noticeItems_messages|].
    apply Forall_app. split; apply keyedFrom_messages. }
  assert (Hassoc : forall live,
    (noticeItems hidden now
       ++ keyedFrom strip
            (skipn (Z.to_nat hidden) (Props.messages props)) hidden
       ++ keyedFrom strip (Props.toolMessages props)
            (Z.of_nat (List.length (Props.messages props)))
       ++ live)%list = (msgs ++ live)%list).
  { intros live. unfold msgs. now rewrite <- !app_assoc. }
  rewrite Hassoc in Hflat, Hread, Hflatmode, Hgroup. clear Hassoc.
  unfold liveItems in *.
  destruct (Props.stream props) as [text|].
  2:{ rewrite app_nil_r in Hflat. now rewrite Hflat. }
  cbv zeta. fold (streamKey (Props.sessionKey props)
                            (Props.streamStartedAt props)).
  set (key := streamKey (Props.sessionKey props)
                        (Props.streamStartedAt props)) in *.
  rewrite positive_length in *.
  assert (Hlive : forall live,
    isMessageItem live = false ->
    flatten out = (msgs ++ [live])%list ->
    Forall (fun m => readable m = true) (itemMessages (msgs ++ [live])) ->
    (Props.useNewChatLayout props = false ->
     out = map Item (msgs ++ [live])) ->
    (Props.useNewChatLayout props = true ->
     exists clock1, groupMessages (msgs ++ [live]) clock1 = Ok (out, clock')) ->
    exists before,
      out = (before ++ [Item live])%list
      /\ Forall (fun item => isMessageItem item = true) (flatten before)).
  { intros live Hl Hf Hr Hm Hg.
    destruct (Props.useNewChatLayout props).
    - destruct (Hg eq_refl) as [clock1 Hg1].
      unfold groupMessages in Hg1.
      rewrite (@groupLoop_snoc_live msgs live Hl) in Hg1.
      rewrite itemMessages_app in Hr. apply Forall_app in Hr.
      destruct Hr as [Hr _].
      destruct (@groupMessages_flatten msgs clock1 Hr)
        as [before [clock2 [Hb Hbflat]]].
      unfold groupMessages in Hb. rewrite Hb in Hg1.
      injection Hg1 as <- _.
      exists before. split; [reflexivity|]. now rewrite Hbflat.
    - exists (map Item msgs). split.
      + rewrite (Hm eq_refl). now rewrite map_app.
      + now rewrite flatten_map_Item. }
  destruct (JsString.isEmpty (JsString.trim text)) eqn:Hblank;
    cbn [negb] in *.
  - destruct (Hlive (ReadingIndicator key) eq_refl Hflat Hread Hflatmode Hgroup)
      as [before [Hout Hbefore]].
    exists before, (ReadingIndicator key).
    repeat split; try assumption; try discriminate.
    intros ->. discriminate.
  - set (startedAt := match Props.streamStartedAt props with
                      | Some t => t
                      | None => started
                      end) in *.
    destruct (Hlive (StreamItem key text startedAt) eq_refl Hflat Hread
                    Hflatmode Hgroup) as [before [Hout Hbefore]].
    exists before, (StreamItem key text startedAt).
    repeat split; try assumption; try discriminate.
    + intros _. exists startedAt. split; [reflexivity|].
      intros t Hs. unfold startedAt. now rewrite Hs.
    + intros ->. now exists startedAt.
    + intros [-> | ->]; discriminate.
Qed.

End Builder.

(** ** Repeated builds *)

Lemma entryItems_keys_group (g : Group.t) :
  map itemKey (entryItems (Grouped g)) = map snd (Group.messages g).
Proof.
  cbn [entryItems]. rewrite map_map. reflexivity.
Qed.

Lemma pushGroup_keys (r1 r2 : list Entry) (c1 c2 : option Group.t) :
  map entryKeys r1 = map entryKeys r2 -> sameOpen c1 c2 ->
  map entryKeys (pushGroup r1 c1) = map entryKeys (pushGroup r2 c2).
Proof.
  intros Hr Hc. destruct c1 as [g1|], c2 as [g2|]; cbn [sameOpen] in Hc;
    try contradiction; cbn [pushGroup]; [|assumption].
  destruct Hc as [Hk [_ Hm]].
  rewrite !map_app, Hr. cbn [map]. unfold entryKeys at 2 4.
  rewrite !entryItems_keys_group. cbn [entryKey]. now rewrite Hk, Hm.
Qed.

Lemma addMessage_keys (r1 r2 : list Entry) (c1 c2 : option Group.t)
      (key role : string) (m1 m2 : JsValue) (t1 t2 : Number.t) :
  map entryKeys r1 = map entryKeys r2 -> sameOpen c1 c2 ->
  map entryKeys (fst (addMessage r1 c1 key m1 role t1))
  = map entryKeys (fst (addMessage r2 c2 key m2 role t2))
  /\ sameOpen (snd (addMessage r1 c1 key m1 role t1))
              (snd (addMessage r2 c2 key m2 role t2)).
Proof.
  intros Hr Hc. unfold addMessage.
  destruct c1 as [g1|], c2 as [g2|]; cbn [sameOpen] in Hc;
    try contradiction.
  - destruct Hc as [Hk [Hrole Hm]]. rewrite <- Hrole.
    destruct (String.eqb (Group.role g1) role); cbn [fst snd].
    + split; [assumption|]. cbn [sameOpen Group.key Group.role Group.messages].
      repeat split; try assumption. rewrite !map_app, Hm. reflexivity.
    + split.
      * apply (@pushGroup_keys r1 r2 (Some g1) (Some g2)); [assumption|].
        cbn [sameOpen]. auto.
      * cbn [sameOpen Group.key Group.role Group.messages map snd]. auto.
  - cbn [fst snd]. split; [assumption|].
    cbn [sameOpen Group.key Group.role Group.messages map snd]. auto.
Qed.

Lemma groupLoop_keys (items1 items2 : list ChatItem) :
  Forall2 sameSlot items1 items2 ->
  forall r1 r2 c1 c2 clock1 clock2,
    map entryKeys r1 = map entryKeys r2 -> sameOpen c1 c2 ->
    rmap (map entryKeys) (value (groupLoop items1 r1 c1 clock1))
    = rmap (map entryKeys) (value (groupLoop items2 r2 c2 clock2)).
Proof.
  induction 1 as [|a b items1 items2 Hab _ IH];
    intros r1 r2 c1 c2 clock1 clock2 Hr Hc.
  - cbn [groupLoop]. unfold ret, value, rmap. cbn [rbind fst].
    f_equal. now apply pushGroup_keys.
  - assert (Hlive : forall k1 k2 : ChatItem,
      map entryKeys (pushGroup r1 c1 ++ [Item k1])
      = map entryKeys (pushGroup r2 c2 ++ [Item k2]) ->
      rmap (map entryKeys)
           (value (groupLoop items1 (pushGroup r1 c1 ++ [Item k1])%list
                             None clock1))
      = rmap (map entryKeys)
             (value (groupLoop items2 (pushGroup r2 c2 ++ [Item k2])%list
                               None clock2))).
    { intros k1 k2 Hk. apply IH; [assumption|exact I]. }
    pose proof (@pushGroup_keys _ _ _ _ Hr Hc) as Hpush.
    destruct a as [k1 m1|k1 t1 s1|k1], b as [k2 m2|k2 t2 s2|k2];
      cbn [sameSlot] in Hab; try contradiction.
    + destruct Hab as [<- [Hread Hrole]].
      rewrite !groupLoop_message, Hread, Hrole.
      destruct (readable m2); [|reflexivity]. cbv zeta.
      destruct (@addMessage_keys r1 r2 c1 c2 k1 (groupingRole m2) m1 m2
                                 (fst (stampOf m1 clock1))
                                 (fst (stampOf m2 clock2)) Hr Hc)
        as [Hr' Hc'].
      now apply IH.
    + subst k2. cbn [groupLoop]. apply Hlive.
      rewrite !map_app, Hpush. reflexivity.
    + subst k2. cbn [groupLoop]. apply Hlive.
      rewrite !map_app, Hpush. reflexivity.
Qed.

Lemma groupLoop_clock_free (items : list ChatItem) :
  Forall (fun m => stamped m = true) (itemMessages items) ->
  forall result cur clock1 clock2,
    value (groupLoop items result cur clock1)
    = value (groupLoop items result cur clock2).
Proof.
  induction items as [|item items IH]; intros Hs result cur clock1 clock2.
  - reflexivity.
  - destruct item as [key m|key text startedAt|key].
    + cbn [itemMessages flat_map app] in Hs.
      apply Forall_cons_iff in Hs. destruct Hs as [Hm Hrest].
      rewrite !groupLoop_message.
      destruct (readable m); [|reflexivity]. cbv zeta.
      assert (Hstamp : forall clock,
                stampOf m clock
                = (fst (stampOf m clock1), clock)).
      { intros clock. unfold stampOf, stamped in *.
        destruct (Js.prop m "timestamp"); try discriminate.
        destruct (Number.truthy n); [reflexivity|discriminate]. }
      rewrite (Hstamp clock2). rewrite (Hstamp clock1) at 2 3.
      cbn [fst snd]. now apply IH.
    + cbn [groupLoop]. now apply IH.
    + cbn [groupLoop]. now apply IH.
Qed.

Lemma sameSlot_refl (items : list ChatItem) : Forall2 sameSlot items items.
Proof.
  induction items as [|item items IH]; constructor; [|assumption].
  destruct item; cbn [sameSlot]; auto.
Qed.

Lemma Forall2_app_same {A : Type} (R : A -> A -> Prop)
      (a1 a2 b1 b2 : list A) :
  Forall2 R a1 a2 -> Forall2 R b1 b2 -> Forall2 R (a1 ++ b1) (a2 ++ b2).
Proof.
  induction 1; intros Hb; cbn [app]; [assumption|].
  constructor; auto.
Qed.

Lemma noticeItems_sameSlot (hidden now1 now2 : Z) :
  Forall2 sameSlot (noticeItems hidden now1) (noticeItems hidden now2).
Proof.
  unfold noticeItems. destruct (0 <? hidden); repeat constructor.
Qed.

Lemma liveItems_sameSlot (props : Props.t) (now1 now2 : Z) :
  Forall2 sameSlot (liveItems props now1) (liveItems props now2).
Proof.
  unfold liveItems. destruct (Props.stream props) as [text|]; [|constructor].
  destruct (0 <? JsString.len (JsString.trim text)); repeat constructor.
Qed.

Lemma sameSlot_keys (items1 items2 : list ChatItem) :
  Forall2 sameSlot items1 items2 ->
  map entryKeys (map Item items1) = map entryKeys (map Item items2).
Proof.
  induction 1 as [|a b items1 items2 Hab _ IH]; [reflexivity|].
  cbn [map]. rewrite IH. f_equal.
  destruct a as [k1 m1|k1 t1 s1|k1], b as [k2 m2|k2 t2 s2|k2];
    cbn [sameSlot] in Hab; try contradiction.
  - destruct Hab as [<- _]. reflexivity.
  - now subst k2.
  - now subst k2.
Qed.

Section Repeat.

Variable strip : string -> string.

Lemma messageItems_messages (msgs : list JsValue) :
  forall index items,
    messageItems strip msgs index = Ok items -> itemMessages items = msgs.
Proof.
  induction msgs as [|m msgs IH]; intros index items; cbn [messageItems].
  - now intros [= <-].
  - destruct (messageKey strip m index) as [key|]; cbn [rbind];
      [|discriminate].
    destruct (messageItems strip msgs (index + 1)) as [more|] eqn:Hmore;
      cbn [rbind]; [|discriminate].
    intros [= <-]. cbn [itemMessages flat_map app]. f_equal.
    now apply (IH (index + 1)).
Qed.

Lemma liveItems_clock_free (props : Props.t) (now1 now2 : Z) :
  match Props.stream props, Props.streamStartedAt props with
  | Some text, None => JsString.isEmpty (JsString.trim text)
  | _, _ => true
  end = true ->
  liveItems props now1 = liveItems props now2.
Proof.
  unfold liveItems. destruct (Props.stream props) as [text|]; [|reflexivity].
  rewrite positive_length.
  destruct (Props.streamStartedAt props); [reflexivity|].
  now intros ->.
Qed.

Lemma sameItem_refl (props : Props.t) (items : list ChatItem) :
  Forall2 (sameItem props) items items.
Proof.
  induction items as [|item items IH]; constructor; [|assumption].
  destruct item; cbn [sameItem]; auto.
Qed.

Lemma noticeItems_same (props : Props.t) (hidden now1 now2 : Z) :
  Forall2 (sameItem props) (noticeItems hidden now1)
          (noticeItems hidden now2).
Proof.
  unfold noticeItems. destruct (0 <? hidden); [|apply Forall2_nil].
  apply Forall2_cons; [|apply Forall2_nil].
  cbn [sameItem]. split; [reflexivity|]. right.
  exists hidden, now1, now2. auto.
Qed.

Lemma liveItems_same (props : Props.t) (now1 now2 : Z) :
  Forall2 (sameItem props) (liveItems props now1) (liveItems props now2).
Proof.
  unfold liveItems. destruct (Props.stream props) as [text|]; [|constructor].
  destruct (0 <? JsString.len (JsString.trim text));
    (apply Forall2_cons; [|apply Forall2_nil]); cbn [sameItem];
    [|reflexivity].
  split; [reflexivity|]. split; [reflexivity|].
  destruct (Props.streamStartedAt props); auto.
Qed.

Lemma pushGroup_same (props : Props.t) (r1 r2 : list Entry)
      (c1 c2 : option Group.t) :
  Forall2 (sameEntry props) r1 r2 -> sameCurrent props c1 c2 ->
  Forall2 (sameEntry props) (pushGroup r1 c1) (pushGroup r2 c2).
Proof.
  intros Hr Hc. destruct c1 as [g1|], c2 as [g2|]; cbn [sameCurrent] in Hc;
    try contradiction; cbn [pushGroup]; [|assumption].
  apply Forall2_app_same; [assumption|].
  constructor; [exact Hc|constructor].
Qed.

(** What the fold learns of two messages in the same place: they can be
    read or not alike, are grouped under the same role, and get the same
    time stamp unless the clock gives it. *)
Lemma sameItem_message (props : Props.t) (k1 k2 : string) (m1 m2 : JsValue)
      (clock1 clock2 : Clock) :
  sameItem props (MessageItem k1 m1) (MessageItem k2 m2) ->
  k1 = k2 /\ readable m1 = readable m2
  /\ groupingRole m1 = groupingRole m2
  /\ (fst (stampOf m1 clock1) = fst (stampOf m2 clock2)
      \/ stamped m1 = false \/ k1 = "chat:history:notice").
Proof.
  cbn [sameItem]. intros [Hk [Hm|[hidden [now1 [now2 [Hn [H1 H2]]]]]]].
  - subst m2. repeat split; try assumption; try reflexivity.
    destruct (stamped m1) eqn:Hs; [left|now right; left].
    unfold stampOf, stamped in *.
    destruct (Js.prop m1 "timestamp"); try discriminate.
    now rewrite Hs.
  - subst m1 m2. repeat split; try assumption; try reflexivity.
    right. now right.
Qed.

Lemma addMessage_same (props : Props.t) (r1 r2 : list Entry)
      (c1 c2 : option Group.t) (key role : string) (m1 m2 : JsValue)
      (t1 t2 : Number.t) :
  Forall2 (sameEntry props) r1 r2 -> sameCurrent props c1 c2 ->
  sameItem props (MessageItem key m1) (MessageItem key m2) ->
  t1 = t2 \/ stamped m1 = false \/ key = "chat:history:notice" ->
  Forall2 (sameEntry props) (fst (addMessage r1 c1 key m1 role t1))
          (fst (addMessage r2 c2 key m2 role t2))
  /\ sameCurrent props (snd (addMessage r1 c1 key m1 role t1))
                 (snd (addMessage r2 c2 key m2 role t2)).
Proof.
  intros Hr Hc Hm Ht.
  assert (Hnew : sameGroup props
                   (Group.make ("group:" ++ role ++ ":" ++ key) role
                               [(m1, key)] t1 false)
                   (Group.make ("group:" ++ role ++ ":" ++ key) role
                               [(m2, key)] t2 false)).
  { unfold sameGroup.
    cbn [Group.key Group.role Group.isStreaming Group.messages
         Group.timestamp].
    repeat split; try reflexivity.
    - constructor; [exact Hm|constructor].
    - destruct Ht as [Ht|Ht]; [now left|right].
      exists m1, key, []. split; [reflexivity|exact Ht]. }
  unfold addMessage.
  destruct c1 as [g1|], c2 as [g2|]; cbn [sameCurrent] in Hc;
    try contradiction.
  - pose proof Hc as Hg. destruct Hc as [Hk [Hrole [Hs [Hms Hts]]]].
    rewrite <- Hrole.
    destruct (String.eqb (Group.role g1) role); cbn [fst snd].
    + split; [assumption|]. cbn [sameCurrent]. unfold sameGroup.
      cbn [Group.key Group.role Group.isStreaming Group.messages
           Group.timestamp].
      repeat split; try assumption.
      * apply Forall2_app_same; [assumption|].
        constructor; [exact Hm|constructor].
      * destruct Hts as [Hts|[m [k [rest [Hfirst Hfree]]]]]; [now left|].
        right. exists m, k, (rest ++ [(m1, key)])%list.
        rewrite Hfirst. split; [reflexivity|exact Hfree].
    + split; [|exact Hnew].
      apply Forall2_app_same; [assumption|].
      constructor; [exact Hg|constructor].
  - cbn [fst snd]. split; [assumption|exact Hnew].
Qed.

Lemma groupLoop_same (props : Props.t) (items1 items2 : list ChatItem) :
  Forall2 (sameItem props) items1 items2 ->
  forall r1 r2 c1 c2 clock1 clock2,
    Forall2 (sameEntry props) r1 r2 -> sameCurrent props c1 c2 ->
    sameBuild props (value (groupLoop items1 r1 c1 clock1))
              (value (groupLoop items2 r2 c2 clock2)).
Proof.
  induction 1 as [|a b items1 items2 Hab _ IH];
    intros r1 r2 c1 c2 clock1 clock2 Hr Hc.
  - cbn [groupLoop]. unfold ret, value, rmap. cbn [rbind fst sameBuild].
    now apply pushGroup_same.
  - pose proof (@pushGroup_same props _ _ _ _ Hr Hc) as Hpush.
    destruct a as [k1 m1|k1 t1 s1|k1], b as [k2 m2|k2 t2 s2|k2];
      try (cbn [sameItem] in Hab; contradiction).
    + destruct (@sameItem_message props k1 k2 m1 m2 clock1 clock2 Hab)
        as [Hk [Hread [Hrole Hstamp]]].
      subst k2. rewrite !groupLoop_message, Hread, Hrole.
      destruct (readable m2); [|exact I]. cbv zeta.
      destruct (@addMessage_same props r1 r2 c1 c2 k1 (groupingRole m2)
                  m1 m2 (fst (stampOf m1 clock1)) (fst (stampOf m2 clock2))
                  Hr Hc Hab Hstamp) as [Hr' Hc'].
      now apply IH.
    + cbn [groupLoop]. apply IH; [|exact I].
      apply Forall2_app_same; [assumption|].
      constructor; [exact Hab|constructor].
    + cbn [groupLoop]. apply IH; [|exact I].
      apply Forall2_app_same; [assumption|].
      constructor; [exact Hab|constructor].
Qed.

(** C1, as the code has it.  Two builds of the same inputs, whatever the
    clock reads in each, both throw or both return, and the sequences
    they return agree entry by entry in every field but the stamps the
    clock gives: the time stamp of the truncation notice, the start time
    of a stream that was given none, and the time stamp of a group whose
    first message is the notice or has no time stamp of its own that is
    truthy.  In particular they hold the same key strings in the same
    order (the key of every entry and of every message inside a group).
    They return equal sequences whenever the build reads no clock: at
    most 200 history entries, no non-blank live text without a start
    time, and, under the grouping layout, a time stamp that is a truthy
    number on every message. *)
Theorem build_repeatable (props : Props.t) (clock1 clock2 : Clock) :
  sameBuild props (value (buildChatItems strip props clock1))
            (value (buildChatItems strip props clock2))
  /\ rmap (map entryKeys) (value (buildChatItems strip props clock1))
     = rmap (map entryKeys) (value (buildChatItems strip props clock2))
  /\ (clockFree props = true ->
      value (buildChatItems strip props clock1)
      = value (buildChatItems strip props clock2)).
Proof.
  destruct (chatItems_cases strip props clock1) as [c1 H1].
  destruct (chatItems_cases strip props clock2) as [c2 H2].
  cbv zeta in H1, H2.
  unfold buildChatItems, bind. rewrite H1, H2. clear H1 H2.
  set (history := Props.messages props).
  set (hidden := hiddenCount history).
  destruct (messageItems strip (skipn (Z.to_nat hidden) history) hidden)
    as [shown|] eqn:Hshown; cbn [rbind];
    [|split; [exact I|split; reflexivity]].
  destruct (messageItems strip (Props.toolMessages props)
                         (Z.of_nat (List.length history)))
    as [tools|] eqn:Htools; cbn [rbind];
    [|split; [exact I|split; reflexivity]].
  split; [|split].
  - assert (Hsame : Forall2 (sameItem props)
              (noticeItems hidden (clock1 0%nat) ++ shown ++ tools
                 ++ liveItems props
                      (clock1 (if 0 <? hidden then 1%nat else 0%nat)))
              (noticeItems hidden (clock2 0%nat) ++ shown ++ tools
                 ++ liveItems props
                      (clock2 (if 0 <? hidden then 1%nat else 0%nat)))).
    { apply Forall2_app_same; [apply noticeItems_same|].
      apply Forall2_app_same; [apply sameItem_refl|].
      apply Forall2_app_same; [apply sameItem_refl|].
      apply liveItems_same. }
    destruct (Props.useNewChatLayout props).
    + unfold groupMessages. apply groupLoop_same;
        [assumption|constructor|exact I].
    + unfold ret, value, rmap. cbn [rbind fst sameBuild].
      clear -Hsame. induction Hsame; cbn [map]; constructor; assumption.
  - assert (Hsame : Forall2 sameSlot
              (noticeItems hidden (clock1 0%nat) ++ shown ++ tools
                 ++ liveItems props
                      (clock1 (if 0 <? hidden then 1%nat else 0%nat)))
              (noticeItems hidden (clock2 0%nat) ++ shown ++ tools
                 ++ liveItems props
                      (clock2 (if 0 <? hidden then 1%nat else 0%nat)))).
    { apply Forall2_app_same; [apply noticeItems_sameSlot|].
      apply Forall2_app_same; [apply sameSlot_refl|].
      apply Forall2_app_same; [apply sameSlot_refl|].
      apply liveItems_sameSlot. }
    destruct (Props.useNewChatLayout props).
    + unfold groupMessages. now apply groupLoop_keys.
    + unfold ret, value, rmap. cbn [rbind fst]. f_equal.
      now apply sameSlot_keys.
  - intros Hfree. unfold clockFree in Hfree.
    apply andb_true_iff in Hfree. destruct Hfree as [Hfree Hstamped].
    apply andb_true_iff in Hfree. destruct Hfree as [Hshort Hlive].
    apply Z.leb_le in Hshort. fold history in Hshort, Hstamped.
    assert (Hhid : hidden = 0).
    { unfold hidden, hiddenCount. lia. }
    unfold noticeItems. rewrite Hhid. cbn [Z.ltb Z.compare app].
    rewrite (liveItems_clock_free props (clock1 0%nat) (clock2 0%nat) Hlive).
    destruct (Props.useNewChatLayout props).
    + unfold groupMessages. apply groupLoop_clock_free.
      cbn [negb orb] in Hstamped.
      rewrite forallb_forall in Hstamped. apply Forall_forall.
      intros m Hm. apply Hstamped.
      rewrite !itemMessages_app in Hm.
      rewrite (messageItems_messages _ _ Hshown) in Hm.
      rewrite (messageItems_messages _ _ Htools) in Hm.
      rewrite (itemMessages_live (liveItems_live props _)) in Hm.
      rewrite Hhid in Hm. cbn [Z.to_nat skipn] in Hm.
      rewrite app_nil_r in Hm. exact Hm.
    + reflexivity.
Qed.

End Repeat.

(** ** Distinct keys *)

Section Distinct.

Variable strip : string -> string.













End Distinct.

(** ** Tool cards *)

Section Cards.

Variable strip : string -> string.
Variable parse : string -> Res JsValue.

Lemma truthy_not_nullish (v : JsValue) :
  Js.truthy v = true -> Js.nullish v = false.
Proof.
  destruct v; cbn; congruence.
Qed.

Lemma toString_cases :
  forall v, match Js.toString v with
            | Ok _ => printable v = true
            | Throw => printable v = false
            end.
Proof.
  fix IH 1. intros [| |b|n|n|s|items|fields]; try reflexivity.
  - destruct b; reflexivity.
  - cbn [Js.toString printable]. unfold rmap.
    assert (H : match rmapM (fun x => if Js.nullish x then Ok ""
                                      else Js.toString x) items with
                | Ok _ =>
                    forallb (fun x => Js.nullish x || printable x) items
                    = true
                | Throw =>
                    forallb (fun x => Js.nullish x || printable x) items
                    = false
                end).
    { induction items as [|x rest IHrest]; [reflexivity|].
      cbn [rmapM forallb]. specialize (IH x).
      destruct (Js.nullish x); cbn [orb rbind andb].
      - destruct (rmapM _ rest); cbn [rbind]; exact IHrest.
      - destruct (Js.toString x); cbn [rbind]; rewrite IH; cbn [andb];
          [|reflexivity].
        destruct (rmapM _ rest); cbn [rbind]; exact IHrest. }
    destruct (rmapM _ items); cbn [rbind]; exact H.
  - cbn [Js.toString printable].
    destruct (Js.hasOwn "toString" fields); reflexivity.
Qed.

Lemma kindOf_cases (type : JsValue) :
  match kindOf type with
  | Ok _ => printable type = true
  | Throw => printable type = false
  end.
Proof.
  unfold kindOf, rmap.
  assert (Hc : printable (Js.coalesce type (JStr "")) = printable type)
    by (destruct type; reflexivity).
  pose proof (toString_cases (Js.coalesce type (JStr ""))) as H.
  rewrite Hc in H.
  destruct (Js.toString (Js.coalesce type (JStr ""))); cbn [rbind]; exact H.
Qed.

Lemma kindOf_printable (type : JsValue) :
  printable type = true -> exists kind, kindOf type = Ok kind.
Proof.
  intros H. pose proof (kindOf_cases type) as Hc.
  destruct (kindOf type); [eauto|congruence].
Qed.

Lemma kindOf_throws (type : JsValue) :
  printable type = false -> kindOf type = Throw.
Proof.
  intros H. pose proof (kindOf_cases type) as Hc.
  destruct (kindOf type); [congruence|reflexivity].
Qed.

(** The first loop of [extractToolCards] returns exactly when [String]
    converts the [type] of every part, and makes no result card. *)
Lemma callCards_cases (content : list JsValue) :
  Forall (fun p => Js.nullish p = false) content ->
  match rmap (@List.concat _) (rmapM (callCardOf parse) content) with
  | Ok calls =>
      forallb (fun p => printable (Js.prop p "type")) content = true
      /\ existsb isResultCard calls = false
  | Throw =>
      forallb (fun p => printable (Js.prop p "type")) content = false
  end.
Proof.
  induction 1 as [|p content Hp _ IH]; [now split|].
  unfold rmap in *. cbn [rmapM forallb].
  unfold callCardOf at 1, partKind. rewrite !get_ok by assumption.
  cbn [rbind].
  pose proof (kindOf_cases (Js.prop p "type")) as Hkind.
  destruct (kindOf (Js.prop p "type")) as [kind|]; cbn [rbind];
    rewrite Hkind; cbn [andb]; [|reflexivity].
  destruct (rmapM (callCardOf parse) content) as [cs|];
    cbn [rbind] in *; [|exact IH].
  destruct IH as [Hall Hnone]. split; [exact Hall|].
  destruct (isCallKind kind
            || Js.isString (Js.prop p "name")
               && negb (Js.nullish (Js.prop p "arguments")));
    cbn [List.concat app existsb isResultCard orb]; exact Hnone.
Qed.

Lemma callCards_ok (content : list JsValue) :
  Forall (fun p => Js.nullish p = false) content ->
  forallb (fun p => printable (Js.prop p "type")) content = true ->
  exists calls,
    rmap (@List.concat _) (rmapM (callCardOf parse) content) = Ok calls
    /\ existsb isResultCard calls = false.
Proof.
  intros Hn Hp. pose proof (callCards_cases Hn) as H.
  destruct (rmap _ _) as [calls|]; [|congruence].
  exists calls. split; [reflexivity|apply H].
Qed.

(** The second loop, once the first has returned: a result card for each
    part of a tool result kind. *)
Lemma resultCards_cases (content : list JsValue) :
  Forall (fun p => Js.nullish p = false) content ->
  forallb (fun p => printable (Js.prop p "type")) content = true ->
  exists results,
    rmap (@List.concat _) (rmapM resultCardOf content) = Ok results
    /\ existsb isResultCard results = existsb hasResultKind content.
Proof.
  induction 1 as [|p content Hp _ IH]; intros Hall; [now exists []|].
  cbn [forallb] in Hall. apply andb_true_iff in Hall.
  destruct Hall as [Hkind Hall]. destruct (IH Hall) as [results [Hr Hsome]].
  destruct (kindOf_printable _ Hkind) as [kind Hk].
  unfold rmap in *. cbn [rmapM existsb].
  unfold resultCardOf at 1, partKind, extractToolText, hasResultKind at 1.
  rewrite !get_ok by assumption. cbn [rbind]. rewrite Hk. cbn [rbind].
  destruct (rmapM resultCardOf content) as [cs|];
    cbn [rbind] in *; [|discriminate].
  assert (Hc : results = List.concat cs) by congruence. subst results.
  destruct (isResultKind kind);
    cbn [rbind List.concat app existsb isResultCard orb];
    eexists; split; try reflexivity.
  exact Hsome.
Qed.


Lemma normalizeContent_parts (content : JsValue) :
  Forall (fun p => Js.nullish p = false) (normalizeContent content).
Proof.
  unfold normalizeContent. destruct content; try constructor.
  apply Forall_forall. intros p Hp. apply filter_In in Hp.
  now apply truthy_not_nullish.
Qed.

Lemma forallb_filter_truthy (test : JsValue -> bool) (items : list JsValue) :
  forallb test (filter Js.truthy items)
  = forallb (fun p => negb (Js.truthy p) || test p) items.
Proof.
  induction items as [|p items IH]; [reflexivity|].
  cbn [filter forallb].
  destruct (Js.truthy p); cbn [forallb negb orb]; now rewrite IH.
Qed.

Lemma existsb_filter_truthy (test : JsValue -> bool) (items : list JsValue) :
  existsb test (filter Js.truthy items)
  = existsb (fun p => Js.truthy p && test p) items.
Proof.
  induction items as [|p items IH]; [reflexivity|].
  cbn [filter existsb].
  destruct (Js.truthy p); cbn [existsb andb orb]; now rewrite IH.
Qed.

Lemma normalizeContent_printable (m : JsValue) :
  forallb (fun p => printable (Js.prop p "type"))
          (normalizeContent (Js.prop m "content"))
  = printableKinds m.
Proof.
  unfold normalizeContent, printableKinds, contentParts.
  destruct (Js.prop m "content"); try reflexivity.
  apply forallb_filter_truthy.
Qed.

Lemma normalizeContent_results (m : JsValue) :
  existsb hasResultKind (normalizeContent (Js.prop m "content"))
  = existsb isResultPart (contentParts m).
Proof.
  unfold normalizeContent, contentParts.
  destruct (Js.prop m "content"); try reflexivity.
  apply existsb_filter_truthy.
Qed.

Lemma toolNameOf_resultName (m : JsValue) :
  toolNameOf (Js.prop m "toolName") (Js.prop m "tool_name") = resultName m.
Proof.
  unfold toolNameOf, resultName, nonEmptyString.
  destruct (Js.prop m "toolName") as [| | | | |[|c r]| |];
    destruct (Js.prop m "tool_name") as [| | | | |[|c' r']| |];
    reflexivity.
Qed.

Lemma isToolResultMessage_role (m : JsValue) :
  Js.nullish m = false ->
  isToolResultMessage m
  = Ok (let role :=
          JsString.toLowerCase (Js.stringOr (Js.prop m "role") "") in
        String.eqb role "toolresult" || String.eqb role "tool_result").
Proof.
  intros Hn. unfold isToolResultMessage. now rewrite get_ok.
Qed.

(** What [extractToolCards] does with a message that is not [null] or
    [undefined].  It throws when [String] cannot convert the [type] of a
    part.  Else it returns the call cards and the result cards of the
    parts, and one more result card, which takes the text of the message,
    when the role is a tool result role and no part made a result card. *)
Lemma extractToolCards_cases (m : JsValue) :
  Js.nullish m = false ->
  if printableKinds m then
    exists calls results isResult,
      isToolResultMessage m = Ok isResult
      /\ rmap (@List.concat _)
              (rmapM (callCardOf parse)
                     (normalizeContent (Js.prop m "content")))
         = Ok calls
      /\ existsb isResultCard calls = false
      /\ existsb isResultCard results
         = existsb isResultPart (contentParts m)
      /\ extractToolCards strip parse m
         = if isResult && negb (existsb isResultPart (contentParts m))
           then let? text := extractText strip m in
                Ok ((calls ++ results)
                      ++ [ResultCard (resultName m) text])%list
           else Ok (calls ++ results)%list
  else extractToolCards strip parse m = Throw.
Proof.
  intros Hn.
  pose proof (normalizeContent_parts (Js.prop m "content")) as Hparts.
  pose proof (callCards_cases Hparts) as Hcalls.
  rewrite normalizeContent_printable in Hcalls.
  destruct (printableKinds m) eqn:Hprintable.
  - destruct (rmap (@List.concat _)
                   (rmapM (callCardOf parse)
                          (normalizeContent (Js.prop m "content"))))
      as [calls|] eqn:Hc; [|discriminate Hcalls].
    destruct Hcalls as [_ Hnone].
    destruct (@resultCards_cases (normalizeContent (Js.prop m "content"))
                Hparts)
      as [results [Hresults Hsome]].
    { now rewrite normalizeContent_printable. }
    rewrite normalizeContent_results in Hsome.
    exists calls, results. eexists.
    split; [apply (isToolResultMessage_role _ Hn)|].
    split; [reflexivity|]. split; [exact Hnone|]. split; [exact Hsome|].
    unfold extractToolCards. rewrite !get_ok by assumption. cbn [rbind].
    rewrite Hc, Hresults. cbn [rbind].
    rewrite (isToolResultMessage_role _ Hn). cbn [rbind]. cbv zeta.
    rewrite existsb_app, Hnone, Hsome. cbn [orb].
    destruct ((String.eqb
                 (JsString.toLowerCase (Js.stringOr (Js.prop m "role") ""))
                 "toolresult"
               || String.eqb
                    (JsString.toLowerCase
                       (Js.stringOr (Js.prop m "role") ""))
                    "tool_result")
              && negb (existsb isResultPart (contentParts m)));
      [|reflexivity].
    now rewrite toolNameOf_resultName.
  - unfold extractToolCards. rewrite !get_ok by assumption. cbn [rbind].
    destruct (rmap (@List.concat _)
                   (rmapM (callCardOf parse)
                          (normalizeContent (Js.prop m "content"))));
      [destruct Hcalls; discriminate|reflexivity].
Qed.


End Cards.

(** ** Text and reasoning *)

Lemma partsM_pure {B : Type} (f : JsValue -> Res (option B))
      (g : JsValue -> option B) (items : list JsValue) :
  (forall p, Js.nullish p = false -> f p = Ok (g p)) ->
  Forall (fun p => Js.nullish p = false) items ->
  rmapM f items = Ok (map g items).
Proof.
  intros Hf. induction 1 as [|p items Hp _ IH]; [reflexivity|].
  cbn [rmapM map]. rewrite (Hf p Hp), IH. reflexivity.
Qed.

Lemma readable_parts (m : JsValue) :
  readable m = true -> Forall (fun p => Js.nullish p = false) (contentParts m).
Proof.
  intros H. unfold contentParts.
  destruct (Js.prop m "content") eqn:Hc; try constructor.
  apply Forall_forall. intros p Hp. eapply parts_readable; eauto.
Qed.

Lemma textParts_pure (m : JsValue) :
  readable m = true ->
  textParts (Js.prop m "content")
  = Ok (keepStrings (map textOf (contentParts m))).
Proof.
  intros H. pose proof (readable_parts _ H) as Hp.
  unfold textParts, contentParts in *.
  destruct (Js.prop m "content"); try reflexivity.
  unfold rmap.
  rewrite (partsM_pure textOfPart textOf); [reflexivity| |assumption].
  intros p Hn. unfold textOfPart, textOf. now rewrite !get_ok.
Qed.

Lemma thinkingParts_pure (m : JsValue) :
  readable m = true ->
  thinkingParts (Js.prop m "content") = Ok (cleanedThinking m).
Proof.
  intros H. pose proof (readable_parts _ H) as Hp.
  unfold thinkingParts, cleanedThinking, structuredThinking, contentParts in *.
  destruct (Js.prop m "content"); try reflexivity.
  unfold rmap.
  rewrite (partsM_pure thinkingOfPart
             (fun p => match thinkingOf p with
                       | Some s =>
                           if JsString.isEmpty (JsString.trim s)
                           then None else Some (JsString.trim s)
                       | None => None
                       end)); [|intros p Hn|assumption].
  - cbn [rbind]. f_equal. clear Hp.
    induction items as [|p items IH]; [reflexivity|].
    cbn [map keepStrings flat_map] in *. unfold keepStrings in IH.
    rewrite IH.
    destruct (thinkingOf p) as [t|]; [|reflexivity].
    cbn [app map filter].
    destruct (JsString.isEmpty (JsString.trim t)); reflexivity.
  - unfold thinkingOfPart, thinkingOf. rewrite !get_ok by assumption.
    cbn [rbind].
    destruct (Js.prop p "type"); try reflexivity.
    destruct (Js.prop p "thinking"); try reflexivity.
    destruct (String.eqb s "thinking"); reflexivity.
Qed.

Section Text.

Variable strip : string -> string.

(** [extractText] is [extractRawText] with the thinking tags stripped
    for the assistant role. *)
Lemma extractText_raw (m : JsValue) :
  extractText strip m
  = rmap (option_map
            (stripFor strip (Js.stringOr (Js.prop m "role") "")))
         (extractRawText m).
Proof.
  unfold extractText, extractRawText, Js.get, rmap.
  destruct (Js.nullish m); [reflexivity|]. cbn [rbind].
  destruct (Js.prop m "content") as [| |b|n|n|c|items|fields];
    cbn [textParts rbind option_map];
    try (destruct (Js.prop m "text"); reflexivity).
  unfold rmap.
  destruct (rmapM textOfPart items) as [parts|]; cbn [rbind];
    [|reflexivity].
  destruct (keepStrings parts); cbn [rbind option_map];
    [destruct (Js.prop m "text")|]; reflexivity.
Qed.

(** C9, as the code has it.  For a readable message [extractThinking]
    returns the structured reasoning texts, trimmed, the empty ones
    dropped and the rest joined by line feeds, whenever one is left; it
    scans the raw text, which is the text of the message before the tags
    are stripped, exactly when none is left, be it that the message has
    no structured reasoning part or only blank ones.  In particular a
    part [{ type: "thinking", thinking: "X" }] gives "X" although the
    text holds [<think>Y</think>]. *)
Theorem thinking_precedence (message : JsValue) :
  readable message = true ->
  (cleanedThinking message <> [] ->
   extractThinking message
   = Ok (Some (JsString.join JsString.nl (cleanedThinking message))))
  /\ (cleanedThinking message = [] ->
      exists raw,
        extractRawText message = Ok raw
        /\ extractText strip message
           = Ok (option_map
                   (stripFor strip
                      (Js.stringOr (Js.prop message "role") "")) raw)
        /\ extractThinking message = Ok (legacyThinking raw))
  /\ (Js.prop message "content"
      = JArr [JObj [("type", JStr "thinking"); ("thinking", JStr "X")];
              JObj [("type", JStr "text");
                    ("text", JStr "<think>Y</think>")]] ->
      extractThinking message = Ok (Some "X")).
Proof.
  intros Hr. pose proof (readable_not_nullish _ Hr) as Hn.
  pose proof (thinkingParts_pure _ Hr) as Hparts.
  assert (Hsome : cleanedThinking message <> [] ->
    extractThinking message
    = Ok (Some (JsString.join JsString.nl (cleanedThinking message)))).
  { intros Hne. unfold extractThinking.
    rewrite get_ok by assumption. cbn [rbind].
    rewrite Hparts. cbn [rbind].
    destruct (cleanedThinking message); [contradiction|reflexivity]. }
  split; [exact Hsome|]. split.
  - intros Hnone.
    destruct (extractText_ok strip _ Hr) as [text Htext].
    rewrite extractText_raw in Htext.
    destruct (extractRawText message) as [raw|] eqn:Hraw;
      [|discriminate].
    exists raw. split; [reflexivity|]. split.
    + rewrite extractText_raw, Hraw. reflexivity.
    + unfold extractThinking.
      rewrite get_ok by assumption. cbn [rbind].
      rewrite Hparts, Hnone. cbn [rbind].
      now rewrite Hraw.
  - intros Hc.
    assert (Hx : cleanedThinking message = ["X"]).
    { unfold cleanedThinking, structuredThinking, contentParts.
      rewrite Hc. reflexivity. }
    rewrite Hsome; rewrite Hx; [reflexivity|discriminate].
Qed.

(** C10, as the code has it.  For a readable message whose content is an
    array with no part of type "text" that holds a string text (so with
    no part of type "text" at all, or with no part) and whose top-level
    [text] is a string, [extractText] returns that text, stripped of the
    thinking tags for the assistant role; and it returns null exactly
    when the content is no string, no part is of type "text" with a
    string text, and the top-level [text] is no string. *)
Theorem text_fallback (message : JsValue) :
  readable message = true ->
  let role := Js.stringOr (Js.prop message "role") "" in
  (forall items t,
      Js.prop message "content" = JArr items ->
      Forall (fun p => textOf p = None) items ->
      Js.prop message "text" = JStr t ->
      extractText strip message
      = Ok (Some (if String.eqb role "assistant" then strip t else t)))
  /\ (forall items t,
        Js.prop message "content" = JArr items ->
        Forall (fun p => textTyped p = false) items ->
        Js.prop message "text" = JStr t ->
        extractText strip message
        = Ok (Some (if String.eqb role "assistant" then strip t else t)))
  /\ (extractText strip message = Ok None
      <-> Js.isString (Js.prop message "content") = false
          /\ keepStrings (map textOf (contentParts message)) = []
          /\ Js.isString (Js.prop message "text") = false).
Proof.
  intros Hr role. pose proof (readable_not_nullish _ Hr) as Hn.
  pose proof (textParts_pure _ Hr) as Hparts.
  assert (Hnone : forall items,
            Forall (fun p => textOf p = None) items ->
            keepStrings (map textOf items) = []).
  { induction 1 as [|p items Hp _ IH]; [reflexivity|].
    cbn [map keepStrings flat_map]. rewrite Hp. exact IH. }
  assert (Hfall : forall items t,
    Js.prop message "content" = JArr items ->
    Forall (fun p => textOf p = None) items ->
    Js.prop message "text" = JStr t ->
    extractText strip message
    = Ok (Some (if String.eqb role "assistant" then strip t else t))).
  { intros items t Hc Hp Ht. unfold extractText.
    rewrite !get_ok by assumption. cbn [rbind].
    rewrite Hparts. unfold contentParts.
    rewrite Hc, (Hnone _ Hp), Ht. reflexivity. }
  split; [exact Hfall|]. split.
  - intros items t Hc Hp Ht. apply (Hfall items t Hc); [|exact Ht].
    eapply Forall_impl; [|exact Hp].
    intros p Hty. unfold textTyped, textOf in *.
    destruct (Js.prop p "type"); try reflexivity.
    rewrite Hty. now destruct (Js.prop p "text").
  - unfold extractText. rewrite !get_ok by assumption.
    cbn [rbind]. rewrite Hparts. unfold contentParts.
    destruct (Js.prop message "content") as [| |b|n|n|c|items|fields];
      cbn [Js.isString map keepStrings flat_map rbind];
      try destruct (keepStrings (map textOf items)) as [|x xs];
      try destruct (Js.prop message "text");
      cbn [Js.isString];
      (split;
       [ intros H; try discriminate H; repeat split; reflexivity
       | intros [H1 [H2 H3]];
         try discriminate H1; try discriminate H2; try discriminate H3;
         reflexivity ]).
Qed.

End Text.

(** ** Messages that cannot be serialized *)

Section Serialization.

Variable strip : string -> string.
Variable parse : string -> Res JsValue.

(** C4 at the message [{ role: "user", payload: 1n }], which has no text,
    no identifier and no tool card, and on which [JSON.stringify] throws.
    [safeJson] swallows the failure and the key is made of the hash of
    the index; [renderMessage] serializes the message outside of any
    [try] and throws. *)
Theorem unserializable_message :
  Json.stringify Sample.unserializable = Throw
  /\ safeJson Sample.unserializable = None
  /\ messageKey strip Sample.unserializable 7
     = Ok ("msg:user:" ++ fnv1a (JsString.ofNumber 7))
  /\ extractToolCards strip parse Sample.unserializable = Ok []
  /\ renderMessageDisplay strip parse Sample.unserializable false = Throw.
Proof.
  repeat split; reflexivity.
Qed.

(** The other exception of the extractors: the [TypeError] of a property
    read on a [null] content part, which [extractToolCards] filters out
    and [extractText] does not. *)
Lemma null_part_throws :
  extractText strip (JObj [("role", JStr "user"); ("content", JArr [JNull])])
  = Throw.
Proof.
  reflexivity.
Qed.

End Serialization.

(** ** The claims that fail as they are worded *)

(** C1 as stated fails: two successive builds of the same inputs, a live
    text "hello" without start time, return stream items with different
    [startedAt], the second build starting from the clock the first one
    left. *)
Lemma successive_builds_differ :
  exists clock1,
    buildChatItems stripLegacyThinking Sample.streaming Sample.clock
    = Ok ([Item (StreamItem "stream:main:live" "hello" 1700000000000)],
          clock1)
    /\ value (buildChatItems stripLegacyThinking Sample.streaming clock1)
       = Ok [Item (StreamItem "stream:main:live" "hello" 1700000000001)].
Proof.
  eexists. split; reflexivity.
Qed.


(** C3 as stated fails: a message with [tool_call_id] and no [toolCallId]
    is keyed by its fingerprint, where the stated precedence gives
    ["tool:" + tool_call_id]. *)
Lemma tool_call_id_is_not_a_key :
  statedKey stripLegacyThinking Sample.toolReply 0 = "tool:call_1"
  /\ messageKey stripLegacyThinking Sample.toolReply 0
     = Ok ("msg:tool:" ++ fnv1a "done").
Proof.
  split; reflexivity.
Qed.

(** C9 as stated fails: the message has a structured reasoning part, a
    blank one, and [extractThinking] all the same returns what the scan of
    the raw text for legacy tags finds. *)
Lemma blank_thinking_part_scans :
  structuredThinking Sample.blankThinking = ["  "]
  /\ extractRawText Sample.blankThinking = Ok (Some "<think>Y</think>")
  /\ extractThinking Sample.blankThinking
     = Ok (legacyThinking (Some "<think>Y</think>"))
  /\ extractThinking Sample.blankThinking = Ok (Some "Y").
Proof.
  repeat split; reflexivity.
Qed.

(** C10 as stated fails: [extractText] returns null for a message that has
    a content part of type "text", that part carrying no text. *)
Lemma text_part_without_string :
  existsb textTyped (contentParts Sample.textless) = true
  /\ extractText stripLegacyThinking Sample.textless = Ok None.
Proof.
  split; reflexivity.
Qed.

(** ** The properties at sample inputs *)

(** Readability of a list of messages, by evaluation. *)
Lemma readable_all (msgs : list JsValue) :
  forallb readable msgs = true -> Forall (fun m => readable m = true) msgs.
Proof.
  intros H. apply Forall_forall. now apply forallb_forall.
Defined.

(** C3 at a message with an identifier of its own. *)
Lemma messageKey_precedence_witness :
  readable (Sample.withId "m-1" "user" "question") = true
  /\ messageKey stripLegacyThinking (Sample.withId "m-1" "user" "question") 3
     = Ok "msg:m-1".
Proof.
  split; [reflexivity|].
  exact (messageKey_precedence stripLegacyThinking
           (Sample.withId "m-1" "user" "question") 3 eq_refl).
Defined.

(** C6 at four messages of roles user, assistant, assistant, user. *)
Lemma groupMessages_maximal_runs_witness :
  Forall (fun m => readable m = true) (itemMessages Sample.fourItems)
  /\ exists out clock',
       groupMessages Sample.fourItems Sample.clock = Ok (out, clock')
       /\ flatten out = Sample.fourItems
       /\ map entryRole out = [Some "user"; Some "assistant"; Some "user"].
Proof.
  assert (H : Forall (fun m => readable m = true)
                     (itemMessages Sample.fourItems)).
  { apply readable_all. reflexivity. }
  split; [exact H|].
  destruct (@groupMessages_maximal_runs Sample.fourItems Sample.clock H)
    as [out [clock' [Hrun [Hflat [_ [_ [Hfour _]]]]]]].
  exists out, clock'. split; [exact Hrun|]. split; [exact Hflat|].
  apply (Hfour _ _ _ _ _ _ _ _ eq_refl); reflexivity.
Defined.

(** C5 at a history of 250 messages. *)
Lemma history_window_witness :
  Forall (fun m => readable m = true) (Props.messages Sample.longHistory)
  /\ Forall (fun m => readable m = true)
            (Props.toolMessages Sample.longHistory)
  /\ exists out clock' (rest : list ChatItem),
       buildChatItems stripLegacyThinking Sample.longHistory Sample.clock
       = Ok (out, clock')
       /\ List.length (flatten out) = (201 + List.length rest)%nat.
Proof.
  assert (Hh : Forall (fun m => readable m = true)
                      (Props.messages Sample.longHistory)).
  { apply readable_all. vm_compute. reflexivity. }
  assert (Ht : Forall (fun m => readable m = true)
                      (Props.toolMessages Sample.longHistory)).
  { constructor. }
  split; [exact Hh|]. split; [exact Ht|].
  destruct (history_window stripLegacyThinking Sample.longHistory
                           Sample.clock Hh Ht)
    as [out [clock' [shown [rest [Hrun [_ [_ [_ [_ [Hlong _]]]]]]]]]].
  exists out, clock', rest. split; [exact Hrun|].
  destruct Hlong as [now [_ [_ [_ H250]]]].
  - vm_compute. reflexivity.
  - apply H250. vm_compute. reflexivity.
Defined.

(** C7 at a blank live text with a start time, under the grouping
    layout. *)
Lemma live_item_witness :
  Forall (fun m => readable m = true) (Props.messages Sample.identified)
  /\ Forall (fun m => readable m = true)
            (Props.toolMessages Sample.identified)
  /\ exists before clock',
       buildChatItems stripLegacyThinking Sample.identified Sample.clock
       = Ok ((before
                ++ [Item (ReadingIndicator "stream:main:1700000000500")])%list,
             clock').
Proof.
  assert (Hh : Forall (fun m => readable m = true)
                      (Props.messages Sample.identified)).
  { apply readable_all. reflexivity. }
  assert (Ht : Forall (fun m => readable m = true)
                      (Props.toolMessages Sample.identified)).
  { apply readable_all. reflexivity. }
  split; [exact Hh|]. split; [exact Ht|].
  destruct (live_item stripLegacyThinking Sample.identified Sample.clock
                      Hh Ht) as [out [clock' [Hrun Hlive]]].
  cbn [Props.stream Sample.identified] in Hlive.
  destruct Hlive as [before [live [Hout [_ [_ [Hblank _]]]]]].
  exists before, clock'. rewrite Hrun, Hout.
  rewrite (Hblank eq_refl). reflexivity.
Defined.

(** C1 at a build that reads no clock. *)
Lemma build_repeatable_witness :
  clockFree Sample.twins = true
  /\ value (buildChatItems stripLegacyThinking Sample.twins Sample.clock)
     = value (buildChatItems stripLegacyThinking Sample.twins (fun _ => 0)).
Proof.
  split; [reflexivity|].
  apply (proj2 (proj2 (build_repeatable stripLegacyThinking Sample.twins
                                        Sample.clock (fun _ => 0)))).
  reflexivity.
Defined.



(** C9 at a structured reasoning part next to legacy tags. *)
Lemma thinking_precedence_witness :
  readable Sample.bothThinking = true
  /\ extractThinking Sample.bothThinking = Ok (Some "X").
Proof.
  split; [reflexivity|].
  apply (proj2 (proj2 (thinking_precedence stripLegacyThinking
                                           Sample.bothThinking eq_refl))).
  reflexivity.
Defined.

(** C10 at an empty content array with a top-level text. *)
Lemma text_fallback_witness :
  readable Sample.emptyContent = true
  /\ extractText stripLegacyThinking Sample.emptyContent
     = Ok (Some (stripLegacyThinking "fallback")).
Proof.
  split; [reflexivity|].
  apply (proj1 (text_fallback stripLegacyThinking Sample.emptyContent
                              eq_refl) [] "fallback");
    [reflexivity|constructor|reflexivity].
Defined.

(* ================================================================== *)
(** * Further properties *)

(** ** message-normalizer.ts *)

(** X1.  Normalizing a role for grouping a second time changes nothing,
    and the result is "assistant" or the role as given: [renderAvatar] and
    [renderMessageGroup], which normalize the role of a group again, see
    the role the group was built under. *)
Theorem normalizeRoleForGrouping_idempotent (role : string) :
  normalizeRoleForGrouping (normalizeRoleForGrouping role)
  = normalizeRoleForGrouping role
  /\ (normalizeRoleForGrouping role = "assistant"
      \/ normalizeRoleForGrouping role = role).
Proof.
  assert (Hcases : normalizeRoleForGrouping role = "assistant"
                   \/ normalizeRoleForGrouping role = role).
  { unfold normalizeRoleForGrouping. cbv zeta.
    destruct (String.eqb (JsString.toLowerCase role) "toolresult"
              || String.eqb (JsString.toLowerCase role) "tool_result"
              || String.eqb (JsString.toLowerCase role) "tool"
              || String.eqb (JsString.toLowerCase role) "function"); auto. }
  split; [|exact Hcases].
  destruct Hcases as [H|H]; rewrite H; [reflexivity|exact H].
Qed.

Lemma normalizeMessage_unfold (m : JsValue) (clock : Clock) :
  normalizeMessage m clock
  = if Js.nullish m then Throw else
    match normalizedContent m (Js.prop m "content") with
    | Throw => Throw
    | Ok content =>
        Ok (Normalized.make
              (normalizedRole (Js.prop m "role") (Js.prop m "toolCallId")
                              (Js.prop m "tool_call_id"))
              content
              match Js.prop m "timestamp" with
              | JNum t => t
              | _ => clock 0%nat
              end
              (Js.asString (Js.prop m "id")),
            match Js.prop m "timestamp" with
            | JNum _ => clock
            | _ => fun n => clock (S n)
            end)
    end.
Proof.
  destruct (Js.nullish m) eqn:Hn.
  - unfold normalizeMessage, bind, Js.get. now rewrite Hn.
  - unfold normalizeMessage, bind. rewrite !get_ok by assumption.
    cbn [liftR].
    destruct (normalizedContent m (Js.prop m "content")) as [content|];
      [|reflexivity].
    destruct (Js.prop m "timestamp"); reflexivity.
Qed.

(** X2.  [normalizeMessage] throws exactly for the messages that cannot be
    read: [null], [undefined], and a message whose array content holds a
    [null] or [undefined] part. *)
Theorem normalizeMessage_throws_iff (message : JsValue) (clock : Clock) :
  normalizeMessage message clock = Throw <-> readable message = false.
Proof.
  rewrite normalizeMessage_unfold.
  destruct (Js.nullish message) eqn:Hn.
  - rewrite (unreadable_nullish _ Hn). tauto.
  - pose proof (normalizedContent_cases _ Hn) as Hc.
    destruct (normalizedContent message (Js.prop message "content"));
      rewrite Hc; split; congruence.
Qed.

Lemma normalizedContent_length (m : JsValue) (content : list ContentItem.t) :
  Js.nullish m = false ->
  normalizedContent m (Js.prop m "content") = Ok content ->
  List.length content
  = match Js.prop m "content" with
    | JStr _ => 1%nat
    | JArr items => List.length items
    | _ => if Js.isString (Js.prop m "text") then 1%nat else 0%nat
    end.
Proof.
  intros Hn. unfold normalizedContent. rewrite get_ok by assumption.
  cbn [rbind].
  assert (Hitems : forall items content',
            rmapM normalizeContentItem items = Ok content' ->
            List.length content' = List.length items).
  { induction items as [|p items IH]; intros content'; cbn [rmapM].
    - intros H. assert (content' = []) by congruence. now subst.
    - destruct (normalizeContentItem p) as [item|]; cbn [rbind];
        [|discriminate].
      destruct (rmapM normalizeContentItem items) as [rest|]; cbn [rbind];
        [|discriminate].
      intros H. assert (content' = item :: rest) by congruence. subst.
      cbn [List.length]. f_equal. now apply IH. }
  destruct (Js.prop m "content");
    try (destruct (Js.prop m "text"); cbn [Js.isString];
         intros H;
         match type of H with
         | Ok ?l = Ok _ => assert (content = l) by congruence
         end; now subst).
  apply Hitems.
Qed.

(** X3.  What [normalizeMessage] returns: the role is "toolResult" when
    [toolCallId] or [tool_call_id] is a string and the literal role, or
    "unknown", otherwise; the content has one item for a string content,
    one per part of an array content, and else one for a string [text]; a
    numeric time stamp is kept, zero included, and the clock is then not
    read, while any other time stamp is replaced by the next reading of
    the clock; [id] is kept when it is a string. *)
Theorem normalizeMessage_result (message : JsValue) (clock clock' : Clock)
        (normalized : Normalized.t) :
  normalizeMessage message clock = Ok (normalized, clock') ->
  Normalized.role normalized
  = (if Js.isString (Js.prop message "toolCallId")
        || Js.isString (Js.prop message "tool_call_id")
     then "toolResult"
     else Js.stringOr (Js.prop message "role") "unknown")
  /\ List.length (Normalized.content normalized)
     = match Js.prop message "content" with
       | JStr _ => 1%nat
       | JArr items => List.length items
       | _ => if Js.isString (Js.prop message "text") then 1%nat else 0%nat
       end
  /\ match Js.prop message "timestamp" with
     | JNum t => Normalized.timestamp normalized = t /\ clock' = clock
     | _ =>
         Normalized.timestamp normalized = clock 0%nat
         /\ clock' = fun n => clock (S n)
     end
  /\ Normalized.id normalized = Js.asString (Js.prop message "id").
Proof.
  rewrite normalizeMessage_unfold.
  destruct (Js.nullish message) eqn:Hn; [discriminate|].
  destruct (normalizedContent message (Js.prop message "content"))
    as [content|] eqn:Hc; [|discriminate].
  intros H. injection H as H1 H2. subst normalized clock'.
  cbn [Normalized.role Normalized.content Normalized.timestamp Normalized.id].
  split; [reflexivity|].
  split; [now apply normalizedContent_length|].
  split; [|reflexivity].
  destruct (Js.prop message "timestamp"); split; reflexivity.
Qed.

(** X4.  A message with a string [toolCallId] or [tool_call_id], and a
    message whose role is a tool result role, is grouped under
    "assistant", whatever else it holds: the role that [normalizeMessage]
    returns for it is one that [normalizeRoleForGrouping] maps to
    "assistant". *)
Theorem tool_messages_group_as_assistant (message : JsValue)
        (clock clock' : Clock) (normalized : Normalized.t) :
  normalizeMessage message clock = Ok (normalized, clock') ->
  Js.isString (Js.prop message "toolCallId") = true
  \/ Js.isString (Js.prop message "tool_call_id") = true
  \/ isToolResultMessage message = Ok true ->
  normalizeRoleForGrouping (Normalized.role normalized) = "assistant".
Proof.
  intros Hrun Hkind.
  assert (Hn : Js.nullish message = false).
  { rewrite normalizeMessage_unfold in Hrun.
    destruct (Js.nullish message); [discriminate|reflexivity]. }
  assert (Hrole : Normalized.role normalized
                  = normalizedRole (Js.prop message "role")
                                   (Js.prop message "toolCallId")
                                   (Js.prop message "tool_call_id")).
  { rewrite normalizeMessage_unfold, Hn in Hrun.
    destruct (normalizedContent message (Js.prop message "content"));
      [|discriminate].
    injection Hrun as Hnorm _. now subst normalized. }
  rewrite Hrole. unfold normalizedRole. clear Hrole Hrun.
  destruct (Js.isString (Js.prop message "toolCallId")) eqn:H1;
    [reflexivity|].
  destruct (Js.isString (Js.prop message "tool_call_id")) eqn:H2;
    [reflexivity|].
  destruct Hkind as [H|[H|H]]; try discriminate.
  cbn [orb]. unfold isToolResultMessage in H.
  rewrite get_ok in H by assumption. cbn [rbind] in H.
  injection H as H. unfold normalizeRoleForGrouping. cbv zeta.
  destruct (Js.prop message "role") as [| |b|n|n|r|items|fields];
    cbn [Js.stringOr] in *; try discriminate.
  apply orb_true_iff in H. destruct H as [H|H]; rewrite H;
    rewrite ?orb_true_r; reflexivity.
Qed.

(** ** views/chat.ts: grouping and building *)

(** X5.  [groupMessages] throws exactly when one of the messages it is
    given cannot be read; the items that are not messages never make it
    throw. *)
Theorem groupMessages_throws_iff (items : list ChatItem) (clock : Clock) :
  groupMessages items clock = Throw
  <-> exists message,
        In message (itemMessages items) /\ readable message = false.
Proof.
  pose proof (groupMessages_returns_iff items clock) as Hiff.
  split.
  - intros Hthrow.
    destruct (forallb readable (itemMessages items)) eqn:Hall.
    + rewrite forallb_forall in Hall.
      destruct (proj2 Hiff) as [out [clock' Hrun]];
        [now apply Forall_forall|congruence].
    + assert (Hex : existsb (fun m => negb (readable m)) (itemMessages items)
                    = true).
      { clear -Hall. induction (itemMessages items) as [|m msgs IH];
          [discriminate|].
        cbn [forallb existsb] in *. destruct (readable m); cbn [negb andb orb] in *;
          auto. }
      apply existsb_exists in Hex. destruct Hex as [m [Hin Hm]].
      exists m. split; [assumption|]. now apply negb_true_iff.
  - intros [m [Hin Hm]].
    destruct (groupMessages items clock) as [[out clock']|] eqn:Hrun;
      [|reflexivity].
    assert (Hall : Forall (fun m => readable m = true) (itemMessages items)).
    { apply Hiff. eauto. }
    rewrite Forall_forall in Hall. specialize (Hall m Hin). congruence.
Qed.

Lemma addMessage_stamps (result : list Entry) (cur : option Group.t)
      (key : string) (m : JsValue) (role : string) (clock : Clock) :
  Forall firstStampedEntry (pushGroup result cur) ->
  let next := addMessage result cur key m role (fst (stampOf m clock)) in
  Forall firstStampedEntry (pushGroup (fst next) (snd next)).
Proof.
  intros Hinv.
  assert (Hnew : firstStampedEntry
                   (Grouped (Group.make ("group:" ++ role ++ ":" ++ key) role
                                        [(m, key)] (fst (stampOf m clock))
                                        false))).
  { exists m, key, []. split; [reflexivity|].
    intros t Ht Hz. cbn [Group.timestamp]. unfold stampOf. rewrite Ht.
    now rewrite Hz. }
  unfold addMessage. destruct cur as [g|]; cbn [pushGroup] in *.
  - apply Forall_app in Hinv. destruct Hinv as [Hresult Hg].
    apply Forall_inv in Hg.
    destruct (String.eqb (Group.role g) role); cbn [fst snd pushGroup].
    + apply Forall_app. split; [assumption|].
      constructor; [|constructor].
      destruct Hg as [m0 [k0 [rest [Hm Ht]]]].
      exists m0, k0, (rest ++ [(m, key)])%list.
      cbn [Group.messages Group.timestamp]. rewrite Hm. split; [reflexivity|].
      exact Ht.
    + apply Forall_app. split.
      * apply Forall_app. split; [assumption|].
        constructor; [exact Hg|constructor].
      * constructor; [exact Hnew|constructor].
  - cbn [fst snd pushGroup]. apply Forall_app. split; [assumption|].
    constructor; [exact Hnew|constructor].
Qed.

Lemma groupLoop_stamps (items : list ChatItem) :
  forall result cur clock out clock',
    Forall firstStampedEntry (pushGroup result cur) ->
    groupLoop items result cur clock = Ok (out, clock') ->
    Forall firstStampedEntry out.
Proof.
  induction items as [|item items IH];
    intros result cur clock out clock' Hinv Hrun.
  - cbn [groupLoop] in Hrun. unfold ret in Hrun.
    injection Hrun as Hout _. now subst out.
  - assert (Hother :
      groupLoop items (pushGroup result cur ++ [Item item])%list None clock
      = Ok (out, clock') -> Forall firstStampedEntry out).
    { apply IH. cbn [pushGroup]. apply Forall_app. split; [assumption|].
      constructor; [exact I|constructor]. }
    destruct item as [key m|key text startedAt|key];
      [|exact (Hother Hrun)|exact (Hother Hrun)].
    rewrite groupLoop_message in Hrun.
    destruct (readable m); [|discriminate]. cbv zeta in Hrun.
    eapply IH; [|exact Hrun].
    now apply addMessage_stamps.
Qed.

(** X6.  Every group that [groupMessages] returns has a first message and
    carries the time stamp of that message whenever it is a truthy number,
    so a number that is neither zero nor [NaN]: the messages that join the
    group later leave its time stamp alone. *)
Theorem group_timestamp_of_first_message (items : list ChatItem)
        (clock clock' : Clock) (out : list Entry) :
  groupMessages items clock = Ok (out, clock') ->
  Forall firstStampedEntry out.
Proof.
  intros Hrun. eapply groupLoop_stamps; [|exact Hrun]. constructor.
Qed.

Lemma runs_length (out : list Entry) :
  Forall isRunEntry out -> (List.length out <= List.length (flatten out))%nat.
Proof.
  induction 1 as [|entry out Hentry _ IH]; [reflexivity|].
  cbn [flatten flat_map List.length]. rewrite length_app.
  fold (flatten out).
  assert ((1 <= List.length (entryItems entry))%nat); [|lia].
  destruct entry as [item|g]; [cbn; lia|].
  destruct Hentry as [[m [k [rest [Hm _]]]] _].
  cbn [entryItems]. rewrite length_map, Hm. cbn [List.length]. lia.
Qed.

(** X7.  Grouping never lengthens a sequence and never loses a message:
    the sequence that [groupMessages] returns has at most as many entries
    as it was given items, and its groups hold as many messages as the
    items given were messages. *)
Theorem grouping_never_lengthens (items : list ChatItem)
        (clock clock' : Clock) (out : list Entry) :
  groupMessages items clock = Ok (out, clock') ->
  (List.length out <= List.length items)%nat
  /\ itemMessages (flatten out) = itemMessages items.
Proof.
  intros Hrun.
  pose proof (groupLoop_returns _ _ _ _ Hrun) as Hread.
  destruct (@groupLoop_runs items [] None clock Hread)
    as [out2 [clock2 [Hrun2 [Hflat [Hruns _]]]]].
  { unfold loopInvariant. cbn [pushGroup]. repeat split; auto. }
  unfold groupMessages in Hrun. rewrite Hrun in Hrun2.
  injection Hrun2 as <- _. cbn [pushGroup flatten flat_map app] in Hflat.
  split; [|now rewrite Hflat].
  rewrite <- Hflat. now apply runs_length.
Qed.

Lemma normalizeMessage_returns (m : JsValue) (clock : Clock) :
  readable m = true ->
  exists normalized clock', normalizeMessage m clock = Ok (normalized, clock').
Proof.
  intros Hread. rewrite normalizeMessage_unfold.
  pose proof (readable_not_nullish _ Hread) as Hn. rewrite Hn.
  pose proof (normalizedContent_cases _ Hn) as Hc.
  destruct (normalizedContent m (Js.prop m "content")); [eauto|congruence].
Qed.

(** X3 at a message with a tool call identifier and no time stamp. *)
Lemma normalizeMessage_result_witness :
  exists normalized clock',
    normalizeMessage Cases.userWithCallId Sample.clock
    = Ok (normalized, clock')
    /\ Normalized.role normalized = "toolResult"
    /\ List.length (Normalized.content normalized) = 1%nat
    /\ Normalized.timestamp normalized = 1700000000000.
Proof.
  destruct (@normalizeMessage_returns Cases.userWithCallId Sample.clock
              eq_refl) as [normalized [clock' Hrun]].
  exists normalized, clock'. split; [exact Hrun|].
  destruct (@normalizeMessage_result Cases.userWithCallId Sample.clock
              clock' normalized Hrun) as [Hrole [Hlen [Hstamp _]]].
  split; [exact Hrole|]. split; [exact Hlen|].
  destruct Hstamp as [Hstamp _]. exact Hstamp.
Defined.

(** X4 at a message with a tool call identifier and the role "user". *)
Lemma tool_messages_group_as_assistant_witness :
  exists normalized clock',
    normalizeMessage Cases.userWithCallId Sample.clock
    = Ok (normalized, clock')
    /\ normalizeRoleForGrouping (Normalized.role normalized) = "assistant".
Proof.
  destruct (@normalizeMessage_returns Cases.userWithCallId Sample.clock
              eq_refl) as [normalized [clock' Hrun]].
  exists normalized, clock'. split; [exact Hrun|].
  apply (@tool_messages_group_as_assistant Cases.userWithCallId Sample.clock
           clock' normalized Hrun).
  left. reflexivity.
Defined.

(** X6 at four messages of roles user, assistant, assistant, user. *)
Lemma group_timestamp_of_first_message_witness :
  exists out clock',
    groupMessages Sample.fourItems Sample.clock = Ok (out, clock')
    /\ Forall firstStampedEntry out.
Proof.
  destruct (proj2 (groupMessages_returns_iff Sample.fourItems Sample.clock)
                  (@readable_all (itemMessages Sample.fourItems) eq_refl))
    as [out [clock' Hrun]].
  exists out, clock'. split; [exact Hrun|].
  apply (@group_timestamp_of_first_message Sample.fourItems Sample.clock
           clock' out Hrun).
Defined.

(** X7 at four messages of roles user, assistant, assistant, user. *)
Lemma grouping_never_lengthens_witness :
  exists out clock',
    groupMessages Sample.fourItems Sample.clock = Ok (out, clock')
    /\ (List.length out <= 4)%nat.
Proof.
  destruct (proj2 (groupMessages_returns_iff Sample.fourItems Sample.clock)
                  (@readable_all (itemMessages Sample.fourItems) eq_refl))
    as [out [clock' Hrun]].
  exists out, clock'. split; [exact Hrun|].
  apply (@grouping_never_lengthens Sample.fourItems Sample.clock
           clock' out Hrun).
Defined.

Lemma groupLoop_prefix (items : list ChatItem) :
  forall result cur clock out clock',
    groupLoop items result cur clock = Ok (out, clock') ->
    exists rest, out = (result ++ rest)%list.
Proof.
  induction items as [|item items IH];
    intros result cur clock out clock' Hrun.
  - cbn [groupLoop] in Hrun. unfold ret in Hrun.
    injection Hrun as Hout _. subst out.
    destruct cur; cbn [pushGroup]; eauto.
    exists []. now rewrite app_nil_r.
  - assert (Hother :
      groupLoop items (pushGroup result cur ++ [Item item])%list None clock
      = Ok (out, clock') -> exists rest, out = (result ++ rest)%list).
    { intros H. apply IH in H. destruct H as [rest ->].
      destruct cur; cbn [pushGroup]; rewrite <- ?app_assoc; eauto. }
    destruct item as [key m|key text startedAt|key];
      [|exact (Hother Hrun)|exact (Hother Hrun)].
    rewrite groupLoop_message in Hrun.
    destruct (readable m); [|discriminate]. cbv zeta in Hrun.
    apply IH in Hrun. destruct Hrun as [rest ->].
    unfold addMessage.
    destruct cur as [g|];
      [destruct (String.eqb (Group.role g) (groupingRole m))|];
      cbn [fst]; rewrite <- ?app_assoc; eauto.
Qed.

Lemma groupLoop_open (items : list ChatItem) :
  forall g clock out clock',
    groupLoop items [] (Some g) clock = Ok (out, clock') ->
    exists g' rest more,
      out = Grouped g' :: rest
      /\ Group.key g' = Group.key g
      /\ Group.role g' = Group.role g
      /\ Group.timestamp g' = Group.timestamp g
      /\ Group.messages g' = (Group.messages g ++ more)%list.
Proof.
  induction items as [|item items IH]; intros g clock out clock' Hrun.
  - cbn [groupLoop pushGroup app] in Hrun. unfold ret in Hrun.
    injection Hrun as Hout _. subst out.
    exists g, [], []. rewrite app_nil_r. repeat split; reflexivity.
  - assert (Hclosed : forall result' cur' clock0,
      groupLoop items (Grouped g :: result') cur' clock0 = Ok (out, clock') ->
      exists g' rest more,
        out = Grouped g' :: rest
        /\ Group.key g' = Group.key g
        /\ Group.role g' = Group.role g
        /\ Group.timestamp g' = Group.timestamp g
        /\ Group.messages g' = (Group.messages g ++ more)%list).
    { intros result' cur' clock0 H. apply groupLoop_prefix in H.
      destruct H as [rest ->].
      exists g, (result' ++ rest)%list, []. rewrite app_nil_r.
      repeat split; reflexivity. }
    destruct item as [key m|key text startedAt|key];
      [|exact (Hclosed _ _ _ Hrun)|exact (Hclosed _ _ _ Hrun)].
    rewrite groupLoop_message in Hrun.
    destruct (readable m); [|discriminate]. cbv zeta in Hrun.
    unfold addMessage in Hrun.
    destruct (String.eqb (Group.role g) (groupingRole m));
      cbn [fst snd app] in Hrun; [|exact (Hclosed _ _ _ Hrun)].
    apply IH in Hrun.
    destruct Hrun as [g' [rest [more [Hout [Hkey [Hrole [Ht Hm]]]]]]].
    cbn [Group.key Group.role Group.timestamp Group.messages] in *.
    exists g', rest, ((m, key) :: more).
    rewrite Hm, <- app_assoc. repeat split; assumption.
Qed.

Section Notice.

Variable strip : string -> string.

(** X8.  In the grouping layout a truncated history opens with a group of
    role "system" that is keyed "group:system:chat:history:notice" and
    starts with the notice; the first message shown joins that group
    exactly when it is grouped under "system" itself, so that a system
    message is then displayed inside the group of the notice. *)
Theorem notice_heads_system_group (props : Props.t) (clock clock' : Clock)
        (out : list Entry) :
  let history := Props.messages props in
  let hidden := hiddenCount history in
  Props.useNewChatLayout props = true ->
  0 < hidden ->
  buildChatItems strip props clock = Ok (out, clock') ->
  exists group rest first key more,
    nth_error history (Z.to_nat hidden) = Some first
    /\ out = Grouped group :: rest
    /\ Group.key group = "group:system:chat:history:notice"
    /\ Group.role group = "system"
    /\ (clock 0%nat <> 0 -> Group.timestamp group = clock 0%nat)
    /\ Group.messages group
       = (noticeMessage hidden (clock 0%nat), "chat:history:notice")
           :: (if String.eqb (groupingRole first) "system"
               then (first, key) :: more else []).
Proof.
  intros history hidden Hlayout Hhidden Hrun.
  unfold buildChatItems, bind in Hrun.
  destruct (chatItems_cases strip props clock) as [clock1 Hitems].
  cbv zeta in Hitems. fold history in Hitems. fold hidden in Hitems.
  rewrite Hitems in Hrun. clear Hitems.
  destruct (messageItems strip (skipn (Z.to_nat hidden) history) hidden)
    as [shown|] eqn:Hshown; cbn [rbind] in Hrun; [|discriminate].
  destruct (messageItems strip (Props.toolMessages props)
                         (Z.of_nat (List.length history)))
    as [tools|]; cbn [rbind] in Hrun; [|discriminate].
  rewrite Hlayout in Hrun. unfold noticeItems in Hrun.
  assert (Hpos : (0 <? hidden) = true) by now apply Z.ltb_lt.
  rewrite Hpos in Hrun. cbn [app] in Hrun.
  assert (Hfirst : exists first tail,
            skipn (Z.to_nat hidden) history = first :: tail
            /\ nth_error history (Z.to_nat hidden) = Some first).
  { assert (Hlen : (Z.to_nat hidden < List.length history)%nat).
    { unfold hidden, hiddenCount, CHAT_HISTORY_RENDER_LIMIT in *. lia. }
    clear -Hlen. revert Hlen. generalize (Z.to_nat hidden) as n.
    induction history as [|m msgs IH]; intros n Hlen;
      [cbn in Hlen; lia|].
    destruct n as [|n]; [exists m, msgs; split; reflexivity|].
    cbn [skipn nth_error]. apply IH. cbn in Hlen. lia. }
  destruct Hfirst as [first [tail [Hskip Hnth]]].
  rewrite Hskip in Hshown. cbn [messageItems] in Hshown.
  destruct (messageKey strip first hidden) as [key|]; cbn [rbind] in Hshown;
    [|discriminate].
  destruct (messageItems strip tail (hidden + 1)) as [shown'|];
    cbn [rbind] in Hshown; [|discriminate].
  assert (shown = MessageItem key first :: shown') by congruence.
  subst shown. cbn [app] in Hrun.
  unfold groupMessages in Hrun. rewrite groupLoop_message in Hrun.
  rewrite noticeMessage_readable in Hrun. cbv zeta in Hrun.
  assert (Hrole : groupingRole (noticeMessage hidden (clock 0%nat))
                  = "system") by reflexivity.
  rewrite Hrole in Hrun. cbn [addMessage fst snd] in Hrun.
  rewrite groupLoop_message in Hrun.
  destruct (readable first); [|discriminate]. cbv zeta in Hrun.
  assert (Hstamp : clock 0%nat <> 0 ->
            fst (stampOf (noticeMessage hidden (clock 0%nat)) clock1)
            = clock 0%nat).
  { intros Hz. unfold stampOf, noticeMessage. cbn.
    apply Z.eqb_neq in Hz. now rewrite Hz. }
  unfold addMessage in Hrun. cbn [Group.role Group.key Group.messages
                                  Group.timestamp Group.isStreaming] in Hrun.
  rewrite String.eqb_sym in Hrun.
  destruct (String.eqb (groupingRole first) "system") eqn:Hsystem;
    cbn [fst snd app] in Hrun.
  - apply groupLoop_open in Hrun.
    destruct Hrun as [g' [rest [more [Hout [Hkey [Hgrole [Ht Hm]]]]]]].
    cbn [Group.key Group.role Group.timestamp Group.messages app] in *.
    exists g', rest, first, key, more. rewrite ?Hsystem.
    repeat split; try assumption.
    intros Hz. rewrite Ht. now apply Hstamp.
  - apply groupLoop_prefix in Hrun. destruct Hrun as [rest ->].
    cbn [app]. eexists. exists rest, first, key, []. rewrite ?Hsystem.
    repeat split; try assumption; try reflexivity.
Qed.

End Notice.

(** X8 at a history of 201 system messages. *)
Lemma notice_heads_system_group_witness :
  exists out clock' group rest,
    buildChatItems stripLegacyThinking Cases.systemFirst Sample.clock
    = Ok (out, clock')
    /\ out = Grouped group :: rest
    /\ Group.key group = "group:system:chat:history:notice"
    /\ (2 <= List.length (Group.messages group))%nat.
Proof.
  assert (Hh : Forall (fun m => readable m = true)
                      (Props.messages Cases.systemFirst)).
  { apply readable_all. vm_compute. reflexivity. }
  destruct (@build_readable stripLegacyThinking Cases.systemFirst
              Sample.clock Hh (Forall_nil _))
    as [out [clock' [now [started [Hrun _]]]]].
  destruct (@notice_heads_system_group stripLegacyThinking Cases.systemFirst
              Sample.clock clock' out eq_refl eq_refl Hrun)
    as [group [rest [first [key [more [Hnth [Hout [Hkey [_ [_ Hm]]]]]]]]]].
  exists out, clock', group, rest. split; [exact Hrun|].
  split; [exact Hout|]. split; [exact Hkey|].
  rewrite Hm. vm_compute in Hnth. injection Hnth as Hfirst. subst first.
  cbn. lia.
Defined.

(** ** views/chat.ts: text and reasoning *)

Lemma trimEnd_head (c : ascii) (r : string) :
  JsString.isWhiteSpace c = false ->
  exists t, JsString.trimEnd (String c r) = String c t.
Proof.
  intros H. cbn [JsString.trimEnd].
  destruct (JsString.trimEnd r); [rewrite H|]; eauto.
Qed.

(** A trimmed string is empty, or starts with a character that is not
    white space. *)
Lemma trim_cases (s : string) :
  (JsString.trim s = "" /\ hasInk s = false)
  \/ exists c t,
       JsString.trim s = String c t
       /\ JsString.isWhiteSpace c = false /\ hasInk s = true.
Proof.
  unfold JsString.trim. induction s as [|c r IH].
  - left. split; reflexivity.
  - cbn [JsString.trimStart hasInk].
    destruct (JsString.isWhiteSpace c) eqn:Hc; cbn [negb orb].
    + exact IH.
    + right. destruct (@trimEnd_head c r Hc) as [t Ht]. exists c, t. auto.
Qed.

Lemma trim_empty_iff (s : string) :
  JsString.isEmpty (JsString.trim s) = negb (hasInk s).
Proof.
  destruct (trim_cases s) as [[-> ->]|[c [t [-> [_ ->]]]]]; reflexivity.
Qed.

Lemma hasInk_trim (s : string) : hasInk (JsString.trim s) = hasInk s.
Proof.
  destruct (trim_cases s) as [[-> ->]|[c [t [-> [Hc ->]]]]]; [reflexivity|].
  cbn [hasInk]. now rewrite Hc.
Qed.

Lemma hasInk_app (a b : string) : hasInk (a ++ b) = hasInk a || hasInk b.
Proof.
  induction a as [|c a IH]; [reflexivity|].
  cbn [String.append hasInk]. now rewrite IH, orb_assoc.
Qed.

Lemma hasInk_join (sep p : string) (ps : list string) :
  hasInk p = true -> hasInk (JsString.join sep (p :: ps)) = true.
Proof.
  intros H. destruct ps; cbn [JsString.join]; [assumption|].
  now rewrite hasInk_app, H.
Qed.

Lemma trimmed_ink (xs : list string) :
  Forall (fun s => hasInk s = true)
         (filter (fun s => negb (JsString.isEmpty s))
                 (map JsString.trim xs)).
Proof.
  induction xs as [|x xs IH]; [constructor|].
  cbn [map filter]. rewrite trim_empty_iff, negb_involutive.
  destruct (hasInk x) eqn:Hx; [|exact IH].
  constructor; [now rewrite hasInk_trim|exact IH].
Qed.

Lemma thinkingOfPart_ink (p : JsValue) (t : string) :
  thinkingOfPart p = Ok (Some t) -> hasInk t = true.
Proof.
  unfold thinkingOfPart, Js.get.
  destruct (Js.nullish p); [discriminate|]. cbn [rbind].
  destruct (Js.prop p "type") as [| | | | |ty| |]; try discriminate.
  destruct (Js.prop p "thinking") as [| | | | |s| |]; try discriminate.
  destruct (String.eqb ty "thinking"); [|discriminate]. cbv zeta.
  rewrite trim_empty_iff.
  destruct (hasInk s) eqn:Hs; cbn [negb]; [|discriminate].
  intros H. assert (t = JsString.trim s) by congruence. subst t.
  now rewrite hasInk_trim.
Qed.

Lemma thinkingParts_ink (content : JsValue) (parts : list string) :
  thinkingParts content = Ok parts ->
  Forall (fun s => hasInk s = true) parts.
Proof.
  assert (Hnone : Ok (@nil string) = Ok parts ->
                  Forall (fun s => hasInk s = true) parts).
  { intros H. assert (parts = []) by congruence. subst. constructor. }
  destruct content as [| | | | | |items|]; cbn [thinkingParts];
    try exact Hnone.
  clear Hnone. unfold rmap. revert parts.
  induction items as [|p items IH]; intros parts; cbn [rmapM rbind].
  - intros H. assert (parts = keepStrings []) by congruence. subst.
    constructor.
  - destruct (thinkingOfPart p) as [o|] eqn:Hp; cbn [rbind]; [|discriminate].
    destruct (rmapM thinkingOfPart items) as [os|]; cbn [rbind] in *;
      [|discriminate].
    intros H.
    assert (Hparts : parts = keepStrings (o :: os)) by congruence.
    subst parts. unfold keepStrings. cbn [flat_map]. apply Forall_app.
    split; [|now apply IH].
    destruct o as [t|]; constructor; [|constructor].
    eapply thinkingOfPart_ink. exact Hp.
Qed.

Lemma legacyThinking_ink (raw : option string) (t : string) :
  legacyThinking raw = Some t -> hasInk t = true.
Proof.
  unfold legacyThinking. destruct raw as [raw|]; [|discriminate].
  destruct (JsString.isEmpty raw); [discriminate|]. cbv zeta.
  pose proof (trimmed_ink (ThinkingTag.matchAll raw)) as Hink.
  destruct (filter (fun s => negb (JsString.isEmpty s))
                   (map JsString.trim (ThinkingTag.matchAll raw)))
    as [|x xs]; [discriminate|].
  intros H. assert (t = JsString.join JsString.nl (x :: xs)) by congruence.
  subst t. apply hasInk_join. now apply Forall_inv in Hink.
Qed.

Lemma extractThinking_ink (m : JsValue) (t : string) :
  extractThinking m = Ok (Some t) -> hasInk t = true.
Proof.
  unfold extractThinking, Js.get.
  destruct (Js.nullish m); [discriminate|]. cbn [rbind].
  destruct (thinkingParts (Js.prop m "content")) as [parts|] eqn:Hparts;
    cbn [rbind]; [|discriminate].
  apply thinkingParts_ink in Hparts.
  destruct parts as [|p ps].
  - destruct (extractRawText m) as [raw|]; cbn [rbind]; [|discriminate].
    intros H. apply (@legacyThinking_ink raw). congruence.
  - intros H. assert (t = JsString.join JsString.nl (p :: ps)) by congruence.
    subst t. apply hasInk_join. now apply Forall_inv in Hparts.
Qed.

Lemma ink_not_line_end (c : ascii) :
  JsString.isWhiteSpace c = false ->
  (JsString.charCode c =? 10) = false /\ (JsString.charCode c =? 13) = false.
Proof.
  unfold JsString.isWhiteSpace. cbv zeta. intros H.
  apply orb_false_iff in H. destruct H as [H _].
  apply orb_false_iff in H. destruct H as [H _].
  split; apply Z.eqb_neq; intros Heq; rewrite Heq in H; discriminate H.
Qed.

Lemma splitLines_head (c : ascii) (t : string) :
  JsString.isWhiteSpace c = false ->
  exists line lines, splitLines (String c t) = String c line :: lines.
Proof.
  intros Hc. destruct (@ink_not_line_end c Hc) as [H10 H13].
  cbn [splitLines]. rewrite H10, H13. cbn [andb].
  destruct (splitLines t); eauto.
Qed.

Lemma formatReasoningMarkdown_ink (text : string) :
  hasInk text = true ->
  exists rest, formatReasoningMarkdown text = reasoningHeader ++ rest.
Proof.
  intros Hink. unfold formatReasoningMarkdown. cbv zeta.
  destruct (trim_cases text) as [[_ Hno]|[c [t [Htrim [Hc _]]]]];
    [congruence|].
  rewrite Htrim. cbn [JsString.isEmpty].
  destruct (@splitLines_head c t Hc) as [line [lines Hsplit]].
  destruct (@trimEnd_head c line Hc) as [line' Hline].
  assert (Hlines : exists xs,
            filter (fun l => negb (JsString.isEmpty l))
                   (map JsString.trim (splitLines (String c t)))
            = String c line' :: xs).
  { rewrite Hsplit. cbn [map filter].
    assert (Ht : JsString.trim (String c line) = String c line').
    { unfold JsString.trim. cbn [JsString.trimStart]. now rewrite Hc. }
    rewrite Ht. cbn [JsString.isEmpty negb]. eauto. }
  destruct Hlines as [xs ->]. cbn [map].
  destruct (map (fun l => "_" ++ l ++ "_") xs) as [|l ls];
    cbn [JsString.join].
  - exists (String c line' ++ "_"). reflexivity.
  - exists ((String c line' ++ "_") ++ JsString.nl
              ++ JsString.join JsString.nl (l :: ls)).
    reflexivity.
Qed.

Lemma formatReasoningMarkdown_blank (text : string) :
  hasInk text = false -> formatReasoningMarkdown text = "".
Proof.
  intros Hink. unfold formatReasoningMarkdown. cbv zeta.
  now rewrite trim_empty_iff, Hink.
Qed.

Lemma startsWith_append (p rest : string) :
  JsString.startsWith (p ++ rest) p = true.
Proof.
  unfold JsString.startsWith. induction p as [|c p IH].
  - now destruct rest.
  - cbn [String.append String.prefix].
    destruct (ascii_dec c c); [exact IH|contradiction].
Qed.

Lemma trimEnd_idempotent (s : string) :
  JsString.trimEnd (JsString.trimEnd s) = JsString.trimEnd s.
Proof.
  induction s as [|c r IH]; [reflexivity|].
  cbn [JsString.trimEnd].
  destruct (JsString.trimEnd r) as [|d t] eqn:Hr.
  - destruct (JsString.isWhiteSpace c) eqn:Hc; [reflexivity|].
    cbn [JsString.trimEnd]. now rewrite Hc.
  - change (JsString.trimEnd (String c (String d t)))
      with (match JsString.trimEnd (String d t) with
            | EmptyString =>
                if JsString.isWhiteSpace c then EmptyString
                else String c EmptyString
            | u => String c u
            end).
    now rewrite IH.
Qed.

Lemma trim_idempotent (s : string) :
  JsString.trim (JsString.trim s) = JsString.trim s.
Proof.
  destruct (trim_cases s) as [[Hs _]|[c [t [Hs [Hc _]]]]].
  - now rewrite Hs.
  - rewrite Hs. unfold JsString.trim at 1. cbn [JsString.trimStart].
    rewrite Hc, <- Hs. unfold JsString.trim. apply trimEnd_idempotent.
Qed.

Lemma trimmed_lines (xs : list string) :
  Forall (fun line => hasInk line = true /\ JsString.trim line = line)
         (filter (fun s => negb (JsString.isEmpty s))
                 (map JsString.trim xs)).
Proof.
  induction xs as [|x xs IH]; [constructor|].
  cbn [map filter]. rewrite trim_empty_iff, negb_involutive.
  destruct (hasInk x) eqn:Hx; [|exact IH].
  constructor; [|exact IH].
  split; [now rewrite hasInk_trim|apply trim_idempotent].
Qed.

Lemma reasoningLines_head (text : string) :
  hasInk text = true ->
  exists line lines, reasoningLines text = line :: lines.
Proof.
  intros Hink. unfold reasoningLines.
  destruct (trim_cases text) as [[_ Hno]|[c [t [Htrim [Hc _]]]]];
    [congruence|].
  rewrite Htrim.
  destruct (@splitLines_head c t Hc) as [line [lines Hsplit]].
  destruct (@trimEnd_head c line Hc) as [line' Hline].
  rewrite Hsplit. cbn [map filter].
  assert (Ht : JsString.trim (String c line) = String c line').
  { unfold JsString.trim. cbn [JsString.trimStart]. now rewrite Hc. }
  rewrite Ht. cbn [JsString.isEmpty negb]. eauto.
Qed.

Lemma formatReasoningMarkdown_block (text : string) :
  hasInk text = true ->
  isReasoningBlock (formatReasoningMarkdown text) (reasoningLines text).
Proof.
  intros Hink.
  destruct (@reasoningLines_head text Hink) as [line [lines Hlines]].
  split; [rewrite Hlines; discriminate|].
  split; [apply trimmed_lines|].
  unfold formatReasoningMarkdown. cbv zeta.
  rewrite trim_empty_iff, Hink. cbn [negb].
  change (filter (fun line0 => negb (JsString.isEmpty line0))
                 (map JsString.trim (splitLines (JsString.trim text))))
    with (reasoningLines text).
  rewrite Hlines. reflexivity.
Qed.

(** X9.  [formatReasoningMarkdown] returns the empty string exactly for a
    text of white space only.  Every other text gives a reasoning block:
    the line "_Reasoning:_" and then, each on a line of its own and
    between two underscores, the lines of the trimmed text, trimmed and
    without the empty ones; there is at least one such line, and each
    holds a character that is not white space. *)
Theorem formatReasoningMarkdown_header (text : string) :
  JsString.isEmpty (formatReasoningMarkdown text) = negb (hasInk text)
  /\ JsString.startsWith (formatReasoningMarkdown text) reasoningHeader
     = hasInk text
  /\ if hasInk text
     then isReasoningBlock (formatReasoningMarkdown text)
                           (reasoningLines text)
     else formatReasoningMarkdown text = "".
Proof.
  destruct (hasInk text) eqn:Hink.
  - split; [|split; [|now apply formatReasoningMarkdown_block]];
      destruct (@formatReasoningMarkdown_ink text Hink) as [rest ->];
      [reflexivity|apply startsWith_append].
  - rewrite (@formatReasoningMarkdown_blank text Hink).
    repeat split; reflexivity.
Qed.

(** X10.  A reasoning text that [extractThinking] returns is never blank:
    it holds a character that is not white space, so that
    [formatReasoningMarkdown] makes a whole reasoning block of it, the line
    "_Reasoning:_" followed by each of its lines that is not blank,
    trimmed and between two underscores. *)
Theorem extracted_thinking_has_a_block (message : JsValue) (thinking : string) :
  extractThinking message = Ok (Some thinking) ->
  hasInk thinking = true
  /\ isReasoningBlock (formatReasoningMarkdown thinking)
                      (reasoningLines thinking).
Proof.
  intros H. apply extractThinking_ink in H. split; [exact H|].
  now apply formatReasoningMarkdown_block.
Qed.

(** X10 at reasoning in legacy tags beside a blank reasoning part. *)
Lemma extracted_thinking_has_a_block_witness :
  extractThinking Sample.blankThinking = Ok (Some "Y")
  /\ hasInk "Y" = true
  /\ isReasoningBlock (formatReasoningMarkdown "Y") (reasoningLines "Y").
Proof.
  split; [reflexivity|].
  apply (@extracted_thinking_has_a_block Sample.blankThinking "Y").
  reflexivity.
Defined.

Lemma rmapM_throws {B : Type} (f : JsValue -> Res B) (items : list JsValue) :
  (forall p, Js.nullish p = true -> f p = Throw) ->
  forallb (fun p => negb (Js.nullish p)) items = false ->
  rmapM f items = Throw.
Proof.
  intros Hf. induction items as [|p items IH]; [discriminate|].
  cbn [forallb rmapM]. destruct (Js.nullish p) eqn:Hp; cbn [negb andb].
  - intros _. now rewrite (Hf p Hp).
  - intros H. rewrite (IH H). now destruct (f p).
Qed.

Lemma extractThinking_throws (m : JsValue) :
  readable m = false -> extractThinking m = Throw.
Proof.
  unfold readable, extractThinking, Js.get. intros H.
  destruct (Js.nullish m); [reflexivity|]. cbn [negb andb rbind] in *.
  destruct (Js.prop m "content"); try discriminate.
  cbn [thinkingParts]. unfold rmap.
  rewrite (@rmapM_throws _ thinkingOfPart items); [reflexivity| |exact H].
  intros p Hp. unfold thinkingOfPart, Js.get. now rewrite Hp.
Qed.

Section Throwing.

Variable strip : string -> string.

(** X11.  [extractText], [extractRawText] and [extractThinking] throw on
    the same messages, those that cannot be read: [null], [undefined] and
    a message whose array content holds a [null] or [undefined] part;
    on every other message each of the three returns. *)
Theorem extraction_throws_iff (message : JsValue) :
  (extractText strip message = Throw <-> readable message = false)
  /\ (extractRawText message = Throw <-> readable message = false)
  /\ (extractThinking message = Throw <-> readable message = false).
Proof.
  assert (Htext : extractText strip message = Throw
                  <-> readable message = false).
  { split; [|apply extractText_throws].
    destruct (readable message) eqn:Hr; [|reflexivity].
    destruct (@extractText_ok strip _ Hr) as [text Htext]. congruence. }
  assert (Hraw : extractRawText message = Throw
                 <-> readable message = false).
  { rewrite <- Htext, extractText_raw. unfold rmap.
    destruct (extractRawText message); cbn [rbind]; split; congruence. }
  split; [exact Htext|]. split; [exact Hraw|].
  split; [|apply extractThinking_throws].
  destruct (readable message) eqn:Hr; [|reflexivity].
  pose proof (readable_not_nullish _ Hr) as Hn.
  unfold extractThinking. rewrite get_ok by assumption. cbn [rbind].
  rewrite (@thinkingParts_pure _ Hr). cbn [rbind].
  destruct (cleanedThinking message); [|discriminate].
  destruct (extractRawText message) as [raw|] eqn:Hrawtext; cbn [rbind];
    [discriminate|].
  intros _. now apply Hraw.
Qed.

End Throwing.

(** ** views/chat.ts: tool cards and what is painted *)

Section Painting.

Variable strip : string -> string.
Variable parse : string -> Res JsValue.

(** [extractToolCards] on a message all of whose parts have kinds: the
    cards of the parts, and one more result card, which takes the text
    of the message, when the role is a tool result role and no part made
    a result card. *)
Lemma partCards_cases (m : JsValue) :
  Js.nullish m = false ->
  printableKinds m = true ->
  exists partCards isResult,
    isToolResultMessage m = Ok isResult
    /\ existsb isResultCard partCards = existsb isResultPart (contentParts m)
    /\ extractToolCards strip parse m
       = if isResult && negb (existsb isResultPart (contentParts m))
         then let? text := extractText strip m in
              Ok (partCards ++ [ResultCard (resultName m) text])%list
         else Ok partCards.
Proof.
  intros Hn Hprintable.
  pose proof (@extractToolCards_cases strip parse m Hn) as Hcases.
  rewrite Hprintable in Hcases.
  destruct Hcases
    as [calls [results [isResult [Hres [_ [Hnone [Hsome Hcards]]]]]]].
  exists (calls ++ results)%list, isResult.
  split; [exact Hres|]. split; [|exact Hcards].
  now rewrite existsb_app, Hnone, Hsome.
Qed.

Lemma unprintable_throws (m : JsValue) :
  Js.nullish m = false ->
  printableKinds m = false ->
  extractToolCards strip parse m = Throw.
Proof.
  intros Hn Hprintable.
  pose proof (@extractToolCards_cases strip parse m Hn) as Hcases.
  now rewrite Hprintable in Hcases.
Qed.

(** X12.  [extractToolCards] throws on [null] and [undefined]; on a
    message with a part, other than a falsy one, whose [type] the
    conversion [String] fails on, which is an object with an own property
    [toString] or an array that holds such an object; and on a message of
    a tool result role none of whose parts makes a result card and whose
    text cannot be extracted.  On every other message it returns, also
    when the content holds a [null] part, which the function filters
    out. *)
Theorem extractToolCards_throws_iff (message : JsValue) :
  extractToolCards strip parse message = Throw
  <-> Js.nullish message = true
      \/ printableKinds message = false
      \/ (isToolResultMessage message = Ok true
          /\ existsb isResultPart (contentParts message) = false
          /\ readable message = false).
Proof.
  destruct (Js.nullish message) eqn:Hn.
  - unfold extractToolCards, Js.get. rewrite Hn. cbn [rbind]. tauto.
  - destruct (printableKinds message) eqn:Hprintable.
    2:{ rewrite (@unprintable_throws message Hn Hprintable). tauto. }
    destruct (@partCards_cases message Hn Hprintable)
      as [cards [isResult [Hrole [_ Hcards]]]].
    rewrite Hcards, Hrole. clear Hcards Hrole.
    destruct isResult, (existsb isResultPart (contentParts message));
      cbn [andb negb].
    + split; [discriminate|].
      intros [H|[H|[_ [H _]]]]; discriminate.
    + destruct (readable message) eqn:Hr.
      * destruct (@extractText_ok strip _ Hr) as [text ->]. cbn [rbind].
        split; [discriminate|].
        intros [H|[H|[_ [_ H]]]]; discriminate.
      * rewrite (@extractText_throws strip _ Hr). cbn [rbind].
        split; auto.
    + split; [discriminate|].
      intros [H|[H|[H _]]]; discriminate.
    + split; [discriminate|].
      intros [H|[H|[H _]]]; discriminate.
Qed.

(** X13.  The cards that [extractToolCards] returns hold a result card
    exactly when the role of the message is a tool result role or one of
    its parts is a tool result: a message of such a role never comes
    without a result card. *)
Theorem result_card_iff (message : JsValue) (cards : list ToolCard) :
  extractToolCards strip parse message = Ok cards ->
  exists isResult,
    isToolResultMessage message = Ok isResult
    /\ existsb isResultCard cards
       = isResult || existsb isResultPart (contentParts message).
Proof.
  intros Hrun.
  assert (Hn : Js.nullish message = false).
  { destruct (Js.nullish message) eqn:Hn; [|reflexivity].
    unfold extractToolCards, Js.get in Hrun. now rewrite Hn in Hrun. }
  assert (Hprintable : printableKinds message = true).
  { destruct (printableKinds message) eqn:Hp; [reflexivity|].
    rewrite (@unprintable_throws message Hn Hp) in Hrun. discriminate Hrun. }
  destruct (@partCards_cases message Hn Hprintable)
    as [partCards [isResult [Hrole [Hkinds Hcards]]]].
  exists isResult. split; [exact Hrole|].
  rewrite Hcards in Hrun. clear Hcards.
  destruct isResult, (existsb isResultPart (contentParts message));
    cbn [andb negb orb] in *;
    try (assert (cards = partCards) by congruence; now subst).
  destruct (extractText strip message) as [text|]; cbn [rbind] in Hrun;
    [|discriminate].
  assert (Hc : cards
               = (partCards ++ [ResultCard (resultName message) text])%list)
    by congruence.
  rewrite Hc, existsb_app. cbn [existsb isResultCard]. now rewrite orb_true_r.
Qed.

End Painting.

(** X13 at a tool result with a result part of its own. *)
Lemma result_card_iff_witness :
  exists cards,
    extractToolCards stripLegacyThinking Sample.parse Cases.explicitResult
    = Ok cards
    /\ existsb isResultCard cards = true.
Proof.
  eexists. split; [reflexivity|].
  destruct (@result_card_iff stripLegacyThinking Sample.parse
              Cases.explicitResult _ eq_refl) as [isResult [Hrole Hcards]].
  rewrite Hcards. injection Hrole as <-. reflexivity.
Defined.

Lemma ink_not_empty (s : string) :
  hasInk s = true -> JsString.isEmpty s = false.
Proof.
  destruct s; [discriminate|reflexivity].
Qed.

Lemma extractThinking_ok (m : JsValue) :
  readable m = true -> exists thinking, extractThinking m = Ok thinking.
Proof.
  intros Hr. pose proof (readable_not_nullish _ Hr) as Hn.
  unfold extractThinking. rewrite get_ok by assumption. cbn [rbind].
  rewrite (@thinkingParts_pure _ Hr). cbn [rbind].
  destruct (cleanedThinking m); [|eauto].
  destruct (@extractText_ok (fun s => s) _ Hr) as [text Htext].
  rewrite extractText_raw in Htext. unfold rmap in Htext.
  destruct (extractRawText m); cbn [rbind] in *; [eauto|discriminate].
Qed.

Lemma joinBlocks_truthy (thinking : string) (base : option string) :
  hasInk thinking = true ->
  JsString.isEmpty (joinBlocks (formatReasoningMarkdown thinking) base)
  = false.
Proof.
  intros Hink. destruct (@formatReasoningMarkdown_ink thinking Hink)
    as [rest ->].
  unfold joinBlocks, reasoningHeader. cbn [filter String.append].
  cbn [JsString.isEmpty negb].
  destruct (filter (fun s => negb (JsString.isEmpty s))
                   match base with Some b => [b] | None => [] end);
    reflexivity.
Qed.

(** The text that [renderGroupedMessage] paints is there exactly when
    reasoning is shown or the extracted text is not blank. *)
Lemma markdown_truthy (reasoning text : option string) :
  (forall thinking, reasoning = Some thinking -> hasInk thinking = true) ->
  truthyText
    (if truthyText reasoning
     then option_map
            (fun thinking =>
               joinBlocks (formatReasoningMarkdown thinking)
                          (if nonBlank text then text else None))
            reasoning
     else if nonBlank text then text else None)
  = match reasoning with Some _ => true | None => false end || nonBlank text.
Proof.
  intros Hink. destruct reasoning as [thinking|].
  - specialize (Hink thinking eq_refl). cbn [truthyText].
    rewrite (@ink_not_empty thinking Hink). cbn [negb option_map truthyText].
    now rewrite joinBlocks_truthy.
  - cbn [truthyText orb]. destruct text as [t|]; [|reflexivity].
    cbn [nonBlank]. rewrite trim_empty_iff, negb_involutive.
    destruct (hasInk t) eqn:Ht; [|reflexivity].
    cbn [truthyText]. now rewrite (@ink_not_empty t Ht).
Qed.

Section Bubbles.

Variable strip : string -> string.
Variable parse : string -> Res JsValue.

Lemma extractToolCards_ok (m : JsValue) :
  readable m = true ->
  printableKinds m = true ->
  exists cards, extractToolCards strip parse m = Ok cards.
Proof.
  intros Hr Hp. pose proof (readable_not_nullish _ Hr) as Hn.
  destruct (@partCards_cases strip parse m Hn Hp)
    as [cards [isResult [_ [_ ->]]]].
  destruct (@extractText_ok strip _ Hr) as [text ->]. cbn [rbind].
  destruct (isResult && negb (existsb isResultPart (contentParts m))); eauto.
Qed.

(** [renderGroupedMessage] on a message that can be read, from what the
    three extractions return. *)
Lemma renderGroupedMessage_readable (m : JsValue)
      (isStreaming showReasoning : bool) (cards : list ToolCard)
      (text thinking : option string) :
  readable m = true ->
  extractToolCards strip parse m = Ok cards ->
  extractText strip m = Ok text ->
  extractThinking m = Ok thinking ->
  let role := Js.stringOr (Js.prop m "role") "unknown" in
  let isToolResult :=
    String.eqb (JsString.toLowerCase (Js.stringOr (Js.prop m "role") ""))
               "toolresult"
    || String.eqb (JsString.toLowerCase (Js.stringOr (Js.prop m "role") ""))
                  "tool_result"
    || String.eqb (JsString.toLowerCase role) "toolresult"
    || String.eqb (JsString.toLowerCase role) "tool_result"
    || Js.isString (Js.prop m "toolCallId")
    || Js.isString (Js.prop m "tool_call_id") in
  let reasoning :=
    if showReasoning && String.eqb role "assistant" then thinking else None in
  let shown :=
    match reasoning with Some _ => true | None => false end
    || nonBlank text in
  let markdown :=
    match reasoning with
    | Some shownThinking =>
        Some (joinBlocks (formatReasoningMarkdown shownThinking)
                         (if nonBlank text then text else None))
    | None => if nonBlank text then text else None
    end in
  renderGroupedMessage strip parse m isStreaming showReasoning
  = Ok (if negb shown && (0 <? Z.of_nat (List.length cards)) && isToolResult
        then RenderCards cards
        else if negb shown && negb (0 <? Z.of_nat (List.length cards))
        then RenderNothing
        else RenderBubble (if isStreaming
                           then "chat-bubble streaming fade-in"
                           else "chat-bubble fade-in")
                          (if shown then markdown else None)
                          cards).
Proof.
  intros Hr Hcards Htext Hthinking role isToolResult reasoning shown
         markdown.
  pose proof (readable_not_nullish _ Hr) as Hn.
  assert (Hink : forall th, reasoning = Some th -> hasInk th = true).
  { intros th Hth. apply (@extractThinking_ink m). unfold reasoning in Hth.
    destruct (showReasoning && String.eqb role "assistant");
      [congruence|discriminate]. }
  pose proof (@markdown_truthy reasoning text Hink) as Hshown.
  fold shown in Hshown.
  unfold renderGroupedMessage. rewrite !get_ok by assumption. cbn [rbind].
  rewrite (isToolResultMessage_role _ Hn). cbn [rbind].
  rewrite Hcards. cbn [rbind]. rewrite Htext. cbn [rbind].
  fold role.
  assert (Hreasoning :
            (if showReasoning && String.eqb role "assistant"
             then extractThinking m else Ok None) = Ok reasoning).
  { unfold reasoning.
    destruct (showReasoning && String.eqb role "assistant");
      [exact Hthinking|reflexivity]. }
  rewrite Hreasoning. cbn [rbind]. cbv zeta. fold isToolResult.
  rewrite Hshown.
  assert (Hmarkdown :
            (if truthyText reasoning
             then option_map
                    (fun th =>
                       joinBlocks (formatReasoningMarkdown th)
                                  (if nonBlank text then text else None))
                    reasoning
             else if nonBlank text then text else None) = markdown).
  { unfold markdown. destruct reasoning as [th|]; [|reflexivity].
    cbn [truthyText option_map].
    now rewrite (@ink_not_empty th (Hink th eq_refl)). }
  rewrite Hmarkdown.
  assert (Hclasses :
            JsString.join " "
              (filter (fun s => negb (JsString.isEmpty s))
                      ["chat-bubble"; if isStreaming then "streaming" else "";
                       "fade-in"])
            = if isStreaming then "chat-bubble streaming fade-in"
              else "chat-bubble fade-in").
  { destruct isStreaming; reflexivity. }
  rewrite Hclasses.
  destruct (negb shown && (0 <? Z.of_nat (List.length cards)) && isToolResult);
    [reflexivity|].
  destruct (negb shown && negb (0 <? Z.of_nat (List.length cards)));
    reflexivity.
Qed.

(** X14.  In the grouping layout, take a message that can be read and
    whose parts have kinds, so that the three extractions return.  It is
    painted as nothing exactly when it has no tool card, its extracted
    text is blank or missing, and no reasoning is shown for it.
    Reasoning that is shown always makes a bubble: the bubble holds the
    reasoning block, followed after an empty line by the extracted text
    when that is not blank, and the tool cards. *)
Theorem grouped_message_nothing_iff (message : JsValue)
        (isStreaming showReasoning : bool) :
  readable message = true ->
  printableKinds message = true ->
  exists cards text thinking,
    extractToolCards strip parse message = Ok cards
    /\ extractText strip message = Ok text
    /\ extractThinking message = Ok thinking
    /\ let reasoning :=
         if showReasoning
            && String.eqb (Js.stringOr (Js.prop message "role") "unknown")
                          "assistant"
         then thinking else None in
       (renderGroupedMessage strip parse message isStreaming showReasoning
        = Ok RenderNothing
        <-> cards = [] /\ nonBlank text = false /\ reasoning = None)
       /\ match reasoning with
          | Some shown =>
              renderGroupedMessage strip parse message isStreaming
                                   showReasoning
              = Ok (RenderBubble
                      (if isStreaming then "chat-bubble streaming fade-in"
                       else "chat-bubble fade-in")
                      (Some (joinBlocks
                               (formatReasoningMarkdown shown)
                               (if nonBlank text then text else None)))
                      cards)
          | None => True
          end.
Proof.
  intros Hr Hp.
  destruct (@extractToolCards_ok message Hr Hp) as [cards Hcards].
  destruct (@extractText_ok strip message Hr) as [text Htext].
  destruct (@extractThinking_ok message Hr) as [thinking Hthinking].
  exists cards, text, thinking.
  split; [exact Hcards|]. split; [exact Htext|]. split; [exact Hthinking|].
  cbv zeta.
  rewrite (@renderGroupedMessage_readable message isStreaming showReasoning
             cards text thinking Hr Hcards Htext Hthinking).
  cbv zeta.
  destruct (if showReasoning
               && String.eqb (Js.stringOr (Js.prop message "role") "unknown")
                             "assistant"
            then thinking else None) as [th|].
  - cbn [orb negb andb]. split; [|reflexivity].
    split; [discriminate|intros [H1 [H2 H3]]; discriminate].
  - split; [|exact I].
    destruct (nonBlank text); destruct cards as [|card cards];
      cbn [orb negb andb List.length Nat.add Z.of_nat Z.ltb Z.compare];
      try (split; [discriminate|intros [H1 [H2 H3]]; discriminate]).
    + split; intros _; [repeat split|]; reflexivity.
    + destruct (_ || _ : bool);
        (split; [discriminate|intros [H1 [H2 H3]]; discriminate]).
Qed.

(** X15.  A message of a tool result role that can be read, and whose
    parts have kinds, shows no text in the legacy layout, where [display]
    is null and only its cards are painted, and is never painted as
    nothing in the grouping layout: it comes with a result card, alone or
    inside a bubble with its text. *)
Theorem tool_result_rendering (message : JsValue)
        (isStreaming showReasoning : bool) :
  readable message = true ->
  printableKinds message = true ->
  isToolResultMessage message = Ok true ->
  exists cards,
    extractToolCards strip parse message = Ok cards
    /\ existsb isResultCard cards = true
    /\ renderMessageDisplay strip parse message showReasoning = Ok None
    /\ (renderGroupedMessage strip parse message isStreaming showReasoning
        = Ok (RenderCards cards)
        \/ exists classes markdown,
             renderGroupedMessage strip parse message isStreaming
                                  showReasoning
             = Ok (RenderBubble classes (Some markdown) cards)).
Proof.
  intros Hr Hp Hrole. pose proof (readable_not_nullish _ Hr) as Hn.
  destruct (@extractToolCards_ok message Hr Hp) as [cards Hcards].
  destruct (@extractText_ok strip message Hr) as [text Htext].
  destruct (@extractThinking_ok message Hr) as [thinking Hthinking].
  assert (Hresult : existsb isResultCard cards = true).
  { destruct (@partCards_cases strip parse message Hn Hp)
      as [partCards [isResult [Hrole' [Hkinds Hrun]]]].
    assert (isResult = true) by congruence. subst isResult.
    rewrite Hcards, Htext in Hrun. cbn [andb rbind] in Hrun.
    destruct (existsb isResultPart (contentParts message)); cbn [negb] in Hrun.
    - assert (cards = partCards) by congruence. now subst.
    - assert (Hc : cards
                   = (partCards ++ [ResultCard (resultName message) text])
                       %list) by congruence.
      rewrite Hc, existsb_app. cbn [existsb isResultCard].
      now rewrite orb_true_r. }
  assert (Hsome : (0 <? Z.of_nat (List.length cards)) = true).
  { destruct cards; [discriminate|reflexivity]. }
  exists cards. split; [exact Hcards|]. split; [exact Hresult|]. split.
  - unfold renderMessageDisplay. rewrite !get_ok by assumption.
    cbn [rbind]. rewrite Hcards. cbn [rbind]. rewrite Hrole. cbn [rbind].
    rewrite Htext. cbn [rbind].
    assert (Hreasoning : exists reasoning,
              (if showReasoning
                  && String.eqb
                       (Js.stringOr (Js.prop message "role") "unknown")
                       "assistant"
               then extractThinking message else Ok None) = Ok reasoning).
    { destruct (showReasoning && _); eauto. }
    destruct Hreasoning as [reasoning ->]. cbn [rbind].
    rewrite Hsome. cbn [rbind orb negb andb]. reflexivity.
  - rewrite (@renderGroupedMessage_readable message isStreaming
               showReasoning cards text thinking Hr Hcards Htext Hthinking).
    cbv zeta. rewrite Hsome.
    rewrite (isToolResultMessage_role _ Hn) in Hrole.
    injection Hrole as Hrole. cbv zeta in Hrole. rewrite Hrole.
    cbn [orb andb negb].
    destruct (if showReasoning
                 && String.eqb
                      (Js.stringOr (Js.prop message "role") "unknown")
                      "assistant"
              then thinking else None) as [th|]; cbn [orb negb andb].
    + right. eexists. eexists. reflexivity.
    + destruct (nonBlank text) eqn:Hblank; cbn [negb andb]; [|now left].
      right. destruct text as [t|]; [|discriminate Hblank].
      eexists. eexists. reflexivity.
Qed.

(** X16.  The live text of a stream is painted from the message that
    [renderChat] makes of it.  When the text is not blank once the
    thinking tags are stripped, both layouts show the stripped text.  When
    it is blank, a stream that holds reasoning in tags and nothing else,
    the grouping layout paints nothing, whereas [display] of the legacy
    layout falls back to the JSON text of the made-up message. *)
Theorem stream_rendering (text : string) (startedAt : Z)
        (showReasoning : bool) :
  exists json,
    Json.stringifyPretty (streamMessage text startedAt) = Ok (Some json)
    /\ renderMessageDisplay strip parse (streamMessage text startedAt)
                            showReasoning
       = Ok (Some (if nonBlank (Some (strip text))
                   then DisplayText (strip text)
                   else DisplayJson json))
    /\ renderGroupedMessage strip parse (streamMessage text startedAt)
                            true false
       = Ok (if nonBlank (Some (strip text))
             then RenderBubble "chat-bubble streaming fade-in"
                               (Some (strip text)) []
             else RenderNothing).
Proof.
  eexists. split; [cbn; reflexivity|]. split.
  - unfold renderMessageDisplay. cbn.
    destruct showReasoning; cbn; unfold JsString.trim;
      destruct (JsString.isEmpty
                  (JsString.trimEnd (JsString.trimStart (strip text))));
      reflexivity.
  - unfold renderGroupedMessage. cbn. unfold JsString.trim.
    destruct (JsString.isEmpty
                (JsString.trimEnd (JsString.trimStart (strip text))))
      eqn:Hblank; cbn; [reflexivity|].
    assert (Hne : JsString.isEmpty (strip text) = false).
    { destruct (strip text); [discriminate Hblank|reflexivity]. }
    rewrite Hne. reflexivity.
Qed.

End Bubbles.

(** X14 at a message whose only part is of type "text" and holds no
    text. *)
Lemma grouped_message_nothing_iff_witness :
  readable Sample.textless = true
  /\ printableKinds Sample.textless = true
  /\ renderGroupedMessage stripLegacyThinking Sample.parse Sample.textless
                          false true
     = Ok RenderNothing.
Proof.
  split; [reflexivity|]. split; [reflexivity|].
  destruct (@grouped_message_nothing_iff stripLegacyThinking Sample.parse
              Sample.textless false true eq_refl eq_refl)
    as [cards [text [thinking [Hcards [Htext [Hthinking [Hiff _]]]]]]].
  apply Hiff.
  assert (cards = []) by (vm_compute in Hcards; congruence).
  assert (text = None) by (vm_compute in Htext; congruence).
  subst. repeat split; reflexivity.
Defined.

(** X15 at a tool result with a result part of its own. *)
Lemma tool_result_rendering_witness :
  readable Cases.explicitResult = true
  /\ printableKinds Cases.explicitResult = true
  /\ isToolResultMessage Cases.explicitResult = Ok true
  /\ renderMessageDisplay stripLegacyThinking Sample.parse
                          Cases.explicitResult true
     = Ok None.
Proof.
  split; [reflexivity|]. split; [reflexivity|]. split; [reflexivity|].
  destruct (@tool_result_rendering stripLegacyThinking Sample.parse
              Cases.explicitResult false true eq_refl eq_refl eq_refl)
    as [cards [_ [_ [Hdisplay _]]]].
  exact Hdisplay.
Defined.

(** ** views/chat.ts: keys and the history window *)

Lemma skipn_S_tl {A : Type} (n : nat) :
  forall l : list A, skipn (S n) l = tl (skipn n l).
Proof.
  induction n as [|n IH]; intros [|a l]; try reflexivity.
  exact (IH l).
Qed.

Section Growth.

Variable strip : string -> string.

Lemma messageItems_snoc (msgs : list JsValue) :
  forall index old m key,
    messageItems strip msgs index = Ok old ->
    messageKey strip m (index + Z.of_nat (List.length msgs)) = Ok key ->
    messageItems strip (msgs ++ [m]) index = Ok (old ++ [MessageItem key m])%list.
Proof.
  induction msgs as [|a msgs IH]; intros index old m key Hold Hkey;
    cbn [messageItems app] in *.
  - assert (old = []) by congruence. subst old.
    cbn [List.length Z.of_nat] in Hkey. rewrite Z.add_0_r in Hkey.
    now rewrite Hkey.
  - destruct (messageKey strip a index) as [k|]; cbn [rbind] in *;
      [|discriminate].
    destruct (messageItems strip msgs (index + 1)) as [more|] eqn:Hmore;
      cbn [rbind] in *; [|discriminate].
    assert (old = MessageItem k a :: more) by congruence. subst old.
    rewrite (IH (index + 1) more m key Hmore); [reflexivity|].
    rewrite <- Hkey. f_equal. cbn [List.length]. lia.
Qed.

Lemma messageItems_tl (msgs : list JsValue) (index : Z)
      (old : list ChatItem) :
  messageItems strip msgs index = Ok old ->
  messageItems strip (tl msgs) (index + 1) = Ok (tl old).
Proof.
  destruct msgs as [|a msgs]; cbn [messageItems tl].
  - intros H. assert (old = []) by congruence. now subst old.
  - destruct (messageKey strip a index) as [k|]; cbn [rbind];
      [|discriminate].
    destruct (messageItems strip msgs (index + 1)) as [more|];
      cbn [rbind]; [|discriminate].
    intros H. assert (old = MessageItem k a :: more) by congruence.
    now subst old.
Qed.

(** X17.  A message appended to the history leaves the items of the
    messages shown as they are, keys included: the new message comes
    last, keyed by its index in the history, and when 200 messages were
    shown already, the oldest of them leaves the window. *)
Theorem history_items_survive_append (history : list JsValue) (m : JsValue)
        (old : list ChatItem) (key : string) :
  shownItems strip history = Ok old ->
  messageKey strip m (Z.of_nat (List.length history)) = Ok key ->
  shownItems strip (history ++ [m])
  = Ok ((if CHAT_HISTORY_RENDER_LIMIT <=? Z.of_nat (List.length history)
         then tl old else old) ++ [MessageItem key m])%list.
Proof.
  unfold shownItems, hiddenCount, CHAT_HISTORY_RENDER_LIMIT.
  intros Hold Hkey. rewrite length_app. cbn [List.length].
  destruct (200 <=? Z.of_nat (List.length history)) eqn:Hfull.
  - apply Z.leb_le in Hfull.
    rewrite Z.max_r in Hold by lia. rewrite Z.max_r by lia.
    replace (Z.of_nat (List.length history + 1) - 200)
      with (Z.of_nat (List.length history) - 200 + 1) by lia.
    replace (Z.to_nat (Z.of_nat (List.length history) - 200 + 1))
      with (S (Z.to_nat (Z.of_nat (List.length history) - 200))) by lia.
    rewrite skipn_app.
    replace (S (Z.to_nat (Z.of_nat (List.length history) - 200))
             - List.length history)%nat with 0%nat by lia.
    change (skipn 0 [m]) with [m]. rewrite skipn_S_tl.
    apply messageItems_snoc; [now apply messageItems_tl|].
    rewrite <- Hkey. f_equal. rewrite <- skipn_S_tl, length_skipn. lia.
  - apply Z.leb_gt in Hfull.
    rewrite Z.max_l in Hold by lia. rewrite Z.max_l by lia.
    cbn [Z.to_nat skipn] in *.
    apply messageItems_snoc; [exact Hold|].
    now rewrite Z.add_0_l.
Qed.

Lemma messageKey_position (m : JsValue) (i j : Z) :
  safeJson m <> None -> messageKey strip m i = messageKey strip m j.
Proof.
  intros Hjson. unfold messageKey.
  destruct (safeJson m); [reflexivity|contradiction].
Qed.

(** X18.  The items made of the tool messages do not depend on the
    index their keys are counted from, which is the length of the
    history, as long as [JSON.stringify] returns a text for each of them:
    the index enters a key only when neither text nor JSON text is there
    to hash. *)
Theorem tool_items_position_free (tools : list JsValue) (i j : Z) :
  Forall (fun m => safeJson m <> None) tools ->
  messageItems strip tools i = messageItems strip tools j.
Proof.
  intros H. revert i j.
  induction H as [|m tools Hm _ IH]; intros i j; [reflexivity|].
  cbn [messageItems].
  now rewrite (@messageKey_position m i j Hm), (IH (i + 1) (j + 1)).
Qed.

Lemma itemMessages_build_items (hidden now started : Z) (props : Props.t)
      (shown tools : list ChatItem) (msgs toolMsgs : list JsValue) :
  itemMessages shown = msgs -> itemMessages tools = toolMsgs ->
  exists notice,
    itemMessages (noticeItems hidden now ++ shown ++ tools
                    ++ liveItems props started)
    = (notice ++ msgs ++ toolMsgs)%list
    /\ Forall (fun m => readable m = true) notice.
Proof.
  intros Hshown Htools. exists (itemMessages (noticeItems hidden now)).
  split; [|apply itemMessages_notice].
  rewrite !itemMessages_app, Hshown, Htools.
  rewrite (itemMessages_live (liveItems_live props started)).
  now rewrite app_nil_r.
Qed.

(** X19.  In the grouping layout [buildChatItems] throws exactly when a
    message of the history window or a tool message cannot be read; the
    messages of the history that are not shown are never looked at. *)
Theorem grouped_build_throws_iff (props : Props.t) (clock : Clock) :
  let history := Props.messages props in
  let window := skipn (Z.to_nat (hiddenCount history)) history in
  Props.useNewChatLayout props = true ->
  buildChatItems strip props clock = Throw
  <-> exists m,
        In m (window ++ Props.toolMessages props)%list
        /\ readable m = false.
Proof.
  intros history window Hlayout.
  assert (Hiff : (exists out clock',
                     buildChatItems strip props clock = Ok (out, clock'))
                 <-> Forall (fun m => readable m = true)
                            (window ++ Props.toolMessages props)%list).
  { unfold buildChatItems, bind.
    destruct (chatItems_cases strip props clock) as [clock1 Hitems].
    cbv zeta in Hitems. fold history in Hitems. fold window in Hitems.
    rewrite Hitems, Hlayout. clear Hitems. split.
    - intros [out [clock' Hrun]].
      destruct (messageItems strip window (hiddenCount history))
        as [shown|] eqn:Hshown; cbn [rbind] in Hrun; [|discriminate].
      destruct (messageItems strip (Props.toolMessages props)
                             (Z.of_nat (List.length history)))
        as [tools|] eqn:Htools; cbn [rbind] in Hrun; [|discriminate].
      apply groupLoop_returns in Hrun.
      destruct (@itemMessages_build_items
                  (hiddenCount history) (clock 0%nat)
                  (clock (if 0 <? hiddenCount history then 1%nat else 0%nat))
                  props shown tools _ _
                  (messageItems_messages strip _ _ Hshown)
                  (messageItems_messages strip _ _ Htools))
        as [notice [Heq _]].
      rewrite Heq in Hrun. now apply Forall_app in Hrun.
    - intros Hall. apply Forall_app in Hall. destruct Hall as [Hw Ht].
      rewrite (messageItems_readable strip _ Hw),
              (messageItems_readable strip _ Ht). cbn [rbind].
      apply groupMessages_returns_iff.
      destruct (@itemMessages_build_items
                  (hiddenCount history) (clock 0%nat)
                  (clock (if 0 <? hiddenCount history then 1%nat else 0%nat))
                  props
                  (keyedFrom strip window (hiddenCount history))
                  (keyedFrom strip (Props.toolMessages props)
                             (Z.of_nat (List.length history)))
                  _ _
                  (itemMessages_keyedFrom strip _ _)
                  (itemMessages_keyedFrom strip _ _))
        as [notice [Heq Hnotice]].
      rewrite Heq. apply Forall_app. split; [exact Hnotice|].
      apply Forall_app. split; assumption. }
  split.
  - intros Hthrow.
    destruct (forallb readable (window ++ Props.toolMessages props))
      eqn:Hall.
    + rewrite forallb_forall in Hall.
      destruct (proj2 Hiff) as [out [clock' Hrun]];
        [now apply Forall_forall|congruence].
    + assert (Hex : existsb (fun m => negb (readable m))
                            (window ++ Props.toolMessages props) = true).
      { clear -Hall.
        induction (window ++ Props.toolMessages props)%list as [|m msgs IH];
          [discriminate|].
        cbn [forallb existsb] in *.
        destruct (readable m); cbn [negb andb orb] in *; auto. }
      apply existsb_exists in Hex. destruct Hex as [m [Hin Hm]].
      exists m. split; [assumption|]. now apply negb_true_iff.
  - intros [m [Hin Hm]].
    destruct (buildChatItems strip props clock) as [[out clock']|] eqn:Hrun;
      [|reflexivity].
    assert (Hall : Forall (fun m => readable m = true)
                          (window ++ Props.toolMessages props)%list).
    { apply Hiff. eauto. }
    rewrite Forall_forall in Hall. specialize (Hall m Hin). congruence.
Qed.

End Growth.

(** X17 at a second message after a first. *)
Lemma history_items_survive_append_witness :
  shownItems stripLegacyThinking [Sample.hi]
  = Ok [MessageItem "msg:user:5:sx4lga" Sample.hi]
  /\ messageKey stripLegacyThinking Sample.toolReply 1 = Ok "msg:tool:at2lwx"
  /\ shownItems stripLegacyThinking [Sample.hi; Sample.toolReply]
     = Ok [MessageItem "msg:user:5:sx4lga" Sample.hi;
           MessageItem "msg:tool:at2lwx" Sample.toolReply].
Proof.
  split; [reflexivity|]. split; [reflexivity|].
  apply (@history_items_survive_append stripLegacyThinking
           [Sample.hi] Sample.toolReply
           [MessageItem "msg:user:5:sx4lga" Sample.hi] "msg:tool:at2lwx");
    reflexivity.
Defined.

(** X18 at one tool message, counted from 0 and from 7. *)
Lemma tool_items_position_free_witness :
  Forall (fun m => safeJson m <> None) [Sample.toolReply]
  /\ messageItems stripLegacyThinking [Sample.toolReply] 0
     = messageItems stripLegacyThinking [Sample.toolReply] 7.
Proof.
  assert (H : Forall (fun m => safeJson m <> None) [Sample.toolReply]).
  { constructor; [discriminate|constructor]. }
  split; [exact H|].
  apply (@tool_items_position_free stripLegacyThinking [Sample.toolReply]
           0 7 H).
Defined.

(** X19 at three messages that can be read. *)
Lemma grouped_build_throws_iff_witness :
  Props.useNewChatLayout Sample.identified = true
  /\ buildChatItems stripLegacyThinking Sample.identified Sample.clock
     <> Throw.
Proof.
  split; [reflexivity|]. intros Hthrow.
  apply (@grouped_build_throws_iff stripLegacyThinking Sample.identified
           Sample.clock eq_refl) in Hthrow.
  destruct Hthrow as [m [Hin Hm]].
  cbn in Hin.
  destruct Hin as [<-|[<-|[<-|[]]]]; discriminate Hm.
Defined.

Section KeyErrors.

Variable strip : string -> string.

(** X20.  [messageKey] throws on [null] and [undefined], and on a message
    that cannot be read and has no identifier to be keyed by: a message
    with a non-empty [toolCallId], [id] or [messageId] gets its key
    without its content being looked at. *)
Theorem messageKey_throws_iff (message : JsValue) (index : Z) :
  messageKey strip message index = Throw
  <-> Js.nullish message = true
      \/ (nonEmptyString (Js.prop message "toolCallId") = None
          /\ nonEmptyString (Js.prop message "id") = None
          /\ nonEmptyString (Js.prop message "messageId") = None
          /\ readable message = false).
Proof.
  destruct (Js.nullish message) eqn:Hn.
  - unfold messageKey, Js.get. rewrite Hn. cbn [rbind]. tauto.
  - unfold messageKey. rewrite !get_ok by assumption. cbn [rbind].
    pose proof (nonEmptyString_stringOr (Js.prop message "toolCallId")) as Ht.
    pose proof (nonEmptyString_stringOr (Js.prop message "id")) as Hi.
    pose proof (nonEmptyString_stringOr (Js.prop message "messageId")) as Hm.
    destruct (nonEmptyString (Js.prop message "toolCallId")) as [t|].
    { destruct Ht as [-> ->]. cbn [negb]. split; [discriminate|].
      intros [H|[H _]]; discriminate. }
    rewrite Ht. cbn [negb].
    destruct (nonEmptyString (Js.prop message "id")) as [i|].
    { destruct Hi as [-> ->]. cbn [negb]. split; [discriminate|].
      intros [H|[_ [H _]]]; discriminate. }
    rewrite Hi. cbn [negb].
    destruct (nonEmptyString (Js.prop message "messageId")) as [mi|].
    { destruct Hm as [-> ->]. cbn [negb]. split; [discriminate|].
      intros [H|[_ [_ [H _]]]]; discriminate. }
    rewrite Hm. cbn [negb].
    destruct (readable message) eqn:Hr.
    + destruct (@extractText_ok strip _ Hr) as [text ->]. cbn [rbind].
      split; [discriminate|]. intros [H|[_ [_ [_ H]]]]; discriminate.
    + rewrite (@extractText_throws strip _ Hr). cbn [rbind].
      split; auto.
Qed.

End KeyErrors.

(** ** views/chat.ts: the legacy reasoning tags *)

Lemma matchAllFrom_no_angle (s : string) :
  noAngle s = true -> forall skip, ThinkingTag.matchAllFrom s skip = [].
Proof.
  induction s as [|c r IH]; intros Hno skip; [reflexivity|].
  cbn [noAngle] in Hno. apply andb_true_iff in Hno.
  destruct Hno as [Hc Hr]. apply negb_true_iff in Hc.
  cbn [ThinkingTag.matchAllFrom].
  destruct skip as [|k]; [|now apply IH].
  assert (Hexec : ThinkingTag.execAt (String c r) = None).
  { unfold ThinkingTag.execAt, ThinkingTag.tag.
    cbn [ThinkingTag.literal]. unfold ThinkingTag.sameChar.
    cbn [andb orb].
    assert (Hneq : Ascii.eqb "<" c = false).
    { apply Ascii.eqb_neq. intros <-. discriminate Hc. }
    rewrite Hneq. reflexivity. }
  rewrite Hexec. now apply IH.
Qed.

(** X21.  A message whose content is a string without the character [<]
    has no reasoning to show: it has no structured reasoning part, and
    the scan for the legacy tags finds nothing in its text. *)
Theorem no_angle_no_thinking (message : JsValue) (raw : string) :
  Js.prop message "content" = JStr raw ->
  noAngle raw = true ->
  extractThinking message = Ok None.
Proof.
  intros Hc Hno.
  assert (Hn : Js.nullish message = false).
  { destruct message; try reflexivity; discriminate Hc. }
  unfold extractThinking. rewrite get_ok by assumption. cbn [rbind].
  rewrite Hc. cbn [thinkingParts rbind].
  unfold extractRawText. rewrite get_ok by assumption. cbn [rbind].
  rewrite Hc. cbn [rbind]. unfold legacyThinking.
  destruct (JsString.isEmpty raw); [reflexivity|]. cbv zeta.
  unfold ThinkingTag.matchAll. now rewrite matchAllFrom_no_angle.
Qed.

(** X21 at the message "hi". *)
Lemma no_angle_no_thinking_witness :
  Js.prop Sample.hi "content" = JStr "hi"
  /\ noAngle "hi" = true
  /\ extractThinking Sample.hi = Ok None.
Proof.
  split; [reflexivity|]. split; [reflexivity|].
  apply (@no_angle_no_thinking Sample.hi "hi"); reflexivity.
Defined.

Lemma matchAllFrom_skipped (s : string) :
  forall skip, (String.length s <= skip)%nat ->
               ThinkingTag.matchAllFrom s skip = [].
Proof.
  induction s as [|c r IH]; intros skip Hlen; [reflexivity|].
  cbn [String.length] in Hlen. destruct skip as [|k]; [lia|].
  cbn [ThinkingTag.matchAllFrom]. apply IH. lia.
Qed.

Lemma tag_needs_angle (closing : bool) (c : ascii) (r : string) :
  (JsString.charCode c =? 60) = false ->
  ThinkingTag.tag closing (String c r) = None.
Proof.
  intros Hc. unfold ThinkingTag.tag. cbn [ThinkingTag.literal].
  unfold ThinkingTag.sameChar. cbn [andb orb].
  assert (Hneq : Ascii.eqb "<" c = false).
  { apply Ascii.eqb_neq. intros <-. discriminate Hc. }
  now rewrite Hneq.
Qed.

Lemma body_to_closing_tag (inner : string) :
  noAngle inner = true ->
  ThinkingTag.body (inner ++ "</think>") = Some (inner, "").
Proof.
  induction inner as [|c r IH]; intros Hno; [reflexivity|].
  cbn [noAngle] in Hno. apply andb_true_iff in Hno.
  destruct Hno as [Hc Hr]. apply negb_true_iff in Hc.
  cbn [String.append ThinkingTag.body].
  rewrite (@tag_needs_angle true c _ Hc). now rewrite (IH Hr).
Qed.

(** X22.  A string content that is one reasoning span in legacy tags,
    [<think>] and [</think>] around a text without the character [<] that
    is not blank, with no structured reasoning part beside it, gives that
    text, trimmed, as the reasoning of the message. *)
Theorem legacy_span_extracted (message : JsValue) (inner : string) :
  Js.prop message "content" = JStr ("<think>" ++ inner ++ "</think>") ->
  noAngle inner = true ->
  hasInk inner = true ->
  extractThinking message = Ok (Some (JsString.trim inner)).
Proof.
  intros Hc Hno Hink.
  assert (Hn : Js.nullish message = false).
  { destruct message; try reflexivity; discriminate Hc. }
  unfold extractThinking. rewrite get_ok by assumption. cbn [rbind].
  rewrite Hc. cbn [thinkingParts rbind].
  unfold extractRawText. rewrite get_ok by assumption. cbn [rbind].
  rewrite Hc. cbn [rbind]. unfold legacyThinking.
  cbn [String.append JsString.isEmpty]. cbv zeta.
  assert (Hmatch : ThinkingTag.matchAll
                     (String "<" ("think>" ++ inner ++ "</think>"))
                   = [inner]).
  { unfold ThinkingTag.matchAll. cbn [ThinkingTag.matchAllFrom].
    assert (Hexec : ThinkingTag.execAt
                      (String "<" ("think>" ++ inner ++ "</think>"))
                    = Some (inner,
                            String.length
                              (String "<" ("think>" ++ inner ++ "</think>")))).
    { unfold ThinkingTag.execAt.
      assert (Htag : ThinkingTag.tag
                       false (String "<" ("think>" ++ inner ++ "</think>"))
                     = Some (inner ++ "</think>")) by reflexivity.
      rewrite Htag. cbn [ThinkingTag.andThen].
      rewrite (@body_to_closing_tag inner Hno).
      cbn [String.length Nat.sub]. reflexivity. }
    rewrite Hexec. cbn [String.length Nat.pred].
    now rewrite matchAllFrom_skipped. }
  cbn [String.append] in Hmatch. rewrite Hmatch. cbn [map filter].
  rewrite trim_empty_iff, Hink. reflexivity.
Qed.

(** X22 at the reasoning " why ". *)
Lemma legacy_span_extracted_witness :
  extractThinking
    (JObj [("role", JStr "assistant");
           ("content", JStr "<think> why </think>")])
  = Ok (Some "why").
Proof.
  apply (@legacy_span_extracted
           (JObj [("role", JStr "assistant");
                  ("content", JStr "<think> why </think>")])
           " why "); reflexivity.
Defined.
